(** * ds9SAMP launcher: a shallow embedding of [src/ds9SAMP/launcher.py]

    The class [DS9] spawns a ds9 viewer, waits for its private SAMP hub,
    discovers the viewer on the hub by name, watches it from a background
    thread and tears everything down on exit.

    - Python strings are sequences of Unicode code points: [str := list N].
    - The object [self] is a record; an attribute that has not been assigned
      yet is [None] of an [option] (reading it raises [AttributeError]).
    - Collaborators (the SAMP client, the child process, the file system,
      the clock, the other threads) answer through an oracle which sees the
      history of the interaction; every call and its answer is logged. *)

From Stdlib Require Import String Ascii.
From Stdlib Require Import List NArith ZArith Bool Lia.
Import ListNotations.
Local Open Scope N_scope.

(* ===================================================================== *)
(** ** Python strings *)
(* ===================================================================== *)

Abbreviation char := N (only parsing).
Abbreviation str := (list N) (only parsing).

(** A literal of the source, as the list of its code points. *)
Definition py (s : string) : str := map N_of_ascii (list_ascii_of_string s).

Fixpoint str_eqb (a b : str) : bool :=
  match a, b with
  | [], [] => true
  | x :: a', y :: b' => (x =? y) && str_eqb a' b'
  | _, _ => false
  end.

(** [str(n)] and [f"{n}"] for a non-negative [int]: the decimal digits,
    most significant first.  [fuel] bounds the number of digits. *)
Fixpoint dec_fuel (fuel : nat) (n : N) : str :=
  match fuel with
  | O => []
  | S f => (if n <? 10 then [] else dec_fuel f (n / 10)) ++ [48 + n mod 10]
  end.

Definition dec (n : N) : str := dec_fuel (S (N.to_nat (N.log2 n))) n.

(** [str(z)] for any [int]. *)
Definition dec_Z (z : Z) : str :=
  match z with
  | Zneg p => py "-" ++ dec (Npos p)
  | _ => dec (Z.to_N z)
  end.

(** [s.zfill(w)] on a digit string: zeros on the left up to width [w]. *)
Definition zfill (w : nat) (s : str) : str :=
  repeat 48 (w - length s) ++ s.

(** The format specification [0wd], as in [f"{n:06d}"], and the zero-padded
    numeric fields of [strftime]. *)
Definition format_0d (w : nat) (n : N) : str := zfill w (dec n).

(** Reading a digit string back (used to state that formatting loses
    nothing). *)
Definition parse_dec (s : str) : N :=
  fold_left (fun acc c => 10 * acc + (c - 48)) s 0.

(* ===================================================================== *)
(** ** The hub endpoint name (launcher.py, lines 56-61) *)
(* ===================================================================== *)

(** One item of a regular-expression character class. *)
Inductive class_item :=
| Range (lo hi : char)
| Single (c : char).

Definition in_item (c : char) (it : class_item) : bool :=
  match it with
  | Range lo hi => (lo <=? c) && (c <=? hi)
  | Single x => c =? x
  end.

Definition in_class (cls : list class_item) (c : char) : bool :=
  existsb (in_item c) cls.

(** [re.sub('[^cls]', repl, s)]: the pattern is one negated character
    class, so every match is a single character outside [cls], and the
    matches are replaced from left to right. *)
Definition re_sub_negclass (cls : list class_item) (repl s : str) : str :=
  flat_map (fun c => if in_class cls c then [c] else repl) s.

(** The class of [r'[^A-Za-z0-9\\.]'].  The pattern is a raw string, so the
    regular expression engine receives the two characters backslash
    backslash, an escaped backslash, followed by a dot: the class holds the
    letters, the digits, the backslash (code point 92) and the dot. *)
Definition hub_name_class : list class_item :=
  [Range 65 90; Range 97 122; Range 48 57; Single 92; Single 46].

(** Line 60: [re.sub(r'[^A-Za-z0-9\\.]', '_', samp_hub_name)]. *)
Definition sanitize (s : str) : str :=
  re_sub_negclass hub_name_class (py "_") s.

(** The set the specification names: letters, digits and the dot. *)
Definition alnum_dot (c : char) : bool :=
  in_class [Range 65 90; Range 97 122; Range 48 57; Single 46] c.

(** [datetime.now(UTC)]. *)
Record datetime := mk_datetime {
  year : N; month : N; day : N;
  hour : N; minute : N; second : N;
  microsecond : N
}.

(** The values [datetime] can hold, years of four digits (where [%Y] has
    four digits on every platform). *)
Definition valid_datetime (t : datetime) : Prop :=
  1000 <= year t <= 9999 /\ 1 <= month t <= 12 /\ 1 <= day t <= 31 /\
  hour t <= 23 /\ minute t <= 59 /\ second t <= 59 /\
  microsecond t <= 999999.

(** [tnow.strftime('%Y%m%dT%H%M%S')]. *)
Definition strftime_compact (t : datetime) : str :=
  format_0d 4 (year t) ++ format_0d 2 (month t) ++ format_0d 2 (day t) ++
  py "T" ++
  format_0d 2 (hour t) ++ format_0d 2 (minute t) ++ format_0d 2 (second t).

(** Line 59, the name before it is sanitized. *)
Definition raw_hub_name (title : str) (tnow : datetime) (pid : N) : str :=
  title ++ py "_utc" ++ strftime_compact tnow ++ py "." ++
  format_0d 6 (microsecond tnow) ++ py "_pid" ++ dec pid.

(** Lines 59-60. *)
Definition samp_hub_name (title : str) (tnow : datetime) (pid : N) : str :=
  sanitize (raw_hub_name title tnow pid).

(** Line 61: [f"{SAMP_HUB_PATH}/{samp_hub_name}.samp"]. *)
Definition samp_hub_file (hub_path title : str) (tnow : datetime) (pid : N) : str :=
  hub_path ++ py "/" ++ samp_hub_name title tnow pid ++ py ".samp".

(** Two construction times in the same wall-clock second. *)
Definition same_second (a b : datetime) : Prop :=
  year a = year b /\ month a = month b /\ day a = day b /\
  hour a = hour b /\ minute a = minute b /\ second a = second b.

(* ===================================================================== *)
(** ** Values, exceptions and collaborators *)
(* ===================================================================== *)

(** Objects owned by a collaborator (a process, a SAMP client, a thread, a
    callable) are known by a handle. *)
Abbreviation handle := N (only parsing).

(** The exceptions the launcher names, and the others by class: bare
    [except:] catches everything, [except Exception] does not catch the
    exceptions deriving from [BaseException] only ([KeyboardInterrupt],
    [SystemExit], [GeneratorExit]). *)
Inductive exn :=
| SAMPHubError (msg : str)
| RuntimeError (msg : str)
| AttributeError (attr : str)
| KeyError (key : str)
| OtherException (tag : N)
| BaseExceptionOnly (tag : N).

Definition is_Exception (e : exn) : bool :=
  match e with BaseExceptionOnly _ => false | _ => true end.

Definition is_SAMPHubError (e : exn) : bool :=
  match e with SAMPHubError _ => true | _ => false end.

Inductive outcome (A : Type) :=
| Returns (a : A)
| Raises (e : exn).
Arguments Returns {A} a.
Arguments Raises {A} e.

(** SAMP values: a string, a list or a map; [VNone] is Python's [None]. *)
#[local] Unset Elimination Schemes.
Inductive value :=
| VNone
| VStr (s : str)
| VList (l : list value)
| VMap (m : list (str * value)).
#[local] Set Elimination Schemes.

(** [v == s] for a [str] [s]. *)
Definition value_eq_str (v : value) (s : str) : bool :=
  match v with VStr s' => str_eqb s' s | _ => false end.

(** A [dict] in insertion order; [d[k]] is [dict_get d k], and a missing
    key ([None]) is a [KeyError]. *)
Fixpoint dict_get {V} (d : list (str * V)) (k : str) : option V :=
  match d with
  | [] => None
  | (k', v) :: d' => if str_eqb k' k then Some v else dict_get d' k
  end.

Fixpoint dict_set {V} (d : list (str * V)) (k : str) (v : V) : list (str * V) :=
  match d with
  | [] => [(k, v)]
  | (k', v') :: d' =>
      if str_eqb k' k then (k, v) :: d' else (k', v') :: dict_set d' k v
  end.

(** [signal.SIGTERM]. *)
Definition SIGTERM : N := 15.

(** The calls to collaborators, indexed by the type of the answer.  A call
    that can fail answers an [outcome].  Times are whole numbers of the
    clock's unit.

    [OsKill] is [os.kill]; line 129 sends [SIGTERM] to the host process
    itself.  Its answer here is that of a host which handles [SIGTERM] (the
    call returns) or of a call which fails (it raises).  A host with the
    default disposition ends at that call and runs nothing after it: what
    is said of a run beyond an [OsKill] holds for the former hosts only. *)
Inductive call : Type -> Type :=
| Getpid : call N
| AtexitRegister (use_callback main_thread : bool) : call unit
| Mkdir (path : str) : call (outcome unit)
| DatetimeNow : call datetime
| ShlexSplit (cmd : str) : call (outcome (list str))
| Popen (argv : list str) (env : list (str * str)) : call (outcome handle)
| SAMPIntegratedClient (name : str) : call (outcome handle)
| TimeTime : call Z
| Connect (samp : handle) : call (outcome unit)
| Sleep (secs : Z) : call (outcome unit)
| GetSubscribedClients (samp : handle) (mtype : str)
    : call (outcome (list (str * value)))
| GetMetadata (samp : handle) (c_id : str) : call (outcome (list (str * value)))
| Enotify (samp : handle) (c_id : option str) (mtype : str) : call (outcome value)
| EcallAndWait (samp : handle) (c_id : option str) (mtype timeout cmd : str)
    : call (outcome value)
| ThreadNew (period : Z) : call handle
| ThreadStart (t : handle) : call (outcome unit)
| ThreadJoin (t : handle) (timeout : Z) : call (outcome unit)
| EventWait (timeout : Z) : call bool
| LockAcquire : call unit
| LockRelease : call unit
| ProcessKill (p : handle) : call (outcome unit)
| Unlink (path : str) : call (outcome unit)
| ExitCallback (cb : handle) : call (outcome unit)
| OsKill (pid : N) (sig : N) : call (outcome unit).

(** One entry of the log: a call and its answer. *)
Inductive event :=
| Ev {R : Type} (c : call R) (r : R).

(** A call without its answer. *)
Inductive issued :=
| Call {R : Type} (c : call R).

Definition event_call (e : event) : issued :=
  match e with Ev c _ => Call c end.

(** What surrounds the launcher: the two module constants read from the
    process environment (lines 17-18), [str()] on a SAMP value, and the
    collaborators, which answer a call knowing the history so far. *)
Record setting := mk_setting {
  DS9_EXE : str;
  SAMP_HUB_PATH : str;
  py_str : value -> str;
  oracle : forall R, list event -> call R -> R
}.

(* ===================================================================== *)
(** ** The object and the world *)
(* ===================================================================== *)

(** The attributes of [self].  The first five are assigned by lines 47-52,
    which cannot fail; the others are [None] until their assignment has
    run.  [samp_clientId] holds Python's [None] ([Some None]) from line 72
    on, and a client id once line 87 has found one.  [evtexit] is the flag
    of the [threading.Event]. *)
Record DS9 := mk_DS9 {
  debug : bool;
  exit_callback : option handle;
  kill_on_exit : bool;
  evtexit : bool;
  pid : N;
  hub_file : option str;
  process : option handle;
  samp : option handle;
  samp_clientId : option (option str);
  watcher : option handle
}.

Record world := mk_world {
  self : DS9;
  environ : list (str * str);
  stdout : list str;
  history : list event
}.

Definition with_self (f : DS9 -> DS9) (w : world) : world :=
  mk_world (f (self w)) (environ w) (stdout w) (history w).

Definition log (e : event) (w : world) : world :=
  mk_world (self w) (environ w) (stdout w) (history w ++ [e]).

Definition set_evtexit (s : DS9) : DS9 :=
  mk_DS9 (debug s) (exit_callback s) (kill_on_exit s) true (pid s)
         (hub_file s) (process s) (samp s) (samp_clientId s) (watcher s).

Definition set_hub_file (f : str) (s : DS9) : DS9 :=
  mk_DS9 (debug s) (exit_callback s) (kill_on_exit s) (evtexit s) (pid s)
         (Some f) (process s) (samp s) (samp_clientId s) (watcher s).

Definition set_process (p : handle) (s : DS9) : DS9 :=
  mk_DS9 (debug s) (exit_callback s) (kill_on_exit s) (evtexit s) (pid s)
         (hub_file s) (Some p) (samp s) (samp_clientId s) (watcher s).

Definition set_samp (c : handle) (s : DS9) : DS9 :=
  mk_DS9 (debug s) (exit_callback s) (kill_on_exit s) (evtexit s) (pid s)
         (hub_file s) (process s) (Some c) (samp_clientId s) (watcher s).

Definition set_samp_clientId (i : option str) (s : DS9) : DS9 :=
  mk_DS9 (debug s) (exit_callback s) (kill_on_exit s) (evtexit s) (pid s)
         (hub_file s) (process s) (samp s) (Some i) (watcher s).

Definition set_watcher (t : handle) (s : DS9) : DS9 :=
  mk_DS9 (debug s) (exit_callback s) (kill_on_exit s) (evtexit s) (pid s)
         (hub_file s) (process s) (samp s) (samp_clientId s) (Some t).

(* ===================================================================== *)
(** ** The monad of the methods *)
(* ===================================================================== *)

(** A method runs in a world and returns or raises in a new world; a loop
    that has used up its fuel has no result. *)
Inductive res (A : Type) :=
| Done (o : outcome A) (w : world)
| OutOfFuel.
Arguments Done {A} o w.
Arguments OutOfFuel {A}.

Definition M (A : Type) : Type := world -> res A.

Definition ret {A} (a : A) : M A := fun w => Done (Returns a) w.

Definition raise {A} (e : exn) : M A := fun w => Done (Raises e) w.

Definition out_of_fuel {A} : M A := fun _ => OutOfFuel.

Definition bind {A B} (m : M A) (k : A -> M B) : M B :=
  fun w =>
    match m w with
    | Done (Returns a) w' => k a w'
    | Done (Raises e) w' => Done (Raises e) w'
    | OutOfFuel => OutOfFuel
    end.

Notation "x <- m ;; k" := (bind m (fun x => k))
  (at level 61, m at next level, right associativity).
Notation "m ;; k" := (bind m (fun _ => k))
  (at level 61, right associativity).

(** [try: body / except <class> as e: handler e]. *)
Definition try_except {A} (body : M A) (catches : exn -> bool)
    (handler : exn -> M A) : M A :=
  fun w =>
    match body w with
    | Done (Raises e) w' =>
        if catches e then handler e w' else Done (Raises e) w'
    | r => r
    end.

(** [try: body / except: pass]. *)
Definition try_pass (body : M unit) : M unit :=
  try_except body (fun _ => true) (fun _ => ret tt).

(** [try: body / finally: fin]. *)
Definition finally {A} (body : M A) (fin : M unit) : M A :=
  fun w =>
    match body w with
    | Done o w' =>
        match fin w' with
        | Done (Returns _) w'' => Done o w''
        | Done (Raises e) w'' => Done (Raises e) w''
        | OutOfFuel => OutOfFuel
        end
    | OutOfFuel => OutOfFuel
    end.

(** [for x in l: body x]. *)
Fixpoint for_each {A} (l : list A) (body : A -> M unit) : M unit :=
  match l with
  | [] => ret tt
  | x :: l' => body x ;; for_each l' body
  end.

Definition read_self : M DS9 := fun w => Done (Returns (self w)) w.

Definition modify_self (f : DS9 -> DS9) : M unit :=
  fun w => Done (Returns tt) (with_self f w).

(** Name mangling: inside [class DS9], the attribute written [self.__x]
    is [_DS9__x]. *)
Definition mangle (name : string) : string := String.append "_DS9" name.

(** Reading a private attribute [self.__name] which may not have been
    assigned; the [AttributeError] names the attribute as Python looks it
    up, mangled. *)
Definition getattr {A} (field : DS9 -> option A) (name : string) : M A :=
  s <- read_self ;;
  match field s with
  | Some a => ret a
  | None => raise (AttributeError (py (mangle name)))
  end.

(** [d[k]]. *)
Definition getitem {V} (d : list (str * V)) (k : str) : M V :=
  match dict_get d k with
  | Some v => ret v
  | None => raise (KeyError k)
  end.

Definition print (s : str) : M unit :=
  fun w => Done (Returns tt)
             (mk_world (self w) (environ w) (stdout w ++ [s]) (history w)).

(** [os.environ[k] = v]. *)
Definition putenv (k v : str) : M unit :=
  fun w => Done (Returns tt)
             (mk_world (self w) (dict_set (environ w) k v) (stdout w) (history w)).

Definition read_environ : M (list (str * str)) :=
  fun w => Done (Returns (environ w)) w.

(** [if self.debug: print(s)]. *)
Definition debug_print (s : str) : M unit :=
  me <- read_self ;;
  if debug me then print s else ret tt.

(** Truth value of [self.__samp_clientId]: [None] and the empty string are
    false. *)
Definition truthy (i : option str) : bool :=
  match i with
  | Some (_ :: _) => true
  | _ => false
  end.

Section Launcher.

Variable E : setting.

(** A call to a collaborator: the oracle answers, the log grows. *)
Definition ask {R} (c : call R) : M R :=
  fun w =>
    let r := oracle E R (history w) c in
    Done (Returns r) (log (Ev c r) w).

(** A call which may raise. *)
Definition invoke {A} (c : call (outcome A)) : M A :=
  r <- ask c ;;
  match r with
  | Returns a => ret a
  | Raises e => raise e
  end.

(** [with self.__lock: body]. *)
Definition with_lock {A} (body : M A) : M A :=
  ask LockAcquire ;;
  finally body (ask LockRelease).

(** [self.__evtexit.set()]. *)
Definition evtexit_set : M unit := modify_self set_evtexit.

(** [self.__evtexit.wait(timeout=period)]: true at once when the flag is
    set; otherwise the answer tells whether another thread set the flag
    before the period ran out. *)
Definition evtexit_wait (period : Z) : M bool :=
  me <- read_self ;;
  if evtexit me then ret true
  else
    b <- ask (EventWait period) ;;
    (if b then modify_self set_evtexit else ret tt) ;;
    ret b.

(* --------------------------------------------------------------------- *)
(** *** [set] and [get] (lines 159-166) *)

Definition set (cmds : list str) (timeout : Z) : M unit :=
  with_lock
    (for_each cmds (fun cmd =>
       client <- getattr samp "__samp" ;;
       c_id <- getattr samp_clientId "__samp_clientId" ;;
       invoke (EcallAndWait client c_id (py "ds9.set") (dec_Z timeout) cmd) ;;
       ret tt)).

Definition get (cmd : str) (timeout : Z) : M value :=
  with_lock
    (client <- getattr samp "__samp" ;;
     c_id <- getattr samp_clientId "__samp_clientId" ;;
     invoke (EcallAndWait client c_id (py "ds9.get") (dec_Z timeout) cmd)).

(* --------------------------------------------------------------------- *)
(** *** [exit] (lines 106-130) *)

Definition exit (use_callback main_thread : bool) : M unit :=
  debug_print (py "__evtexit") ;;
  try_pass evtexit_set ;;
  (if main_thread then
     debug_print (py "join") ;;
     try_pass (t <- getattr watcher "__watcher" ;; invoke (ThreadJoin t 1))
   else ret tt) ;;
  debug_print (py "exit") ;;
  try_pass (set [py "exit"] 10) ;;
  debug_print (py "kill") ;;
  try_pass (p <- getattr process "__process" ;; invoke (ProcessKill p)) ;;
  debug_print (py "rm hubfile") ;;
  try_pass (f <- getattr hub_file "__samp_hub_file" ;; invoke (Unlink f)) ;;
  me <- read_self ;;
  (match exit_callback me with
   | Some cb =>
       debug_print (py "exit_callback") ;;
       try_pass (invoke (ExitCallback cb))
   | None => ret tt
   end) ;;
  me <- read_self ;;
  (if kill_on_exit me then
     debug_print (py "kill_on_exit") ;;
     try_pass (invoke (OsKill (pid me) SIGTERM))
   else ret tt).

(** [__del__] (lines 102-104). *)
Definition del : M unit :=
  debug_print (py "destructor") ;;
  exit false true.

(** What line 54 registers to run at process exit:
    [self.exit(use_callback=False, main_thread=True)]. *)
Definition atexit_hook : M unit := exit false true.

(* --------------------------------------------------------------------- *)
(** *** [__get_samp_clientId] (lines 132-138) *)

Fixpoint scan_clients (title : str) (ids : list str) : M (option str) :=
  match ids with
  | [] => ret None
  | c_id :: rest =>
      client <- getattr samp "__samp" ;;
      c_meta <- invoke (GetMetadata client c_id) ;;
      me <- read_self ;;
      (if debug me then
         name <- getitem c_meta (py "samp.name") ;;
         print (py "...clientId " ++ c_id ++ py " = " ++ py_str E name)
       else ret tt) ;;
      name <- getitem c_meta (py "samp.name") ;;
      if value_eq_str name title then ret (Some c_id)
      else scan_clients title rest
  end.

Definition get_samp_clientId (title : str) : M (option str) :=
  client <- getattr samp "__samp" ;;
  clients <- invoke (GetSubscribedClients client (py "ds9.set")) ;;
  scan_clients title (map fst clients).

(* --------------------------------------------------------------------- *)
(** *** [alive] and [__watch_thread] (lines 140-157) *)

Definition alive : M bool :=
  try_except
    (with_lock
       (client <- getattr samp "__samp" ;;
        c_id <- getattr samp_clientId "__samp_clientId" ;;
        r <- invoke (Enotify client c_id (py "samp.app.ping")) ;;
        ret (value_eq_str r (py "OK"))))
    (fun _ => true)
    (fun _ => ret false).

(** One turn of the loop of lines 148-155; [true] is [break]. *)
Definition watch_turn (period : Z) : M bool :=
  debug_print (py "...watching") ;;
  stop <- evtexit_wait period ;;
  if stop then
    debug_print (py "watch_thread quits gracefully") ;;
    ret true
  else
    ok <- alive ;;
    if negb ok then
      debug_print (py "watch_thread ds9 is not alive") ;;
      ret true
    else ret false.

Fixpoint watch_loop (fuel : nat) (period : Z) : M unit :=
  match fuel with
  | O => out_of_fuel
  | S fuel' =>
      stop <- watch_turn period ;;
      if stop then ret tt else watch_loop fuel' period
  end.

Definition watch_thread (fuel : nat) (period : Z) : M unit :=
  debug_print (py "watch_thread started - period " ++ dec_Z period) ;;
  watch_loop fuel period ;;
  exit true false ;;
  debug_print (py "watch_thread exit").

(* --------------------------------------------------------------------- *)
(** *** [__init__] (lines 36-100) *)

Definition hub_not_found (timeout : Z) : exn :=
  RuntimeError (py "hub not found (timeout: " ++ dec_Z timeout ++ py ")").

Definition ds9_not_found (timeout : Z) : exn :=
  RuntimeError (py "ds9 not found (timeout: " ++ dec_Z timeout ++ py ")").

(** One turn of the loop of lines 75-83; [true] is [break]. *)
Definition hub_turn (tstart timeout init_retry_time : Z) : M bool :=
  debug_print (py "looking for SAMP hub ...") ;;
  try_except
    (client <- getattr samp "__samp" ;;
     invoke (Connect client) ;;
     debug_print (py "found SAMP hub") ;;
     ret true)
    is_SAMPHubError
    (fun _ =>
       now <- ask TimeTime ;;
       (if (now - tstart >? timeout)%Z then raise (hub_not_found timeout)
        else ret tt) ;;
       invoke (Sleep init_retry_time) ;;
       ret false).

Fixpoint wait_for_hub (fuel : nat) (tstart timeout init_retry_time : Z) : M unit :=
  match fuel with
  | O => out_of_fuel
  | S fuel' =>
      found <- hub_turn tstart timeout init_retry_time ;;
      if found then ret tt
      else wait_for_hub fuel' tstart timeout init_retry_time
  end.

(** One turn of the loop of lines 85-92; [true] is [break]. *)
Definition ds9_turn (title : str) (tstart timeout init_retry_time : Z) : M bool :=
  debug_print (py "looking for ds9") ;;
  c_id <- get_samp_clientId title ;;
  modify_self (set_samp_clientId c_id) ;;
  if truthy c_id then
    debug_print (py "found ds9") ;;
    ret true
  else
    now <- ask TimeTime ;;
    (if (now - tstart >? timeout)%Z then raise (ds9_not_found timeout)
     else ret tt) ;;
    invoke (Sleep init_retry_time) ;;
    ret false.

Fixpoint wait_for_ds9 (fuel : nat) (title : str)
    (tstart timeout init_retry_time : Z) : M unit :=
  match fuel with
  | O => out_of_fuel
  | S fuel' =>
      found <- ds9_turn title tstart timeout init_retry_time ;;
      if found then ret tt
      else wait_for_ds9 fuel' title tstart timeout init_retry_time
  end.

(** The command line of line 68. *)
Definition ds9_command (title ds9args : str) : str :=
  DS9_EXE E ++
  py " -samp client yes -samp hub yes -samp web hub no -xpa no -title '" ++
  title ++ py "' " ++ ds9args.

(** Lines 57-73: the endpoint, the child process and the SAMP client;
    returns [tstart]. *)
Definition init_spawn (title ds9args : str) : M Z :=
  invoke (Mkdir (SAMP_HUB_PATH E)) ;;
  tnow <- ask DatetimeNow ;;
  me <- read_self ;;
  let file := samp_hub_file (SAMP_HUB_PATH E) title tnow (pid me) in
  modify_self (set_hub_file file) ;;
  putenv (py "SAMP_HUB") (py "std-lockurl:file://" ++ file) ;;
  putenv (py "XMODIFIERS") (py "@im=none") ;;
  env <- read_environ ;;
  me <- read_self ;;
  (if debug me then
     v <- getitem env (py "SAMP_HUB") ;;
     print (py "SAMP_HUB: " ++ v)
   else ret tt) ;;
  debug_print (py "spawning ds9") ;;
  argv <- invoke (ShlexSplit (ds9_command title ds9args)) ;;
  env <- read_environ ;;
  p <- invoke (Popen argv env) ;;
  modify_self (set_process p) ;;
  client <- invoke (SAMPIntegratedClient (title ++ py " controller")) ;;
  modify_self (set_samp client) ;;
  modify_self (set_samp_clientId None) ;;
  ask TimeTime.

(** Lines 94-97. *)
Definition start_watcher (poll_alive_time : Z) : M unit :=
  if (0 <? poll_alive_time)%Z then
    t <- ask (ThreadNew poll_alive_time) ;;
    modify_self (set_watcher t) ;;
    invoke (ThreadStart t)
  else ret tt.

(** The [try] block, lines 56-97. *)
Definition init_try (fuel : nat) (title : str) (timeout : Z) (ds9args : str)
    (poll_alive_time init_retry_time : Z) : M unit :=
  tstart <- init_spawn title ds9args ;;
  wait_for_hub fuel tstart timeout init_retry_time ;;
  wait_for_ds9 fuel title tstart timeout init_retry_time ;;
  start_watcher poll_alive_time.

(** Lines 47-54: the attributes which are always there, and the exit
    hook. *)
Definition init_attrs (exit_callback : option handle) (kill_on_exit debug : bool)
  : M unit :=
  p <- ask Getpid ;;
  modify_self (fun _ =>
    mk_DS9 debug exit_callback kill_on_exit false p None None None None None) ;;
  ask (AtexitRegister false true).

Definition init (fuel : nat) (title : str) (timeout : Z)
    (exit_callback : option handle) (kill_on_exit : bool) (ds9args : str)
    (poll_alive_time init_retry_time : Z) (debug : bool) : M unit :=
  init_attrs exit_callback kill_on_exit debug ;;
  try_except
    (init_try fuel title timeout ds9args poll_alive_time init_retry_time)
    is_Exception
    (fun e => exit true true ;; raise e).

End Launcher.

(* ===================================================================== *)
(** ** The module constants (lines 17-18) *)
(* ===================================================================== *)

(** [os.environ.get(k, default)]. *)
Definition environ_get (env : list (str * str)) (k default : str) : str :=
  match dict_get env k with
  | Some v => v
  | None => default
  end.

(** What importing the module computes: [(DS9_EXE, SAMP_HUB_PATH)].  The
    default of line 18 is an argument of [get], so [os.environ['HOME']] is
    evaluated before [get] looks for [SAMP_HUB_PATH]. *)
Definition module_constants (env : list (str * str)) : outcome (str * str) :=
  let ds9_exe := environ_get env (py "DS9_EXE") (py "ds9v8.7") in
  match dict_get env (py "HOME") with
  | Some home =>
      Returns (ds9_exe,
               environ_get env (py "SAMP_HUB_PATH") (home ++ py "/.samp-ds9"))
  | None => Raises (KeyError (py "HOME"))
  end.

(* ===================================================================== *)
(** ** Reading the log *)
(* ===================================================================== *)

(** The calls of a log, in order, without their answers. *)
Definition calls (h : list event) : list issued := map event_call h.

Definition is_join (i : issued) : bool :=
  match i with Call (ThreadJoin _ _) => true | _ => false end.

Definition is_kill (i : issued) : bool :=
  match i with Call (ProcessKill _) => true | _ => false end.

Definition is_unlink (i : issued) : bool :=
  match i with Call (Unlink _) => true | _ => false end.

Definition is_sleep (i : issued) : bool :=
  match i with Call (Sleep _) => true | _ => false end.

(** The calls of each step of [exit], read off the attributes of the
    object: a step whose attribute is missing stops at the
    [AttributeError], before its call. *)
Definition join_calls (main_thread : bool) (s : DS9) : list issued :=
  if main_thread then
    match watcher s with
    | Some t => [Call (ThreadJoin t 1)]
    | None => []
    end
  else [].

Definition exit_cmd_calls (s : DS9) : list issued :=
  Call LockAcquire ::
  match samp s, samp_clientId s with
  | Some client, Some c_id =>
      [Call (EcallAndWait client c_id (py "ds9.set") (dec_Z 10) (py "exit"))]
  | _, _ => []
  end ++ [Call LockRelease].

Definition kill_calls (s : DS9) : list issued :=
  match process s with Some p => [Call (ProcessKill p)] | None => [] end.

Definition unlink_calls (s : DS9) : list issued :=
  match hub_file s with Some f => [Call (Unlink f)] | None => [] end.

Definition callback_calls (s : DS9) : list issued :=
  match exit_callback s with Some cb => [Call (ExitCallback cb)] | None => [] end.

Definition host_kill_calls (s : DS9) : list issued :=
  if kill_on_exit s then [Call (OsKill (pid s) SIGTERM)] else [].

Definition exit_calls (main_thread : bool) (s : DS9) : list issued :=
  join_calls main_thread s ++ exit_cmd_calls s ++ kill_calls s ++
  unlink_calls s ++ callback_calls s ++ host_kill_calls s.

(** A method that returns, leaving the object as [s'] and adding the calls
    [cs] to the log. *)
Definition runs (m : M unit) (w : world) (cs : list issued) (s' : DS9) : Prop :=
  exists w',
    m w = Done (Returns tt) w' /\ self w' = s' /\
    calls (history w') = calls (history w) ++ cs.

(** [n] turns of a loop in a row, each of which asked for another turn. *)
Inductive retries (turn : M bool) : nat -> world -> world -> Prop :=
| retries_O w : retries turn 0 w w
| retries_S n w w1 w2 :
    turn w = Done (Returns false) w1 ->
    retries turn n w1 w2 ->
    retries turn (S n) w w2.

(** The call [set] makes for one command (line 162). *)
Definition set_call (client : handle) (c_id : option str) (timeout : Z)
    (cmd : str) : call (outcome value) :=
  EcallAndWait client c_id (py "ds9.set") (dec_Z timeout) cmd.

(** The log of commands issued and acknowledged one after the other. *)
Definition acked (client : handle) (c_id : option str) (timeout : Z)
    (cmds : list str) (acks : list value) : list event :=
  map (fun p => Ev (set_call client c_id timeout (fst p)) (Returns (snd p)))
      (combine cmds acks).

(** The answer to the ping counts as alive only when it is ds9's own
    ['OK'] (line 143). *)
Definition probe_ok (r : outcome value) : bool :=
  match r with
  | Returns v => value_eq_str v (py "OK")
  | Raises _ => false
  end.

Definition ping (client : handle) (c_id : option str) : call (outcome value) :=
  Enotify client c_id (py "samp.app.ping").

(** A method under which every run relates the object before and after by
    [R], whether it returns or raises. *)
Definition preserves (R : DS9 -> DS9 -> Prop) {A} (m : M A) : Prop :=
  forall w o w', m w = Done o w' -> R (self w) (self w').

(** The attributes teardown and the commands rely on stay as they are; only
    the exit flag may have been raised. *)
Definition same_attrs (s s' : DS9) : Prop :=
  debug s' = debug s /\ exit_callback s' = exit_callback s /\
  kill_on_exit s' = kill_on_exit s /\ pid s' = pid s /\
  hub_file s' = hub_file s /\ process s' = process s /\ samp s' = samp s /\
  samp_clientId s' = samp_clientId s /\ watcher s' = watcher s.

(** The same, except that [samp_clientId] may have been assigned. *)
Definition same_but_clientId (s s' : DS9) : Prop :=
  debug s' = debug s /\ exit_callback s' = exit_callback s /\
  kill_on_exit s' = kill_on_exit s /\ pid s' = pid s /\
  evtexit s' = evtexit s /\
  hub_file s' = hub_file s /\ process s' = process s /\ samp s' = samp s /\
  watcher s' = watcher s.

(** An object on which the whole of [__init__] has run. *)
Definition constructed (poll_alive_time : Z) (s : DS9) : Prop :=
  hub_file s <> None /\ process s <> None /\ samp s <> None /\
  (exists c_id, samp_clientId s = Some (Some c_id) /\ c_id <> []) /\
  ((0 < poll_alive_time)%Z -> watcher s <> None).

(** The clients a discovery pass asks the hub about: the listed ones up to
    and including the first that satisfies [p]. *)
Fixpoint scanned (p : str -> bool) (ids : list str) : list str :=
  match ids with
  | [] => []
  | c_id :: rest => c_id :: (if p c_id then [] else scanned p rest)
  end.

(** The constructor leaves the exit flag as it is. *)
Definition same_flag (s s' : DS9) : Prop := evtexit s' = evtexit s.

(** The constructor's loops leave the watcher as it is. *)
Definition same_watcher (s s' : DS9) : Prop := watcher s' = watcher s.

(** Line 136 for the client [c_id], whose [samp.name] is [name_of c_id]. *)
Definition named_title (title : str) (name_of : str -> value) (c_id : str)
  : bool :=
  value_eq_str (name_of c_id) title.

(** The hub answers the metadata query for [c_id], whenever it is asked,
    with a map whose [samp.name] is [v], or which has none. *)
Definition metadata_name (E : setting) (client : handle) (c_id : str)
    (v : option value) : Prop :=
  forall h, exists meta,
    oracle E _ h (GetMetadata client c_id) = Returns meta /\
    dict_get meta (py "samp.name") = v.

(** The call [get] makes (line 166). *)
Definition get_call (client : handle) (c_id : option str) (timeout : Z)
    (cmd : str) : call (outcome value) :=
  EcallAndWait client c_id (py "ds9.get") (dec_Z timeout) cmd.

(** The log of a [with self.__lock:] block whose body made no call. *)
Definition lock_only : list event := [Ev LockAcquire tt; Ev LockRelease tt].

(* ===================================================================== *)
(** ** Relations between the world before and after a method *)
(* ===================================================================== *)

(** Every run of [m], whether it returns or raises, relates the world
    before and after by [K]. *)
Definition keeps (K : world -> world -> Prop) {A} (m : M A) : Prop :=
  forall w o w', m w = Done o w' -> K w w'.

(** The log has grown by calls which all satisfy [ok]. *)
Definition only_calls (ok : issued -> bool) (w w' : world) : Prop :=
  exists l, history w' = history w ++ l /\ forallb ok (calls l) = true.

(** The calls of the teardown steps. *)
Definition is_teardown_call (i : issued) : bool :=
  match i with
  | Call (ThreadJoin _ _) => true
  | Call (ProcessKill _) => true
  | Call (Unlink _) => true
  | Call (ExitCallback _) => true
  | Call (OsKill _ _) => true
  | _ => false
  end.

(** The calls by which [set] and [get] talk to ds9. *)
Definition is_lock_or_ecall (i : issued) : bool :=
  match i with
  | Call LockAcquire => true
  | Call LockRelease => true
  | Call (EcallAndWait _ _ _ _ _) => true
  | _ => false
  end.

(** The calls of the liveness probe. *)
Definition is_lock_or_ping (i : issued) : bool :=
  match i with
  | Call LockAcquire => true
  | Call LockRelease => true
  | Call (Enotify _ _ _) => true
  | _ => false
  end.

(** One call, seen by the lock of line 50: [held] tells whether the thread
    holds the lock.  [threading.Lock] is not reentrant, so acquiring it
    again would block for ever; a message to ds9 ([ecall_and_wait],
    [enotify]) is meant to be sent with the lock held. *)
Definition lock_step (held : bool) (i : issued) : option bool :=
  match i with
  | Call LockAcquire => if held then None else Some true
  | Call LockRelease => if held then Some false else None
  | Call (EcallAndWait _ _ _ _ _) => if held then Some true else None
  | Call (Enotify _ _ _) => if held then Some true else None
  | _ => Some held
  end.

Fixpoint lock_scan (held : bool) (cs : list issued) : option bool :=
  match cs with
  | [] => Some held
  | c :: rest =>
      match lock_step held c with
      | Some h => lock_scan h rest
      | None => None
      end
  end.

(** The log has grown by calls which respect the lock, and the lock is
    held at the end as it was at the start. *)
Definition disciplined (held : bool) (w w' : world) : Prop :=
  exists l, history w' = history w ++ l /\
            lock_scan held (calls l) = Some held.

(** The calls allowed by [lock_step] which leave the lock alone. *)
Definition lock_neutral (held : bool) (i : issued) : bool :=
  match lock_step held i with
  | Some h => Bool.eqb h held
  | None => false
  end.

(** [debug] stays, and nothing is printed when it is off. *)
Definition quiet (w w' : world) : Prop :=
  debug (self w') = debug (self w) /\
  (debug (self w) = false -> stdout w' = stdout w).

(** The variables of the process environment other than [keys] stay. *)
Definition same_environ_but (keys : list str) (w w' : world) : Prop :=
  forall k, ~ In k keys -> dict_get (environ w') k = dict_get (environ w) k.

(** The process environment stays as it is. *)
Definition same_environ (w w' : world) : Prop := environ w' = environ w.

(** With [debug] off, a run of [m] prints nothing. *)
Definition prints_nothing {A} (m : M A) : Prop :=
  forall w o w', debug (self w) = false -> m w = Done o w' ->
                 stdout w' = stdout w.

(** The two variables the constructor sets (lines 62-63). *)
Definition launcher_variables : list str := [py "SAMP_HUB"; py "XMODIFIERS"].

(** [kill_on_exit] stays as the constructor was given it. *)
Definition same_kill_on_exit (s s' : DS9) : Prop :=
  kill_on_exit s' = kill_on_exit s.

(* ===================================================================== *)
(** ** Collaborators for the examples *)
(* ===================================================================== *)

(** Collaborators with which nothing goes wrong: the hub is up at once and
    knows ds9 as client [c1], named [title]. *)
Definition smooth (title : str) {R} (c : call R) : R :=
  match c in call R return R with
  | Getpid => 1234
  | AtexitRegister _ _ => tt
  | Mkdir _ => Returns tt
  | DatetimeNow => mk_datetime 2024 3 7 9 5 0 42
  | ShlexSplit cmd => Returns [cmd]
  | Popen _ _ => Returns 7
  | SAMPIntegratedClient _ => Returns 8
  | TimeTime => 100%Z
  | Connect _ => Returns tt
  | Sleep _ => Returns tt
  | GetSubscribedClients _ _ =>
      Returns [(py "c0", VMap []); (py "c1", VMap [])]
  | GetMetadata _ c_id =>
      if str_eqb c_id (py "c1") then Returns [(py "samp.name", VStr title)]
      else Returns [(py "samp.name", VStr (py "hub"))]
  | Enotify _ _ _ => Returns (VStr (py "OK"))
  | EcallAndWait _ _ _ _ _ => Returns (VMap [(py "samp.status", VStr (py "samp.ok"))])
  | ThreadNew _ => 9
  | ThreadStart _ => Returns tt
  | ThreadJoin _ _ => Returns tt
  | EventWait _ => false
  | LockAcquire => tt
  | LockRelease => tt
  | ProcessKill _ => Returns tt
  | Unlink _ => Returns tt
  | ExitCallback _ => Returns tt
  | OsKill _ _ => Returns tt
  end.

(** [str()] of a SAMP string; the examples print nothing else. *)
Definition str_of_value (v : value) : str :=
  match v with VStr s => s | _ => py "?" end.

Definition setting_of (o : forall R, list event -> call R -> R) : setting :=
  mk_setting (py "ds9v8.7") (py "/home/u/.samp-ds9") str_of_value o.

Definition smooth_setting : setting :=
  setting_of (fun R _ c => smooth (py "ds9SAMP") c).

(** How many calls of the log satisfy [p]. *)
Definition count (p : issued -> bool) (h : list event) : nat :=
  length (filter p (calls h)).

Definition is_connect (i : issued) : bool :=
  match i with Call (Connect _) => true | _ => false end.

Definition is_ecall (i : issued) : bool :=
  match i with Call (EcallAndWait _ _ _ _ _) => true | _ => false end.

Definition is_get_subscribed (i : issued) : bool :=
  match i with Call (GetSubscribedClients _ _) => true | _ => false end.

(** The hub comes up after [n] refused connections; every [sleep] takes
    one unit of the clock, which starts at 100. *)
Definition hub_late (n : nat) R (h : list event) (c : call R) : R :=
  match c in call R return R with
  | Connect _ =>
      if (count is_connect h <? n)%nat
      then Raises (SAMPHubError (py "Unable to find a running SAMP Hub."))
      else Returns tt
  | TimeTime => (100 + Z.of_nat (count is_sleep h))%Z
  | c' => smooth (py "ds9SAMP") c'
  end.

(** The hub is up but ds9 never registers. *)
Definition ds9_missing R (h : list event) (c : call R) : R :=
  match c in call R return R with
  | GetSubscribedClients _ _ => Returns [(py "c0", VMap [])]
  | TimeTime => (100 + Z.of_nat (count is_sleep h))%Z
  | c' => smooth (py "ds9SAMP") c'
  end.

(** The hub refuses the connection and the user interrupts the first
    [sleep] ([KeyboardInterrupt]). *)
Definition interrupted R (h : list event) (c : call R) : R :=
  match c in call R return R with
  | Connect _ => Raises (SAMPHubError (py "Unable to find a running SAMP Hub."))
  | Sleep _ => Raises (BaseExceptionOnly 2)
  | c' => smooth (py "ds9SAMP") c'
  end.

(** The connection fails with an error which is not [SAMPHubError]. *)
Definition hub_broken R (h : list event) (c : call R) : R :=
  match c in call R return R with
  | Connect _ => Raises (OtherException 111)
  | c' => smooth (py "ds9SAMP") c'
  end.

(** Every step of the teardown fails. *)
Definition all_fail R (h : list event) (c : call R) : R :=
  match c in call R return R with
  | ThreadJoin _ _ => Raises (RuntimeError (py "cannot join current thread"))
  | EcallAndWait _ _ _ _ _ => Raises (OtherException 1)
  | ProcessKill _ => Raises (OtherException 2)
  | Unlink _ => Raises (OtherException 3)
  | ExitCallback _ => Raises (BaseExceptionOnly 4)
  | OsKill _ _ => Raises (OtherException 5)
  | c' => smooth (py "ds9SAMP") c'
  end.

(** ds9 acknowledges the first [n] commands and rejects the next one. *)
Definition rejects_after (n : nat) R (h : list event) (c : call R) : R :=
  match c in call R return R with
  | EcallAndWait _ _ _ _ _ =>
      if (count is_ecall h <? n)%nat then Returns (VMap [])
      else Raises (OtherException 400)
  | c' => smooth (py "ds9SAMP") c'
  end.

(** ds9 answers the ping with something else than its ['OK']. *)
Definition ping_unanswered R (h : list event) (c : call R) : R :=
  match c in call R return R with
  | Enotify _ _ _ => Returns VNone
  | c' => smooth (py "ds9SAMP") c'
  end.

(** Another thread sets the exit flag during the wait. *)
Definition flag_raised R (h : list event) (c : call R) : R :=
  match c in call R return R with
  | EventWait _ => true
  | c' => smooth (py "ds9SAMP") c'
  end.

(** The world before [__init__]: an object without attributes, an empty
    environment, nothing printed, no call made. *)
Definition blank : DS9 :=
  mk_DS9 false None false false 0 None None None None None.

Definition fresh_world : world := mk_world blank [] [] [].

(** An object after a successful construction. *)
Definition ready (cb : option handle) (kill : bool) : DS9 :=
  mk_DS9 false cb kill false 1234
    (Some (py "/home/u/.samp-ds9/ds9SAMP_utc20240307T090500.000042_pid1234.samp"))
    (Some 7) (Some 8) (Some (Some (py "c1"))) (Some 9).

Definition ready_world (cb : option handle) (kill : bool) : world :=
  mk_world (ready cb kill) [] [] [].

(** The hub never comes up, and the clock of [smooth] stands still. *)
Definition hub_down R (h : list event) (c : call R) : R :=
  match c in call R return R with
  | Connect _ => Raises (SAMPHubError (py "Unable to find a running SAMP Hub."))
  | c' => smooth (py "ds9SAMP") c'
  end.

(** A client registered before ds9 has declared no [samp.name]. *)
Definition nameless_client R (h : list event) (c : call R) : R :=
  match c in call R return R with
  | GetMetadata _ c_id =>
      if str_eqb c_id (py "c1")
      then Returns [(py "samp.name", VStr (py "ds9SAMP"))]
      else Returns [(py "samp.description", VStr (py "a tool"))]
  | c' => smooth (py "ds9SAMP") c'
  end.

(** An object on which [__init__] has assigned the first attributes only
    (lines 47-54). *)
Definition bare_world : world :=
  mk_world (mk_DS9 false None false false 1234 None None None None None)
           [] [] [].

(** The world the constructor is in when it enters its [try] block, with
    the collaborators of the examples. *)
Definition entered_world : world :=
  mk_world (mk_DS9 false None false false 1234 None None None None None)
           [] [] [Ev Getpid 1234; Ev (AtexitRegister false true) tt].
(* ===================================================================== *)
(** ** Facts about the endpoint name *)
(* ===================================================================== *)

Example sanitize_hello :
  sanitize (py "hello world-1.0") = py "hello_world_1.0".
Proof. reflexivity. Qed.

Example samp_hub_name_example :
  samp_hub_name (py "ds9 A") (mk_datetime 2024 3 7 9 5 0 42) 1234
  = py "ds9_A_utc20240307T090500.000042_pid1234".
Proof. reflexivity. Qed.

(** *** Lists of equal length cancel on both sides *)

Lemma app_eq_len_l {A} (a b x y : list A) :
  a ++ x = b ++ y -> length a = length b -> a = b /\ x = y.
Proof.
  revert b; induction a as [|h a IH]; intros [|k b] E L; simpl in *;
    try discriminate; auto.
  injection E as -> E. injection L as L.
  destruct (IH b E L) as [-> ->]. auto.
Qed.

Lemma app_eq_len_r {A} (a b x y : list A) :
  a ++ x = b ++ y -> length x = length y -> a = b /\ x = y.
Proof.
  intros E L. apply app_eq_len_l; auto.
  apply (f_equal (@length A)) in E. rewrite !length_app in E. lia.
Qed.

(** *** Sanitization, character by character *)

Lemma sanitize_app a b : sanitize (a ++ b) = sanitize a ++ sanitize b.
Proof. unfold sanitize, re_sub_negclass. apply flat_map_app. Qed.

Lemma sanitize_cons c s :
  sanitize (c :: s) = (if in_class hub_name_class c then c else 95) :: sanitize s.
Proof.
  unfold sanitize, re_sub_negclass.
  change (flat_map ?f (c :: s)) with (f c ++ flat_map f s).
  cbv beta. destruct (in_class hub_name_class c); reflexivity.
Qed.

Lemma sanitize_length s : length (sanitize s) = length s.
Proof.
  induction s as [|c s IH]; [reflexivity|].
  rewrite sanitize_cons. simpl. now rewrite IH.
Qed.

Lemma sanitize_as_map s :
  sanitize s = map (fun c => if in_class hub_name_class c then c else 95) s.
Proof.
  induction s as [|c s IH]; [reflexivity|].
  rewrite sanitize_cons, IH. reflexivity.
Qed.

Lemma in_class_hub_spec c :
  in_class hub_name_class c = true <->
  (65 <= c <= 90 \/ 97 <= c <= 122 \/ 48 <= c <= 57 \/ c = 92 \/ c = 46).
Proof.
  unfold in_class, hub_name_class; simpl.
  rewrite !orb_true_iff, !andb_true_iff, !N.leb_le, !N.eqb_eq.
  intuition (try discriminate; auto).
Qed.

Lemma sanitize_fixed s :
  Forall (fun c => in_class hub_name_class c = true \/ c = 95) s ->
  sanitize s = s.
Proof.
  induction 1 as [|c s H _ IH]; [reflexivity|].
  rewrite sanitize_cons, IH. destruct H as [-> | ->]; reflexivity.
Qed.

(** *** Decimal digits *)

Definition is_digit (c : char) : Prop := 48 <= c <= 57.

Lemma dec_fuel_digits f : forall n, Forall is_digit (dec_fuel f n).
Proof.
  induction f as [|f IH]; intros n; cbn [dec_fuel]; [constructor|].
  apply Forall_app; split.
  - destruct (n <? 10); [constructor | apply IH].
  - constructor; [|constructor]. unfold is_digit.
    pose proof (N.mod_upper_bound n 10 ltac:(lia)) as Hm.
    remember (n mod 10) as m eqn:Em. clear Em. lia.
Qed.

Lemma dec_fuel_length f : forall n w,
  n < 10 ^ N.of_nat (S w) -> (length (dec_fuel f n) <= S w)%nat.
Proof.
  induction f as [|f IH]; intros n w H; cbn [dec_fuel length]; [lia|].
  rewrite length_app; cbn [length].
  destruct (N.ltb_spec n 10) as [L|L]; cbn [length]; [lia|].
  destruct w as [|w].
  - change (10 ^ N.of_nat 1) with 10 in H. lia.
  - assert (n / 10 < 10 ^ N.of_nat (S w)).
    { apply N.Div0.div_lt_upper_bound.
      rewrite <- N.pow_succ_r'. rewrite <- Nat2N.inj_succ. exact H. }
    specialize (IH (n / 10) w H0). lia.
Qed.

Lemma parse_dec_snoc s c : parse_dec (s ++ [c]) = 10 * parse_dec s + (c - 48).
Proof. unfold parse_dec. rewrite fold_left_app. reflexivity. Qed.

Lemma parse_dec_zeros k s : parse_dec (repeat 48 k ++ s) = parse_dec s.
Proof.
  unfold parse_dec. rewrite fold_left_app. f_equal.
  induction k as [|k IH]; simpl; auto.
Qed.

Lemma parse_dec_fuel f : forall n,
  n < 2 ^ N.of_nat f -> parse_dec (dec_fuel f n) = n.
Proof.
  induction f as [|f IH]; intros n H.
  - simpl in *. change (2 ^ 0) with 1 in H. assert (n = 0) by lia. now subst.
  - cbn [dec_fuel]. rewrite parse_dec_snoc.
    pose proof (N.mod_upper_bound n 10 ltac:(lia)) as Hm.
    pose proof (N.div_mod n 10 ltac:(lia)) as Hd.
    destruct (N.ltb_spec n 10) as [L|L].
    + cbv iota. change (parse_dec []) with 0.
      rewrite N.mod_small by exact L. clear Hm Hd. lia.
    + cbv iota. rewrite IH.
      * remember (n mod 10) as m eqn:Em. remember (n / 10) as q eqn:Eq.
        clear Em Eq. lia.
      * apply N.Div0.div_lt_upper_bound.
        rewrite Nat2N.inj_succ, N.pow_succ_r' in H. lia.
Qed.

Lemma parse_dec_dec n : parse_dec (dec n) = n.
Proof.
  unfold dec. apply parse_dec_fuel.
  rewrite Nat2N.inj_succ, N2Nat.id.
  destruct n as [|p]; [reflexivity|].
  apply N.log2_spec. lia.
Qed.

Lemma parse_format_0d w n : parse_dec (format_0d w n) = n.
Proof. unfold format_0d, zfill. rewrite parse_dec_zeros. apply parse_dec_dec. Qed.

Lemma format_0d_inj w a b : format_0d w a = format_0d w b -> a = b.
Proof.
  intros E. apply (f_equal parse_dec) in E. now rewrite !parse_format_0d in E.
Qed.

Lemma format_0d_length w n :
  n < 10 ^ N.of_nat (S w) -> length (format_0d (S w) n) = S w.
Proof.
  intros H. unfold format_0d, zfill, dec.
  rewrite length_app, repeat_length.
  pose proof (dec_fuel_length (S (N.to_nat (N.log2 n))) n w H) as Hl.
  remember (length (dec_fuel (S (N.to_nat (N.log2 n))) n)) as k eqn:Ek.
  clear Ek H. lia.
Qed.

Lemma digits_fixed s : Forall is_digit s -> sanitize s = s.
Proof.
  intros H. apply sanitize_fixed. eapply Forall_impl; [|exact H].
  intros c Hc. left. apply in_class_hub_spec. unfold is_digit in Hc. lia.
Qed.

Lemma format_0d_digits w n : Forall is_digit (format_0d w n).
Proof.
  unfold format_0d, zfill. apply Forall_app; split.
  - apply Forall_forall. intros c Hc. apply repeat_spec in Hc. subst.
    unfold is_digit. lia.
  - apply dec_fuel_digits.
Qed.

Lemma sanitize_image s :
  Forall (fun c => in_class hub_name_class c = true \/ c = 95) (sanitize s).
Proof.
  induction s as [|c s IH]; [constructor|].
  rewrite sanitize_cons. constructor; [|exact IH].
  destruct (in_class hub_name_class c) eqn:E; auto.
Qed.

(** What line 60 does to each character: it is kept when it is a letter, a
    digit, a dot or a backslash, and becomes an underscore otherwise. *)
Lemma sanitize_nth s i :
  (i < length s)%nat ->
  nth i (sanitize s) 0 =
  (if alnum_dot (nth i s 0) || (nth i s 0 =? 92) then nth i s 0 else 95).
Proof.
  revert i; induction s as [|c s IH]; intros i Hi; [simpl in Hi; lia|].
  rewrite sanitize_cons. destruct i as [|i].
  - cbn [nth].
    assert (E : in_class hub_name_class c = alnum_dot c || (c =? 92)).
    { unfold alnum_dot, in_class, hub_name_class. cbn [existsb in_item].
      destruct ((65 <=? c) && (c <=? 90)), ((97 <=? c) && (c <=? 122)),
        ((48 <=? c) && (c <=? 57)), (c =? 92), (c =? 46); reflexivity. }
    now rewrite E.
  - cbn [nth]. apply IH. simpl in Hi. lia.
Qed.

(** *** The endpoint path determines the construction time *)

Lemma strftime_compact_length t :
  valid_datetime t -> length (strftime_compact t) = 15%nat.
Proof.
  intros (Hy & Hm & Hd & Hh & Hmi & Hs & _). unfold strftime_compact.
  rewrite !length_app, (format_0d_length 3), !(format_0d_length 1);
    try reflexivity;
    try (change (10 ^ N.of_nat 2) with 100; lia);
    change (10 ^ N.of_nat 4) with 10000; lia.
Qed.

Lemma strftime_compact_digits t :
  sanitize (strftime_compact t) = strftime_compact t.
Proof.
  unfold strftime_compact.
  rewrite !sanitize_app, !(digits_fixed _ (format_0d_digits _ _)).
  reflexivity.
Qed.

Lemma strftime_compact_inj a b :
  valid_datetime a -> valid_datetime b ->
  strftime_compact a = strftime_compact b -> same_second a b.
Proof.
  intros (Hy & Hm & Hd & Hh & Hmi & Hs & _) (Hy' & Hm' & Hd' & Hh' & Hmi' & Hs' & _).
  unfold strftime_compact, same_second. intros E.
  assert (L2 : forall n, n <= 99 -> length (format_0d 2 n) = 2%nat).
  { intros n Hn. apply (format_0d_length 1).
    change (10 ^ N.of_nat 2) with 100. lia. }
  assert (L4 : forall n, n <= 9999 -> length (format_0d 4 n) = 4%nat).
  { intros n Hn. apply (format_0d_length 3).
    change (10 ^ N.of_nat 4) with 10000. lia. }
  apply app_eq_len_l in E; [|rewrite !L4; auto; lia]. destruct E as [E1 E].
  apply app_eq_len_l in E; [|rewrite !L2; auto; lia]. destruct E as [E2 E].
  apply app_eq_len_l in E; [|rewrite !L2; auto; lia]. destruct E as [E3 E].
  apply app_eq_len_l in E; [|reflexivity]. destruct E as [_ E].
  apply app_eq_len_l in E; [|rewrite !L2; auto; lia]. destruct E as [E4 E].
  apply app_eq_len_l in E; [|rewrite !L2; auto; lia]. destruct E as [E5 E6].
  repeat split; eapply format_0d_inj; eassumption.
Qed.

(** The part of the name after the title: it is left alone by line 60. *)
Definition name_suffix (tnow : datetime) (pid : N) : str :=
  py "_utc" ++ strftime_compact tnow ++ py "." ++
  format_0d 6 (microsecond tnow) ++ py "_pid" ++ dec pid.

Lemma samp_hub_name_split title t pid :
  samp_hub_name title t pid = sanitize title ++ name_suffix t pid.
Proof.
  unfold samp_hub_name, raw_hub_name, name_suffix.
  rewrite !sanitize_app, strftime_compact_digits.
  rewrite (digits_fixed _ (format_0d_digits _ _)).
  rewrite (digits_fixed (dec pid)) by apply dec_fuel_digits.
  reflexivity.
Qed.

Lemma name_suffix_length t pid :
  valid_datetime t ->
  length (name_suffix t pid) = (30 + length (dec pid))%nat.
Proof.
  intros V. unfold name_suffix.
  rewrite !length_app, (strftime_compact_length t V), (format_0d_length 5).
  - reflexivity.
  - destruct V as (_ & _ & _ & _ & _ & _ & Hu).
    change (10 ^ N.of_nat 6) with 1000000. lia.
Qed.

Lemma name_suffix_inj a b pid :
  valid_datetime a -> valid_datetime b ->
  name_suffix a pid = name_suffix b pid -> a = b.
Proof.
  intros Va Vb E. unfold name_suffix in E.
  apply app_eq_len_l in E; [|reflexivity]. destruct E as [_ E].
  apply app_eq_len_l in E; [|now rewrite !strftime_compact_length].
  destruct E as [Et E].
  apply app_eq_len_l in E; [|reflexivity]. destruct E as [_ E].
  apply app_eq_len_r in E; [|reflexivity]. destruct E as [Eu _].
  apply format_0d_inj in Eu.
  destruct (strftime_compact_inj a b Va Vb Et) as (?&?&?&?&?&?).
  destruct a, b; simpl in *; congruence.
Qed.

Lemma samp_hub_file_inj hub_path title1 title2 t1 t2 pid :
  valid_datetime t1 -> valid_datetime t2 ->
  samp_hub_file hub_path title1 t1 pid = samp_hub_file hub_path title2 t2 pid ->
  sanitize title1 = sanitize title2 /\ t1 = t2.
Proof.
  intros V1 V2 E. unfold samp_hub_file in E.
  apply app_inv_head in E. apply app_inv_head in E.
  apply app_inv_tail in E. rewrite !samp_hub_name_split in E.
  apply app_eq_len_r in E; [|now rewrite !name_suffix_length].
  destruct E as [Et Es]. split; [exact Et|].
  eapply name_suffix_inj; eassumption.
Qed.

(** C9: sanitizing an already sanitized name changes nothing. *)
Theorem C9_sanitize_idempotent (s : str) :
  sanitize (sanitize s) = sanitize s.
Proof. apply sanitize_fixed, sanitize_image. Qed.

(** C7, at the failing input: a backslash is outside the set of letters,
    digits and dot, and line 60 leaves it in the name. *)
Theorem C7_backslash_survives :
  alnum_dot 92 = false /\
  sanitize (py "a\b") = py "a\b" /\
  samp_hub_name (py "a\b") (mk_datetime 2024 3 7 9 5 0 42) 1234
  = py "a\b_utc20240307T090500.000042_pid1234".
Proof. repeat split. Qed.

(** C8 as stated fails: the path is a function of title, time and process
    id, so two constructions of one process that read the same clock value
    get the same path. *)
Theorem C8_same_clock_value_same_path :
  ~ (forall (hub_path title : str) (t1 t2 : datetime) (pid : N),
        valid_datetime t1 -> valid_datetime t2 -> same_second t1 t2 ->
        samp_hub_file hub_path title t1 pid <> samp_hub_file hub_path title t2 pid).
Proof.
  intros H.
  apply (H (py "/home/u/.samp-ds9") (py "ds9SAMP")
           (mk_datetime 2024 3 7 9 5 0 42) (mk_datetime 2024 3 7 9 5 0 42) 1234);
    unfold valid_datetime, same_second; cbn;
    repeat split; try reflexivity; intro; discriminate.
Qed.

(** C8, amended: in one process and one second, constructions whose
    microsecond components differ get distinct paths, whatever the
    titles. *)
Theorem C8_distinct_paths_when_microseconds_differ
    (hub_path title1 title2 : str) (t1 t2 : datetime) (pid : N) :
  valid_datetime t1 -> valid_datetime t2 -> same_second t1 t2 ->
  microsecond t1 <> microsecond t2 ->
  samp_hub_file hub_path title1 t1 pid <> samp_hub_file hub_path title2 t2 pid.
Proof.
  intros V1 V2 _ Hu E.
  apply samp_hub_file_inj in E; auto. destruct E as [_ ->]. now apply Hu.
Qed.

Lemma C8_distinct_paths_witness :
  samp_hub_file (py "/home/u/.samp-ds9") (py "ds9 A")
    (mk_datetime 2024 3 7 9 5 0 42) 1234
  <> samp_hub_file (py "/home/u/.samp-ds9") (py "ds9_A")
    (mk_datetime 2024 3 7 9 5 0 43) 1234.
Proof.
  apply C8_distinct_paths_when_microseconds_differ;
    unfold valid_datetime, same_second; cbn;
    repeat split; try reflexivity; intro; discriminate.
Defined.

(* ===================================================================== *)
(** ** Running the methods *)
(* ===================================================================== *)

Arguments calls : simpl never.

Lemma calls_app h1 h2 : calls (h1 ++ h2) = calls h1 ++ calls h2.
Proof. apply map_app. Qed.

(** *** Comparing strings and values *)

Lemma str_eqb_eq a : forall b, str_eqb a b = true <-> a = b.
Proof.
  induction a as [|x a IH]; intros [|y b]; cbn [str_eqb];
    try (split; [discriminate|discriminate]); [tauto|].
  rewrite andb_true_iff, N.eqb_eq, IH. split.
  - intros [-> ->]. reflexivity.
  - intros H. injection H as -> ->. auto.
Qed.

Lemma value_eq_str_spec v s : value_eq_str v s = true <-> v = VStr s.
Proof.
  destruct v as [|s'|l|m]; cbn [value_eq_str];
    try (split; [discriminate|discriminate]).
  rewrite str_eqb_eq. split; [intros ->; reflexivity | intros H; now injection H].
Qed.

(** Evaluates a method as far as the known attributes and answers go. *)
Ltac run :=
  repeat (progress
    (cbn -[py dec_Z calls];
     repeat match goal with
            | H : ?l = _ |- context [?l] => rewrite H
            end)).

(** Closes a goal [runs m w cs s] once [m w] has been evaluated. *)
Ltac close_run :=
  eexists; cbn; split; [reflexivity|];
  cbn [self history log with_self];
  rewrite ?calls_app, ?app_nil_r, <- ?app_assoc; auto.

Section Running.

Variable E : setting.


Lemma runs_ret w s : self w = s -> runs (ret tt) w [] s.
Proof. intros H. exists w. rewrite app_nil_r. auto. Qed.

Lemma runs_bind (m : M unit) (k : unit -> M unit) w cs1 s1 cs2 s2 :
  runs m w cs1 s1 ->
  (forall w1, self w1 = s1 -> runs (k tt) w1 cs2 s2) ->
  runs (bind m k) w (cs1 ++ cs2) s2.
Proof.
  intros (w1 & E1 & S1 & H1) K.
  destruct (K w1 S1) as (w2 & E2 & S2 & H2).
  exists w2. unfold bind. rewrite E1. repeat split; auto.
  rewrite H2, H1. now rewrite app_assoc.
Qed.

Lemma runs_calls (m : M unit) w cs cs' s :
  runs m w cs s -> cs = cs' -> runs m w cs' s.
Proof. now intros H <-. Qed.

Lemma runs_read_self (k : DS9 -> M unit) w cs s s' :
  self w = s -> runs (k s) w cs s' -> runs (bind read_self k) w cs s'.
Proof. intros <- H. exact H. Qed.

Lemma runs_debug_print msg w s : self w = s -> runs (debug_print msg) w [] s.
Proof.
  intros H. unfold runs, debug_print, bind, read_self, print, ret.
  destruct (debug (self w)); close_run.
Qed.

Lemma runs_evtexit_set w s :
  self w = s -> runs (try_pass evtexit_set) w [] (set_evtexit s).
Proof.
  intros <-. close_run.
Qed.

(** A guarded call: whatever the collaborator answers, the step returns. *)
Lemma runs_try_invoke {A} (c : call (outcome A)) w s :
  self w = s -> runs (try_pass (invoke E c ;; ret tt)) w [Call c] s.
Proof.
  intros <-. unfold runs, try_pass, try_except, invoke, bind, ask, ret, raise.
  destruct (oracle E (outcome A) (history w) c);
close_run.
Qed.

Lemma runs_try_invoke_unit (c : call (outcome unit)) w s :
  self w = s -> runs (try_pass (invoke E c)) w [Call c] s.
Proof.
  intros <-. unfold runs, try_pass, try_except, invoke, bind, ask, ret, raise.
  destruct (oracle E (outcome unit) (history w) c) as [[]|];
    close_run.
Qed.

Lemma runs_try_getattr_invoke {A} (field : DS9 -> option A) name
    (c : A -> call (outcome unit)) w s :
  self w = s ->
  runs (try_pass (x <- getattr field name ;; invoke E (c x))) w
       (match field s with Some x => [Call (c x)] | None => [] end) s.
Proof.
  intros <-.
  unfold runs, try_pass, try_except, getattr, invoke, bind, ask, ret, raise,
    read_self.
  destruct (field (self w)) as [x|].
  - destruct (oracle E (outcome unit) (history w) (c x)) as [[]|];
      close_run.
  - close_run.
Qed.

Lemma runs_try_set_exit w s :
  self w = s ->
  runs (try_pass (set E [py "exit"] 10)) w (exit_cmd_calls s) s.
Proof.
  intros <-.
  unfold runs, exit_cmd_calls, try_pass, try_except, set, with_lock, finally,
    for_each, getattr, invoke, bind, ask, ret, raise, read_self.
  destruct (samp (self w)) as [client|] eqn:Hs;
    [destruct (samp_clientId (self w)) as [c_id|] eqn:Hc|]; run.
  - match goal with
    | |- context [oracle E (outcome value) ?h ?c] =>
        destruct (oracle E (outcome value) h c)
    end; close_run.
  - close_run.
  - close_run.
Qed.

(** [exit] returns; it issues the calls of its steps, each one whatever the
    earlier ones answered, and raises the exit flag. *)
Lemma exit_runs use_callback main_thread w s :
  self w = s ->
  runs (exit E use_callback main_thread) w (exit_calls main_thread s)
       (set_evtexit s).
Proof.
  intros Hs. unfold exit.
  eapply runs_calls.
  - eapply runs_bind; [apply runs_debug_print; exact Hs | intros w1 H1].
    eapply runs_bind; [apply runs_evtexit_set; exact H1 | intros w2 H2].
    eapply runs_bind; [|intros w3 H3].
    { instantiate (2 := join_calls main_thread s).
      instantiate (1 := set_evtexit s).
      unfold join_calls. destruct main_thread.
      - eapply runs_calls.
        + eapply runs_bind; [apply runs_debug_print; exact H2 | intros w' H'].
          apply (runs_try_getattr_invoke watcher "__watcher"
                   (fun t => ThreadJoin t 1)); exact H'.
        + reflexivity.
      - apply runs_ret; exact H2. }
    eapply runs_bind; [apply runs_debug_print; exact H3 | intros w4 H4].
    eapply runs_bind; [apply runs_try_set_exit; exact H4 | intros w5 H5].
    eapply runs_bind; [apply runs_debug_print; exact H5 | intros w6 H6].
    eapply runs_bind;
      [apply (runs_try_getattr_invoke process "__process" ProcessKill);
       exact H6 | intros w7 H7].
    eapply runs_bind; [apply runs_debug_print; exact H7 | intros w8 H8].
    eapply runs_bind;
      [apply (runs_try_getattr_invoke hub_file "__samp_hub_file" Unlink);
       exact H8 | intros w9 H9].
    eapply runs_read_self; [exact H9|].
    eapply runs_bind; [|intros w10 H10].
    { instantiate (2 := callback_calls s).
      instantiate (1 := set_evtexit s).
      unfold callback_calls. cbn [exit_callback set_evtexit].
      destruct (exit_callback s) as [cb|].
      - eapply runs_calls.
        + eapply runs_bind; [apply runs_debug_print; exact H9 | intros w' H'].
          apply runs_try_invoke_unit; exact H'.
        + reflexivity.
      - apply runs_ret; exact H9. }
    eapply runs_read_self; [exact H10|].
    instantiate (1 := host_kill_calls s).
    unfold host_kill_calls. cbn [kill_on_exit pid set_evtexit].
    destruct (kill_on_exit s).
    + eapply runs_calls.
      * eapply runs_bind; [apply runs_debug_print; exact H10 | intros w' H'].
        apply runs_try_invoke_unit; exact H'.
      * reflexivity.
    + apply runs_ret; exact H10.
  - reflexivity.
Qed.

End Running.

(* ===================================================================== *)
(** ** Teardown *)
(* ===================================================================== *)

Lemma del_runs E w s :
  self w = s -> runs (del E) w (exit_calls true s) (set_evtexit s).
Proof.
  intros Hs. unfold del. eapply runs_calls.
  - eapply runs_bind; [apply runs_debug_print; exact Hs | intros w1 H1].
    apply exit_runs; exact H1.
  - reflexivity.
Qed.

Example exit_all_steps_fail :
  exists w',
    exit (setting_of all_fail) true true (ready_world (Some 5) true)
    = Done (Returns tt) w' /\
    calls (history w') =
    [Call (ThreadJoin 9 1); Call LockAcquire;
     Call (EcallAndWait 8 (Some (py "c1")) (py "ds9.set") (py "10") (py "exit"));
     Call LockRelease; Call (ProcessKill 7);
     Call (Unlink (py "/home/u/.samp-ds9/ds9SAMP_utc20240307T090500.000042_pid1234.samp"));
     Call (ExitCallback 5); Call (OsKill 1234 15)].
Proof. eexists. split; reflexivity. Qed.

Example exit_before_spawn :
  exists w',
    exit smooth_setting true true fresh_world = Done (Returns tt) w' /\
    calls (history w') = [Call LockAcquire; Call LockRelease].
Proof. eexists. split; reflexivity. Qed.

(** C1: [exit] returns without raising, whatever its arguments, the state
    of the object and the answers of the collaborators; it raises the exit
    flag and issues the call of every step whose attribute exists, in
    order, whether or not the earlier calls failed; and a second run on
    the world the first one leaves returns as well, with the same calls. *)
Theorem C1_exit_never_raises (E : setting)
    (use_callback main_thread use_callback2 main_thread2 : bool) (w : world) :
  exists w1 w2,
    exit E use_callback main_thread w = Done (Returns tt) w1 /\
    self w1 = set_evtexit (self w) /\
    calls (history w1) = calls (history w) ++ exit_calls main_thread (self w) /\
    exit E use_callback2 main_thread2 w1 = Done (Returns tt) w2 /\
    self w2 = self w1 /\
    calls (history w2) = calls (history w1) ++ exit_calls main_thread2 (self w).
Proof.
  destruct (exit_runs E use_callback main_thread w (self w) eq_refl)
    as (w1 & R1 & S1 & H1).
  destruct (exit_runs E use_callback2 main_thread2 w1 (self w1) eq_refl)
    as (w2 & R2 & S2 & H2).
  exists w1, w2. repeat split; auto.
  - rewrite S2, S1. reflexivity.
  - rewrite H2, S1. reflexivity.
Qed.

(** C10: [exit] does not look at [use_callback]: both values give the same
    run; and with an exit callback configured, [exit], the destructor and
    the process-exit hook (which pass [use_callback=False]) all return
    after having called the callback. *)
Theorem C10_use_callback_is_ignored (E : setting)
    (use_callback main_thread : bool) (w : world) (cb : handle) :
  exit_callback (self w) = Some cb ->
  exit E use_callback main_thread w = exit E (negb use_callback) main_thread w /\
  (exists w' pre post,
     exit E use_callback main_thread w = Done (Returns tt) w' /\
     calls (history w') =
       calls (history w) ++ pre ++ Call (ExitCallback cb) :: post) /\
  (exists w' pre post,
     del E w = Done (Returns tt) w' /\
     calls (history w') =
       calls (history w) ++ pre ++ Call (ExitCallback cb) :: post) /\
  (exists w' pre post,
     atexit_hook E w = Done (Returns tt) w' /\
     calls (history w') =
       calls (history w) ++ pre ++ Call (ExitCallback cb) :: post).
Proof.
  intros Hcb.
  assert (Hc : forall mt, exit_calls mt (self w) =
    (join_calls mt (self w) ++ exit_cmd_calls (self w) ++ kill_calls (self w)
       ++ unlink_calls (self w))
    ++ Call (ExitCallback cb) :: host_kill_calls (self w)).
  { intros mt. unfold exit_calls, callback_calls. rewrite Hcb.
    rewrite <- !app_assoc. reflexivity. }
  split; [reflexivity|]. repeat split.
  - destruct (exit_runs E use_callback main_thread w (self w) eq_refl)
      as (w' & R & _ & H).
    exists w'. eexists. eexists. split; [exact R|]. rewrite H, Hc. reflexivity.
  - destruct (del_runs E w (self w) eq_refl) as (w' & R & _ & H).
    exists w'. eexists. eexists. split; [exact R|]. rewrite H, Hc. reflexivity.
  - destruct (exit_runs E false true w (self w) eq_refl) as (w' & R & _ & H).
    exists w'. eexists. eexists. split; [exact R|]. rewrite H, Hc. reflexivity.
Qed.

Lemma C10_use_callback_is_ignored_witness :
  exit_callback (self (ready_world (Some 5) false)) = Some 5 /\
  exists w' pre post,
    del smooth_setting (ready_world (Some 5) false) = Done (Returns tt) w' /\
    calls (history w') =
      calls (history (ready_world (Some 5) false)) ++
      pre ++ Call (ExitCallback 5) :: post.
Proof.
  split; [reflexivity|].
  apply (C10_use_callback_is_ignored smooth_setting false true
           (ready_world (Some 5) false) 5 eq_refl).
Defined.

(* ===================================================================== *)
(** ** Commands *)
(* ===================================================================== *)

Section Commands.

Variable E : setting.
Variables (client : handle) (c_id : option str) (timeout : Z).

(** The body of the loop of line 161. *)
Let body (cmd : str) : M unit :=
  client <- getattr samp "__samp" ;;
  c_id <- getattr samp_clientId "__samp_clientId" ;;
  invoke E (EcallAndWait client c_id (py "ds9.set") (dec_Z timeout) cmd) ;;
  ret tt.

Lemma acked_cons cmd v cmds acks :
  acked client c_id timeout (cmd :: cmds) (v :: acks) =
  Ev (set_call client c_id timeout cmd) (Returns v)
    :: acked client c_id timeout cmds acks.
Proof. reflexivity. Qed.

Lemma for_each_commands cmds : forall w,
  samp (self w) = Some client ->
  samp_clientId (self w) = Some c_id ->
  (exists acks w',
     length acks = length cmds /\
     for_each cmds body w = Done (Returns tt) w' /\
     self w' = self w /\
     history w' = history w ++ acked client c_id timeout cmds acks)
  \/
  (exists pre cmd rest acks e w',
     cmds = pre ++ cmd :: rest /\
     length acks = length pre /\
     for_each cmds body w = Done (Raises e) w' /\
     self w' = self w /\
     history w' = history w ++ acked client c_id timeout pre acks
                    ++ [Ev (set_call client c_id timeout cmd) (Raises e)]).
Proof.
  induction cmds as [|cmd cmds IH]; intros w Hs Hc.
  - left. exists [], w. cbn. rewrite app_nil_r. auto.
  - assert (Hstep : for_each (cmd :: cmds) body w =
      match body cmd w with
      | Done (Returns _) w1 => for_each cmds body w1
      | Done (Raises e) w1 => Done (Raises e) w1
      | OutOfFuel => OutOfFuel
      end) by reflexivity.
    rewrite Hstep. clear Hstep.
    assert (Hb : body cmd w =
      match oracle E _ (history w) (set_call client c_id timeout cmd) with
      | Returns _ => Done (Returns tt)
      | Raises e => Done (Raises e)
      end (log (Ev (set_call client c_id timeout cmd)
                   (oracle E _ (history w) (set_call client c_id timeout cmd))) w)).
    { unfold body, getattr, invoke, bind, ask, read_self, ret, raise, set_call.
      rewrite Hs, Hc.
      destruct (oracle E (outcome value) (history w)
                  (EcallAndWait client c_id (py "ds9.set") (dec_Z timeout) cmd));
        reflexivity. }
    rewrite Hb.
    destruct (oracle E _ (history w) (set_call client c_id timeout cmd))
      as [v|e] eqn:Ho; cbv beta iota.
    + destruct (IH (log (Ev (set_call client c_id timeout cmd) (Returns v)) w)
                   Hs Hc)
        as [(acks & w' & L & R & S & H)
           |(pre & c & rest & acks & e & w' & Ec & L & R & S & H)].
      * left. exists (v :: acks), w'. cbn [length].
        split; [now rewrite L|]. split; [exact R|]. split; [exact S|].
        rewrite H. cbn [history log]. rewrite <- app_assoc. reflexivity.
      * right. exists (cmd :: pre), c, rest, (v :: acks), e, w'.
        cbn [length]. split; [now rewrite Ec|]. split; [now rewrite L|].
        split; [exact R|]. split; [exact S|].
        rewrite H. cbn [history log]. rewrite <- !app_assoc. reflexivity.
    + right. exists [], cmd, cmds, [], e. eexists. repeat split.
Qed.

End Commands.

Lemma unit_answer (E : setting) h (c : call unit) : oracle E unit h c = tt.
Proof. now destruct (oracle E unit h c). Qed.

Lemma with_lock_eq (E : setting) {A} (body : M A) w :
  with_lock E body w =
  match body (log (Ev LockAcquire tt) w) with
  | Done o w' => Done o (log (Ev LockRelease tt) w')
  | OutOfFuel => OutOfFuel
  end.
Proof.
  unfold with_lock, finally, bind, ask. rewrite unit_answer.
  destruct (body (log (Ev LockAcquire tt) w)) as [o w'|]; [|reflexivity].
  rewrite unit_answer. destruct o; reflexivity.
Qed.

Example set_second_rejected :
  exists w',
    set (setting_of (rejects_after 1)) [py "frame 1"; py "zoom 2"; py "raise"] 10
        (ready_world None false)
    = Done (Raises (OtherException 400)) w' /\
    history w' =
    [Ev LockAcquire tt;
     Ev (set_call 8 (Some (py "c1")) 10 (py "frame 1")) (Returns (VMap []));
     Ev (set_call 8 (Some (py "c1")) 10 (py "zoom 2")) (Raises (OtherException 400));
     Ev LockRelease tt].
Proof. eexists. split; reflexivity. Qed.

(** C5: with the handshake done, [set] takes the lock, issues the commands
    one at a time in the order given, each one after the acknowledgment of
    the one before, and releases the lock.  Either every command is
    acknowledged and [set] returns, or some command raises: the commands
    before it have been issued and acknowledged, none after it is issued,
    and [set] raises the same exception after releasing the lock. *)
Theorem C5_set_in_order (E : setting) (cmds : list str) (timeout : Z)
    (w : world) (client : handle) (c_id : option str) :
  samp (self w) = Some client ->
  samp_clientId (self w) = Some c_id ->
  (exists acks w',
     length acks = length cmds /\
     set E cmds timeout w = Done (Returns tt) w' /\
     history w' =
       history w ++ Ev LockAcquire tt
         :: acked client c_id timeout cmds acks ++ [Ev LockRelease tt])
  \/
  (exists pre cmd rest acks e w',
     cmds = pre ++ cmd :: rest /\
     length acks = length pre /\
     set E cmds timeout w = Done (Raises e) w' /\
     history w' =
       history w ++ Ev LockAcquire tt
         :: acked client c_id timeout pre acks
         ++ [Ev (set_call client c_id timeout cmd) (Raises e);
             Ev LockRelease tt]).
Proof.
  intros Hs Hc.
  unfold set. rewrite with_lock_eq.
  destruct (for_each_commands E client c_id timeout cmds
              (log (Ev LockAcquire tt) w) Hs Hc)
    as [(acks & w' & L & R & S & H)
       |(pre & c & rest & acks & e & w' & Ec & L & R & S & H)].
  - left. exists acks. eexists. split; [exact L|].
    rewrite R. split; [reflexivity|]. cbn [history log] in *. rewrite H.
    rewrite <- !app_assoc. reflexivity.
  - right. exists pre, c, rest, acks, e. eexists.
    split; [exact Ec|]. split; [exact L|].
    rewrite R. split; [reflexivity|]. cbn [history log] in *. rewrite H.
    rewrite <- !app_assoc. reflexivity.
Qed.

Lemma C5_set_in_order_witness :
  (exists acks w',
     length acks = length [py "frame 1"; py "zoom 2"] /\
     set (setting_of (rejects_after 1)) [py "frame 1"; py "zoom 2"] 10
         (ready_world None false) = Done (Returns tt) w' /\
     history w' =
       history (ready_world None false) ++ Ev LockAcquire tt
         :: acked 8 (Some (py "c1")) 10 [py "frame 1"; py "zoom 2"] acks
         ++ [Ev LockRelease tt])
  \/
  (exists pre cmd rest acks e w',
     [py "frame 1"; py "zoom 2"] = pre ++ cmd :: rest /\
     length acks = length pre /\
     set (setting_of (rejects_after 1)) [py "frame 1"; py "zoom 2"] 10
         (ready_world None false) = Done (Raises e) w' /\
     history w' =
       history (ready_world None false) ++ Ev LockAcquire tt
         :: acked 8 (Some (py "c1")) 10 pre acks
         ++ [Ev (set_call 8 (Some (py "c1")) 10 cmd) (Raises e);
             Ev LockRelease tt]).
Proof.
  apply (C5_set_in_order (setting_of (rejects_after 1))
           [py "frame 1"; py "zoom 2"] 10 (ready_world None false)
           8 (Some (py "c1")));
    reflexivity.
Defined.

(* ===================================================================== *)
(** ** The watchdog *)
(* ===================================================================== *)

Section Watchdog.

Variable E : setting.

Lemma debug_print_eq msg w :
  exists w', debug_print msg w = Done (Returns tt) w' /\
             self w' = self w /\ history w' = history w.
Proof.
  unfold debug_print, bind, read_self, print, ret.
  destruct (debug (self w)); eexists; repeat split.
Qed.

(** With the handshake done, [alive] asks for the lock, pings, releases
    the lock and tells whether the answer was ds9's ['OK']. *)
Lemma alive_eq w client c_id :
  samp (self w) = Some client ->
  samp_clientId (self w) = Some c_id ->
  exists r w',
    alive E w = Done (Returns (probe_ok r)) w' /\
    self w' = self w /\
    history w' = history w ++ [Ev LockAcquire tt; Ev (ping client c_id) r;
                               Ev LockRelease tt].
Proof.
  intros Hs Hc. unfold alive, try_except. rewrite with_lock_eq.
  unfold getattr, invoke, bind, ask, read_self, ret, raise, ping.
  run.
  match goal with
  | |- context [oracle E (outcome value) ?h ?c] =>
      exists (oracle E (outcome value) h c);
      destruct (oracle E (outcome value) h c) as [v|e]
  end;
    eexists; (split; [reflexivity|]); cbn [self log history];
    rewrite <- !app_assoc; auto.
Qed.

(** [alive] never raises. *)
Lemma alive_total w :
  exists b w', alive E w = Done (Returns b) w' /\ self w' = self w.
Proof.
  unfold alive, try_except. rewrite with_lock_eq.
  unfold getattr, invoke, bind, ask, read_self, ret, raise.
  destruct (samp (self w)) as [client|] eqn:Hs;
    [destruct (samp_clientId (self w)) as [c_id|] eqn:Hc|]; run.
  - match goal with
    | |- context [oracle E (outcome value) ?h ?c] =>
        destruct (oracle E (outcome value) h c)
    end; eexists; eexists; split; reflexivity.
  - eexists; eexists; split; reflexivity.
  - eexists; eexists; split; reflexivity.
Qed.

Lemma watch_turn_flag_set period w :
  evtexit (self w) = true ->
  exists w1, watch_turn E period w = Done (Returns true) w1 /\
             self w1 = self w /\ history w1 = history w.
Proof.
  intros Hf. unfold watch_turn.
  destruct (debug_print_eq (py "...watching") w) as (w0 & R0 & S0 & H0).
  unfold bind at 1. rewrite R0.
  unfold evtexit_wait, bind at 1, bind at 1, read_self. rewrite S0, Hf.
  unfold ret at 1.
  destruct (debug_print_eq (py "watch_thread quits gracefully") w0)
    as (w1 & R1 & S1 & H1).
  unfold bind. rewrite R1. exists w1. repeat split; congruence.
Qed.

Lemma watch_turn_woken period w :
  evtexit (self w) = false ->
  oracle E bool (history w) (EventWait period) = true ->
  exists w1, watch_turn E period w = Done (Returns true) w1 /\
             self w1 = set_evtexit (self w) /\
             history w1 = history w ++ [Ev (EventWait period) true].
Proof.
  intros Hf Ho. unfold watch_turn.
  destruct (debug_print_eq (py "...watching") w) as (w0 & R0 & S0 & H0).
  unfold bind at 1. rewrite R0.
  unfold evtexit_wait, bind at 1, bind at 1, read_self. rewrite S0, Hf.
  unfold bind at 1, bind at 1, ask. rewrite H0, Ho.
  unfold modify_self, ret at 1.
  destruct (debug_print_eq (py "watch_thread quits gracefully")
              (with_self set_evtexit (log (Ev (EventWait period) true) w0)))
    as (w1 & R1 & S1 & H1).
  unfold bind. rewrite R1. exists w1. split; [reflexivity|].
  rewrite S1, H1. cbn [self history with_self log]. rewrite S0, H0. auto.
Qed.

Lemma watch_turn_probe period w client c_id :
  samp (self w) = Some client ->
  samp_clientId (self w) = Some c_id ->
  evtexit (self w) = false ->
  oracle E bool (history w) (EventWait period) = false ->
  exists r w1,
    watch_turn E period w = Done (Returns (negb (probe_ok r))) w1 /\
    self w1 = self w /\
    history w1 = history w ++
      [Ev (EventWait period) false; Ev LockAcquire tt;
       Ev (ping client c_id) r; Ev LockRelease tt].
Proof.
  intros Hs Hc Hf Ho. unfold watch_turn.
  destruct (debug_print_eq (py "...watching") w) as (w0 & R0 & S0 & H0).
  unfold bind at 1. rewrite R0.
  unfold evtexit_wait, bind at 1, bind at 1, read_self. rewrite S0, Hf.
  unfold bind at 1, bind at 1, ask. rewrite H0, Ho.
  unfold ret at 1, ret at 1.
  destruct (alive_eq (log (Ev (EventWait period) false) w0) client c_id)
    as (r & w1 & R1 & S1 & H1).
  { cbn [self log]. congruence. }
  { cbn [self log]. congruence. }
  unfold bind at 1. rewrite R1. exists r.
  destruct (probe_ok r); cbn [negb].
  - exists w1. split; [reflexivity|]. rewrite S1, H1.
    cbn [self history log]. rewrite S0, H0, <- app_assoc. auto.
  - destruct (debug_print_eq (py "watch_thread ds9 is not alive") w1)
      as (w2 & R2 & S2 & H2).
    unfold bind. rewrite R2. exists w2. split; [reflexivity|].
    rewrite S2, H2, S1, H1.
    cbn [self history log]. rewrite S0, H0, <- app_assoc. auto.
Qed.

(** The probe counts as answered only by ds9's own ['OK']. *)
Lemma probe_ok_spec r : probe_ok r = true <-> r = Returns (VStr (py "OK")).
Proof.
  destruct r as [v|e]; cbn [probe_ok].
  - rewrite value_eq_str_spec. split; [intros ->; reflexivity|].
    intros H. now injection H.
  - split; discriminate.
Qed.

(** [alive], with the answer of the hub to the ping. *)
Lemma alive_ping w client c_id :
  samp (self w) = Some client ->
  samp_clientId (self w) = Some c_id ->
  exists w',
    alive E w =
      Done (Returns (probe_ok (oracle E _ (history w ++ [Ev LockAcquire tt])
                                 (ping client c_id)))) w' /\
    self w' = self w /\
    history w' = history w ++
      [Ev LockAcquire tt;
       Ev (ping client c_id)
          (oracle E _ (history w ++ [Ev LockAcquire tt]) (ping client c_id));
       Ev LockRelease tt].
Proof.
  intros Hs Hc. unfold alive, try_except. rewrite with_lock_eq.
  unfold getattr, invoke, bind, ask, read_self, ret, raise, ping.
  run.
  destruct (oracle E (outcome value) (history w ++ [Ev LockAcquire tt])
              (Enotify client c_id (py "samp.app.ping"))) as [v|e];
    eexists; (split; [reflexivity|]); cbn [self log history];
    rewrite <- !app_assoc; auto.
Qed.

Lemma watch_turn_ping period w client c_id r :
  samp (self w) = Some client ->
  samp_clientId (self w) = Some c_id ->
  evtexit (self w) = false ->
  oracle E bool (history w) (EventWait period) = false ->
  r = oracle E _ (history w ++ [Ev (EventWait period) false; Ev LockAcquire tt])
        (ping client c_id) ->
  exists w1,
    watch_turn E period w = Done (Returns (negb (probe_ok r))) w1 /\
    history w1 = history w ++
      [Ev (EventWait period) false; Ev LockAcquire tt;
       Ev (ping client c_id) r; Ev LockRelease tt].
Proof.
  intros Hs Hc Hf Ho Er. unfold watch_turn.
  destruct (debug_print_eq (py "...watching") w) as (w0 & R0 & S0 & H0).
  unfold bind at 1. rewrite R0.
  unfold evtexit_wait, bind at 1, bind at 1, read_self. rewrite S0, Hf.
  unfold bind at 1, bind at 1, ask. rewrite H0, Ho.
  unfold ret at 1, ret at 1.
  destruct (alive_ping (log (Ev (EventWait period) false) w0) client c_id)
    as (w1 & R1 & S1 & H1).
  { cbn [self log]. congruence. }
  { cbn [self log]. congruence. }
  assert (Er' : oracle E _ (history (log (Ev (EventWait period) false) w0)
                              ++ [Ev LockAcquire tt]) (ping client c_id) = r).
  { subst r. cbn [history log]. rewrite H0, <- app_assoc. reflexivity. }
  rewrite Er' in R1, H1.
  unfold bind at 1. rewrite R1.
  destruct (probe_ok r); cbn [negb].
  - exists w1. split; [reflexivity|]. rewrite H1.
    cbn [history log]. rewrite H0, <- app_assoc. auto.
  - destruct (debug_print_eq (py "watch_thread ds9 is not alive") w1)
      as (w2 & R2 & S2 & H2).
    unfold bind. rewrite R2. exists w2. split; [reflexivity|].
    rewrite H2, H1. cbn [history log]. rewrite H0, <- app_assoc. auto.
Qed.

Lemma watch_loop_retries period n : forall w w1 w2 fuel,
  retries (watch_turn E period) n w w1 ->
  watch_turn E period w1 = Done (Returns true) w2 ->
  (n < fuel)%nat ->
  watch_loop E fuel period w = Done (Returns tt) w2.
Proof.
  induction n as [|n IH]; intros w w1 w2 fuel Hr Ht Hn;
    inversion Hr; subst; (destruct fuel as [|fuel]; [lia|]);
    cbn [watch_loop]; unfold bind.
  - rewrite Ht. reflexivity.
  - match goal with H : watch_turn _ _ _ = _ |- _ => rewrite H end.
    eapply IH; eauto. lia.
Qed.

(** A turn of the watchdog never raises. *)
Lemma watch_turn_total period w :
  exists b w1, watch_turn E period w = Done (Returns b) w1.
Proof.
  destruct (evtexit (self w)) eqn:Hf.
  - destruct (watch_turn_flag_set period w Hf) as (w1 & R & _). eauto.
  - destruct (oracle E bool (history w) (EventWait period)) eqn:Ho.
    + destruct (watch_turn_woken period w Hf Ho) as (w1 & R & _). eauto.
    + unfold watch_turn.
      destruct (debug_print_eq (py "...watching") w) as (w0 & R0 & S0 & H0).
      unfold bind at 1. rewrite R0.
      unfold evtexit_wait, bind at 1, bind at 1, read_self. rewrite S0, Hf.
      unfold bind at 1, bind at 1, ask. rewrite H0, Ho.
      unfold ret at 1, ret at 1.
      destruct (alive_total (log (Ev (EventWait period) false) w0))
        as (b & w1 & R1 & _).
      unfold bind at 1. rewrite R1. destruct b; cbn [negb].
      * eexists; eexists; reflexivity.
      * destruct (debug_print_eq (py "watch_thread ds9 is not alive") w1)
          as (w2 & R2 & _).
        unfold bind. rewrite R2. eexists; eexists; reflexivity.
Qed.

Lemma exit_calls_no_join s : existsb is_join (exit_calls false s) = false.
Proof.
  unfold exit_calls, join_calls, exit_cmd_calls, kill_calls, unlink_calls,
    callback_calls, host_kill_calls.
  destruct (samp s), (samp_clientId s), (process s), (hub_file s),
    (exit_callback s), (kill_on_exit s); reflexivity.
Qed.

(** When the loop is left after [n] quiet turns, the thread runs the
    teardown with [main_thread=False]. *)
Lemma watch_thread_exit fuel period n w w0 w1 w2 :
  debug_print (py "watch_thread started - period " ++ dec_Z period) w
    = Done (Returns tt) w0 ->
  retries (watch_turn E period) n w0 w1 ->
  watch_turn E period w1 = Done (Returns true) w2 ->
  (n < fuel)%nat ->
  exists w3 w4,
    exit E true false w2 = Done (Returns tt) w3 /\
    watch_thread E fuel period w = Done (Returns tt) w4 /\
    self w4 = self w3 /\ history w4 = history w3 /\
    calls (history w3) = calls (history w2) ++ exit_calls false (self w2) /\
    existsb is_join (exit_calls false (self w2)) = false.
Proof.
  intros R0 Hr Ht Hn.
  pose proof (watch_loop_retries period n w0 w1 w2 fuel Hr Ht Hn) as Rl.
  destruct (exit_runs E true false w2 (self w2) eq_refl) as (w3 & R3 & _ & H3).
  destruct (debug_print_eq (py "watch_thread exit") w3) as (w4 & R4 & S4 & H4).
  exists w3, w4. split; [exact R3|]. split.
  - unfold watch_thread, bind. rewrite R0, Rl, R3, R4. reflexivity.
  - repeat split; auto. apply exit_calls_no_join.
Qed.

End Watchdog.

Example watchdog_stops_on_silent_peer :
  exists w',
    watch_thread (setting_of ping_unanswered) 3 5 (ready_world None false)
    = Done (Returns tt) w' /\
    calls (history w') =
    [Call (EventWait 5); Call LockAcquire;
     Call (ping 8 (Some (py "c1"))); Call LockRelease;
     Call LockAcquire; Call (set_call 8 (Some (py "c1")) 10 (py "exit"));
     Call LockRelease; Call (ProcessKill 7);
     Call (Unlink (py "/home/u/.samp-ds9/ds9SAMP_utc20240307T090500.000042_pid1234.samp"))].
Proof. eexists. split; reflexivity. Qed.

Example watchdog_keeps_watching_live_peer :
  watch_thread smooth_setting 20 5 (ready_world None false) = OutOfFuel.
Proof. reflexivity. Qed.

(** C6: with the handshake done, a turn of the watchdog goes as follows.
    When the exit flag is set by the time the wait wakes up (it was set
    already, or it is set during the wait), the turn ends the loop and
    issues no ping.  When the wait times out with the flag unset, the turn
    takes the lock, pings ds9, releases the lock, and goes on to another
    turn exactly when the hub's answer to the ping is the string ['OK']:
    a ping that raises, or is answered by anything else, ends the loop.  A
    turn never raises, and when the loop ends the thread runs [exit] with
    [main_thread=False], which does not join the watcher. *)
Theorem C6_watchdog_turn (E : setting) (period : Z) (w : world)
    (client : handle) (c_id : option str) :
  samp (self w) = Some client ->
  samp_clientId (self w) = Some c_id ->
  (evtexit (self w) = true ->
   exists w1, watch_turn E period w = Done (Returns true) w1 /\
              history w1 = history w) /\
  (evtexit (self w) = false ->
   oracle E bool (history w) (EventWait period) = true ->
   exists w1, watch_turn E period w = Done (Returns true) w1 /\
              evtexit (self w1) = true /\
              history w1 = history w ++ [Ev (EventWait period) true]) /\
  (evtexit (self w) = false ->
   oracle E bool (history w) (EventWait period) = false ->
   exists r stop w1,
     r = oracle E _ (history w ++
                     [Ev (EventWait period) false; Ev LockAcquire tt])
           (ping client c_id) /\
     watch_turn E period w = Done (Returns stop) w1 /\
     (stop = false <-> r = Returns (VStr (py "OK"))) /\
     history w1 = history w ++
       [Ev (EventWait period) false; Ev LockAcquire tt;
        Ev (ping client c_id) r; Ev LockRelease tt]) /\
  (forall w', exists b w1, watch_turn E period w' = Done (Returns b) w1) /\
  (forall fuel w',
     watch_loop E (S fuel) period w' =
     match watch_turn E period w' with
     | Done (Returns true) w1 => Done (Returns tt) w1
     | Done (Returns false) w1 => watch_loop E fuel period w1
     | Done (Raises e) w1 => Done (Raises e) w1
     | OutOfFuel => OutOfFuel
     end) /\
  (forall fuel n w' w0 w1 w2,
     debug_print (py "watch_thread started - period " ++ dec_Z period) w'
       = Done (Returns tt) w0 ->
     retries (watch_turn E period) n w0 w1 ->
     watch_turn E period w1 = Done (Returns true) w2 ->
     (n < fuel)%nat ->
     exists w3 w4,
       exit E true false w2 = Done (Returns tt) w3 /\
       watch_thread E fuel period w' = Done (Returns tt) w4 /\
       history w4 = history w3 /\
       calls (history w3) = calls (history w2) ++ exit_calls false (self w2) /\
       existsb is_join (exit_calls false (self w2)) = false).
Proof.
  intros Hs Hc. repeat apply conj.
  - intros Hf. destruct (watch_turn_flag_set E period w Hf) as (w1 & R & _ & H).
    eauto.
  - intros Hf Ho.
    destruct (watch_turn_woken E period w Hf Ho) as (w1 & R & S1 & H).
    exists w1. rewrite S1. auto.
  - intros Hf Ho.
    destruct (watch_turn_ping E period w client c_id _ Hs Hc Hf Ho eq_refl)
      as (w1 & R & H).
    eexists. eexists. exists w1.
    split; [reflexivity|]. split; [exact R|]. split; [|exact H].
    rewrite <- probe_ok_spec.
    destruct (probe_ok _); cbn [negb]; split; congruence.
  - apply watch_turn_total.
  - intros fuel w'. cbn [watch_loop]. unfold bind.
    destruct (watch_turn E period w') as [[[|]|e] w1|]; reflexivity.
  - intros fuel n w' w0 w1 w2 R0 Hr Ht Hn.
    destruct (watch_thread_exit E fuel period n w' w0 w1 w2 R0 Hr Ht Hn)
      as (w3 & w4 & R3 & R4 & _ & H4 & H3 & Hj).
    exists w3, w4. auto.
Qed.

Lemma C6_watchdog_turn_witness :
  (exists w1,
     watch_turn smooth_setting 5 (ready_world None false)
       = Done (Returns false) w1) /\
  (exists w1,
     watch_turn (setting_of ping_unanswered) 5 (ready_world None false)
       = Done (Returns true) w1 /\
     history w1 = history (ready_world None false) ++
       [Ev (EventWait 5) false; Ev LockAcquire tt;
        Ev (ping 8 (Some (py "c1"))) (Returns VNone); Ev LockRelease tt]).
Proof.
  split.
  - destruct (C6_watchdog_turn smooth_setting 5 (ready_world None false) 8
                (Some (py "c1")) eq_refl eq_refl) as (_ & _ & H & _).
    destruct (H eq_refl eq_refl) as (r & stop & w1 & Er & R & Hstop & _).
    exists w1. rewrite R. destruct stop; [|reflexivity].
    assert (Hok : r = Returns (VStr (py "OK"))) by (rewrite Er; reflexivity).
    apply Hstop in Hok. discriminate.
  - destruct (C6_watchdog_turn (setting_of ping_unanswered) 5
                (ready_world None false) 8 (Some (py "c1")) eq_refl eq_refl)
      as (_ & _ & H & _).
    destruct (H eq_refl eq_refl) as (r & stop & w1 & Er & R & Hstop & Hh).
    assert (Hr : r = Returns VNone) by (rewrite Er; reflexivity).
    exists w1. rewrite Hr in Hh. split; [|exact Hh].
    rewrite R. destruct stop; [reflexivity|].
    destruct Hstop as [Hstop _]. rewrite Hr in Hstop.
    specialize (Hstop eq_refl). discriminate.
Defined.

(* ===================================================================== *)
(** ** What the methods leave alone *)
(* ===================================================================== *)

Section Preserves.

Variable E : setting.
Variable R : DS9 -> DS9 -> Prop.
Hypothesis R_refl : forall s, R s s.
Hypothesis R_trans : forall a b c, R a b -> R b c -> R a c.

Lemma preserves_ret {A} (a : A) : preserves R (ret a).
Proof. intros w o w' H. inversion H; subst. apply R_refl. Qed.

Lemma preserves_raise {A} e : preserves R (@raise A e).
Proof. intros w o w' H. inversion H; subst. apply R_refl. Qed.

Lemma preserves_out_of_fuel {A} : preserves R (@out_of_fuel A).
Proof. intros w o w' H. discriminate. Qed.

Lemma preserves_bind {A B} (m : M A) (k : A -> M B) :
  preserves R m -> (forall a, preserves R (k a)) -> preserves R (bind m k).
Proof.
  intros Hm Hk w o w' H. unfold bind in H.
  destruct (m w) as [[a|e] w1|] eqn:Em; try discriminate.
  - eapply R_trans; [eapply Hm; eassumption | eapply Hk; eassumption].
  - inversion H; subst. eapply Hm; eassumption.
Qed.

Lemma preserves_try_except {A} (body : M A) catches handler :
  preserves R body -> (forall e, preserves R (handler e)) ->
  preserves R (try_except body catches handler).
Proof.
  intros Hb Hh w o w' H. unfold try_except in H.
  destruct (body w) as [[a|e] w1|] eqn:Eb; try discriminate.
  - inversion H; subst. eapply Hb; eassumption.
  - destruct (catches e).
    + eapply R_trans; [eapply Hb; eassumption | eapply Hh; eassumption].
    + inversion H; subst. eapply Hb; eassumption.
Qed.

Lemma preserves_try_pass body : preserves R body -> preserves R (try_pass body).
Proof.
  intros Hb. apply preserves_try_except; [exact Hb|].
  intros e. apply preserves_ret.
Qed.

Lemma preserves_finally {A} (body : M A) fin :
  preserves R body -> preserves R fin -> preserves R (finally body fin).
Proof.
  intros Hb Hf w o w' H. unfold finally in H.
  destruct (body w) as [o1 w1|] eqn:Eb; try discriminate.
  destruct (fin w1) as [[[]|e] w2|] eqn:Ef; try discriminate;
    inversion H; subst;
    (eapply R_trans; [eapply Hb; eassumption | eapply Hf; eassumption]).
Qed.

Lemma preserves_read_self : preserves R read_self.
Proof. intros w o w' H. inversion H; subst. apply R_refl. Qed.

Lemma preserves_read_environ : preserves R read_environ.
Proof. intros w o w' H. inversion H; subst. apply R_refl. Qed.

Lemma preserves_print s : preserves R (print s).
Proof. intros w o w' H. inversion H; subst. apply R_refl. Qed.

Lemma preserves_putenv k v : preserves R (putenv k v).
Proof. intros w o w' H. inversion H; subst. apply R_refl. Qed.

Lemma preserves_debug_print s : preserves R (debug_print s).
Proof.
  apply preserves_bind; [apply preserves_read_self|].
  intros me. destruct (debug me); [apply preserves_print | apply preserves_ret].
Qed.

Lemma preserves_getattr {A} (field : DS9 -> option A) name :
  preserves R (getattr field name).
Proof.
  apply preserves_bind; [apply preserves_read_self|].
  intros me. destruct (field me); [apply preserves_ret | apply preserves_raise].
Qed.

Lemma preserves_getitem {V} (d : list (list N * V)) k : preserves R (getitem d k).
Proof.
  unfold getitem. destruct (dict_get d k);
    [apply preserves_ret | apply preserves_raise].
Qed.

Lemma preserves_modify_self f :
  (forall s, R s (f s)) -> preserves R (modify_self f).
Proof. intros Hf w o w' H. inversion H; subst. apply Hf. Qed.

Lemma preserves_ask {A} (c : call A) : preserves R (ask E c).
Proof. intros w o w' H. inversion H; subst. apply R_refl. Qed.

Lemma preserves_invoke {A} (c : call (outcome A)) : preserves R (invoke E c).
Proof.
  apply preserves_bind; [apply preserves_ask|].
  intros [a|e]; [apply preserves_ret | apply preserves_raise].
Qed.

Lemma preserves_with_lock {A} (body : M A) :
  preserves R body -> preserves R (with_lock E body).
Proof.
  intros Hb. apply preserves_bind; [apply preserves_ask|].
  intros _. apply preserves_finally; [exact Hb | apply preserves_ask].
Qed.

Lemma preserves_for_each {A} (l : list A) body :
  (forall x, preserves R (body x)) -> preserves R (for_each l body).
Proof.
  intros Hb. induction l as [|x l IH]; cbn [for_each].
  - apply preserves_ret.
  - apply preserves_bind; [apply Hb | intros _; exact IH].
Qed.

Lemma preserves_set cmds timeout : preserves R (set E cmds timeout).
Proof.
  apply preserves_with_lock, preserves_for_each. intros cmd.
  apply preserves_bind; [apply preserves_getattr | intros client].
  apply preserves_bind; [apply preserves_getattr | intros c_id].
  apply preserves_bind; [apply preserves_invoke | intros _].
  apply preserves_ret.
Qed.

Lemma preserves_get cmd timeout : preserves R (get E cmd timeout).
Proof.
  apply preserves_with_lock.
  apply preserves_bind; [apply preserves_getattr | intros client].
  apply preserves_bind; [apply preserves_getattr | intros c_id].
  apply preserves_invoke.
Qed.

Lemma preserves_alive : preserves R (alive E).
Proof.
  apply preserves_try_except; [|intros e; apply preserves_ret].
  apply preserves_with_lock.
  apply preserves_bind; [apply preserves_getattr | intros client].
  apply preserves_bind; [apply preserves_getattr | intros c_id].
  apply preserves_bind; [apply preserves_invoke | intros r].
  apply preserves_ret.
Qed.

Lemma preserves_scan_clients title ids : preserves R (scan_clients E title ids).
Proof.
  induction ids as [|c_id rest IH]; cbn [scan_clients].
  - apply preserves_ret.
  - apply preserves_bind; [apply preserves_getattr | intros client].
    apply preserves_bind; [apply preserves_invoke | intros c_meta].
    apply preserves_bind; [apply preserves_read_self | intros me].
    apply preserves_bind.
    + destruct (debug me); [|apply preserves_ret].
      apply preserves_bind; [apply preserves_getitem | intros name].
      apply preserves_print.
    + intros _.
      apply preserves_bind; [apply preserves_getitem | intros name].
      destruct (value_eq_str name title); [apply preserves_ret | exact IH].
Qed.

Lemma preserves_get_samp_clientId title :
  preserves R (get_samp_clientId E title).
Proof.
  apply preserves_bind; [apply preserves_getattr | intros client].
  apply preserves_bind; [apply preserves_invoke | intros clients].
  apply preserves_scan_clients.
Qed.

Lemma preserves_hub_turn tstart timeout retry :
  preserves R (hub_turn E tstart timeout retry).
Proof.
  apply preserves_bind; [apply preserves_debug_print | intros _].
  apply preserves_try_except.
  - apply preserves_bind; [apply preserves_getattr | intros client].
    apply preserves_bind; [apply preserves_invoke | intros _].
    apply preserves_bind; [apply preserves_debug_print | intros _].
    apply preserves_ret.
  - intros e.
    apply preserves_bind; [apply preserves_ask | intros now].
    apply preserves_bind.
    + destruct (now - tstart >? timeout)%Z;
        [apply preserves_raise | apply preserves_ret].
    + intros _. apply preserves_bind; [apply preserves_invoke | intros _].
      apply preserves_ret.
Qed.

Lemma preserves_wait_for_hub fuel tstart timeout retry :
  preserves R (wait_for_hub E fuel tstart timeout retry).
Proof.
  induction fuel as [|fuel IH]; cbn [wait_for_hub].
  - apply preserves_out_of_fuel.
  - apply preserves_bind; [apply preserves_hub_turn | intros found].
    destruct found; [apply preserves_ret | exact IH].
Qed.

(** The discovery loop assigns [samp_clientId]. *)
Section Discovery.

Hypothesis R_clientId : forall i s, R s (set_samp_clientId i s).

Lemma preserves_ds9_turn title tstart timeout retry :
  preserves R (ds9_turn E title tstart timeout retry).
Proof.
  apply preserves_bind; [apply preserves_debug_print | intros _].
  apply preserves_bind; [apply preserves_get_samp_clientId | intros c_id].
  apply preserves_bind; [apply preserves_modify_self, R_clientId | intros _].
  destruct (truthy c_id).
  - apply preserves_bind; [apply preserves_debug_print | intros _].
    apply preserves_ret.
  - apply preserves_bind; [apply preserves_ask | intros now].
    apply preserves_bind.
    + destruct (now - tstart >? timeout)%Z;
        [apply preserves_raise | apply preserves_ret].
    + intros _. apply preserves_bind; [apply preserves_invoke | intros _].
      apply preserves_ret.
Qed.

Lemma preserves_wait_for_ds9 fuel title tstart timeout retry :
  preserves R (wait_for_ds9 E fuel title tstart timeout retry).
Proof.
  induction fuel as [|fuel IH]; cbn [wait_for_ds9].
  - apply preserves_out_of_fuel.
  - apply preserves_bind; [apply preserves_ds9_turn | intros found].
    destruct found; [apply preserves_ret | exact IH].
Qed.

End Discovery.

(** Methods which may raise the exit flag. *)
Hypothesis R_evtexit : forall s, R s (set_evtexit s).

Lemma preserves_evtexit_wait period : preserves R (evtexit_wait E period).
Proof.
  apply preserves_bind; [apply preserves_read_self | intros me].
  destruct (evtexit me); [apply preserves_ret|].
  apply preserves_bind; [apply preserves_ask | intros b].
  apply preserves_bind; [|intros _; apply preserves_ret].
  destruct b; [apply preserves_modify_self, R_evtexit | apply preserves_ret].
Qed.

Lemma preserves_exit use_callback main_thread :
  preserves R (exit E use_callback main_thread).
Proof.
  unfold exit.
  apply preserves_bind; [apply preserves_debug_print | intros _].
  apply preserves_bind;
    [apply preserves_try_pass, preserves_modify_self, R_evtexit | intros _].
  apply preserves_bind.
  { destruct main_thread; [|apply preserves_ret].
    apply preserves_bind; [apply preserves_debug_print | intros _].
    apply preserves_try_pass.
    apply preserves_bind; [apply preserves_getattr | intros t].
    apply preserves_invoke. }
  intros _.
  apply preserves_bind; [apply preserves_debug_print | intros _].
  apply preserves_bind; [apply preserves_try_pass, preserves_set | intros _].
  apply preserves_bind; [apply preserves_debug_print | intros _].
  apply preserves_bind.
  { apply preserves_try_pass.
    apply preserves_bind; [apply preserves_getattr | intros p].
    apply preserves_invoke. }
  intros _.
  apply preserves_bind; [apply preserves_debug_print | intros _].
  apply preserves_bind.
  { apply preserves_try_pass.
    apply preserves_bind; [apply preserves_getattr | intros f].
    apply preserves_invoke. }
  intros _.
  apply preserves_bind; [apply preserves_read_self | intros me].
  apply preserves_bind.
  { destruct (exit_callback me); [|apply preserves_ret].
    apply preserves_bind; [apply preserves_debug_print | intros _].
    apply preserves_try_pass, preserves_invoke. }
  intros _.
  apply preserves_bind; [apply preserves_read_self | intros me'].
  destruct (kill_on_exit me'); [|apply preserves_ret].
  apply preserves_bind; [apply preserves_debug_print | intros _].
  apply preserves_try_pass, preserves_invoke.
Qed.

Lemma preserves_del : preserves R (del E).
Proof.
  apply preserves_bind; [apply preserves_debug_print | intros _].
  apply preserves_exit.
Qed.

Lemma preserves_watch_turn period : preserves R (watch_turn E period).
Proof.
  apply preserves_bind; [apply preserves_debug_print | intros _].
  apply preserves_bind; [apply preserves_evtexit_wait | intros stop].
  destruct stop.
  - apply preserves_bind; [apply preserves_debug_print | intros _].
    apply preserves_ret.
  - apply preserves_bind; [apply preserves_alive | intros ok].
    destruct (negb ok); [|apply preserves_ret].
    apply preserves_bind; [apply preserves_debug_print | intros _].
    apply preserves_ret.
Qed.

Lemma preserves_watch_loop fuel period : preserves R (watch_loop E fuel period).
Proof.
  induction fuel as [|fuel IH]; cbn [watch_loop].
  - apply preserves_out_of_fuel.
  - apply preserves_bind; [apply preserves_watch_turn | intros stop].
    destruct stop; [apply preserves_ret | exact IH].
Qed.

Lemma preserves_watch_thread fuel period :
  preserves R (watch_thread E fuel period).
Proof.
  apply preserves_bind; [apply preserves_debug_print | intros _].
  apply preserves_bind; [apply preserves_watch_loop | intros _].
  apply preserves_bind; [apply preserves_exit | intros _].
  apply preserves_debug_print.
Qed.

End Preserves.

Lemma same_attrs_refl s : same_attrs s s.
Proof. unfold same_attrs. repeat split. Qed.

Lemma same_attrs_trans a b c : same_attrs a b -> same_attrs b c -> same_attrs a c.
Proof. unfold same_attrs. intuition congruence. Qed.

Lemma same_attrs_evtexit s : same_attrs s (set_evtexit s).
Proof. unfold same_attrs. repeat split. Qed.

Lemma same_but_clientId_refl s : same_but_clientId s s.
Proof. unfold same_but_clientId. repeat split. Qed.

Lemma same_but_clientId_trans a b c :
  same_but_clientId a b -> same_but_clientId b c -> same_but_clientId a c.
Proof. unfold same_but_clientId. intuition congruence. Qed.

Lemma same_but_clientId_set i s : same_but_clientId s (set_samp_clientId i s).
Proof. unfold same_but_clientId. repeat split. Qed.

(* ===================================================================== *)
(** ** The handshake *)
(* ===================================================================== *)

(** Closes a goal that names the world a turn ends in. *)
Ltac finish_turn :=
  eexists; split; [|split; [reflexivity|]];
  [ reflexivity
  | cbn [history log self with_self]; rewrite <- ?app_assoc; reflexivity ].

Section Handshake.

Variable E : setting.
Variables (tstart timeout init_retry_time : Z).

(** One turn of the hub loop, by the answers of the collaborators. *)
Lemma hub_turn_cases w client :
  samp (self w) = Some client ->
  exists w1,
    self w1 = self w /\
    match oracle E _ (history w) (Connect client) with
    | Returns _ =>
        hub_turn E tstart timeout init_retry_time w = Done (Returns true) w1 /\
        history w1 = history w ++ [Ev (Connect client) (Returns tt)]
    | Raises e =>
        let h1 := history w ++ [Ev (Connect client) (Raises e)] in
        let now := oracle E Z h1 TimeTime in
        if is_SAMPHubError e then
          if (now - tstart >? timeout)%Z then
            hub_turn E tstart timeout init_retry_time w
              = Done (Raises (hub_not_found timeout)) w1 /\
            history w1 = h1 ++ [Ev TimeTime now]
          else
            match oracle E _ (h1 ++ [Ev TimeTime now]) (Sleep init_retry_time) with
            | Returns _ =>
                hub_turn E tstart timeout init_retry_time w
                  = Done (Returns false) w1 /\
                history w1 = h1 ++ [Ev TimeTime now;
                                    Ev (Sleep init_retry_time) (Returns tt)]
            | Raises e' =>
                hub_turn E tstart timeout init_retry_time w
                  = Done (Raises e') w1 /\
                history w1 = h1 ++ [Ev TimeTime now;
                                    Ev (Sleep init_retry_time) (Raises e')]
            end
        else
          hub_turn E tstart timeout init_retry_time w = Done (Raises e) w1 /\
          history w1 = h1
    end.
Proof.
  intros Hs.
  unfold hub_turn, try_except, debug_print, print, getattr, invoke, bind, ask,
    read_self, ret, raise, hub_not_found.
  destruct (debug (self w)) eqn:Hd; run;
    (destruct (oracle E (outcome unit) (history w) (Connect client))
       as [[]|e] eqn:Hc; run; [finish_turn|]);
    (destruct (is_SAMPHubError e) eqn:He; run; [|finish_turn]);
    (destruct (oracle E Z (history w ++ [Ev (Connect client) (Raises e)])
                 TimeTime - tstart >? timeout)%Z eqn:Ht; run; [finish_turn|]);
    match goal with
    | |- context [oracle E (outcome unit) ?h (Sleep init_retry_time)] =>
        destruct (oracle E (outcome unit) h (Sleep init_retry_time)) as [[]|e']
    end; finish_turn.
Qed.


Lemma wait_for_hub_step fuel w :
  wait_for_hub E (S fuel) tstart timeout init_retry_time w =
  match hub_turn E tstart timeout init_retry_time w with
  | Done (Returns true) w1 => Done (Returns tt) w1
  | Done (Returns false) w1 => wait_for_hub E fuel tstart timeout init_retry_time w1
  | Done (Raises e) w1 => Done (Raises e) w1
  | OutOfFuel => OutOfFuel
  end.
Proof.
  cbn [wait_for_hub]. unfold bind.
  destruct (hub_turn E tstart timeout init_retry_time w) as [[[|]|e] w1|];
    reflexivity.
Qed.



(* --------------------------------------------------------------------- *)
(** *** Peer discovery *)

Variable title : list N.

(** With a hub that answers every metadata query for the listed clients,
    the scan returns the first of them whose name is [title]. *)
Lemma scan_clients_find (name_of : list N -> value) client ids : forall w,
  samp (self w) = Some client ->
  (forall h c_id, In c_id ids ->
     exists meta, oracle E _ h (GetMetadata client c_id) = Returns meta /\
                  dict_get meta (py "samp.name") = Some (name_of c_id)) ->
  exists w1,
    scan_clients E title ids w =
      Done (Returns (find (fun c_id => value_eq_str (name_of c_id) title) ids)) w1 /\
    self w1 = self w.
Proof.
  induction ids as [|c_id ids IH]; intros w Hs Hm.
  - eexists; split; reflexivity.
  - destruct (Hm (history w) c_id (or_introl eq_refl)) as (meta & Ho & Hd).
    assert (Hrest : forall h c, In c ids ->
      exists meta, oracle E _ h (GetMetadata client c) = Returns meta /\
                   dict_get meta (py "samp.name") = Some (name_of c))
      by (intros h c Hc; apply Hm; right; exact Hc).
    cbn [scan_clients find].
    unfold getattr, invoke, getitem, bind, ask, read_self, ret, raise, print.
    destruct (debug (self w)) eqn:Hdb; run;
      (destruct (value_eq_str (name_of c_id) title) eqn:Hv; run;
       [ eexists; split; reflexivity
       | match goal with
         | |- context [scan_clients E title ids ?W] =>
             destruct (IH W Hs Hrest) as (w1 & R & S1);
             exists w1; split; [exact R | exact S1]
         end ]).
Qed.

Lemma get_samp_clientId_find (name_of : list N -> value) client clients w :
  samp (self w) = Some client ->
  oracle E _ (history w) (GetSubscribedClients client (py "ds9.set"))
    = Returns clients ->
  (forall h c_id, In c_id (map fst clients) ->
     exists meta, oracle E _ h (GetMetadata client c_id) = Returns meta /\
                  dict_get meta (py "samp.name") = Some (name_of c_id)) ->
  exists w1,
    get_samp_clientId E title w =
      Done (Returns (find (fun c_id => value_eq_str (name_of c_id) title)
                          (map fst clients))) w1 /\
    self w1 = self w.
Proof.
  intros Hs Ho Hm. unfold get_samp_clientId, getattr, invoke, bind at 1,
    bind at 1, bind at 1, bind at 1, ask, read_self, ret.
  rewrite Hs. cbv beta iota. rewrite Ho. cbv beta iota.
  apply (scan_clients_find name_of client (map fst clients)
           (log (Ev (GetSubscribedClients client (py "ds9.set")) (Returns clients)) w)
           Hs Hm).
Qed.

(** One turn of the discovery loop, by the result of the pass. *)
Lemma ds9_turn_cases w :
  exists w0,
    debug_print (py "looking for ds9") w = Done (Returns tt) w0 /\
    self w0 = self w /\ history w0 = history w /\
    (get_samp_clientId E title w0 = OutOfFuel ->
       ds9_turn E title tstart timeout init_retry_time w = OutOfFuel) /\
    (forall e w1, get_samp_clientId E title w0 = Done (Raises e) w1 ->
       ds9_turn E title tstart timeout init_retry_time w = Done (Raises e) w1) /\
    (forall r w1, get_samp_clientId E title w0 = Done (Returns r) w1 ->
       exists w2,
         self w2 = set_samp_clientId r (self w1) /\
         if truthy r then
           ds9_turn E title tstart timeout init_retry_time w
             = Done (Returns true) w2 /\
           history w2 = history w1
         else
           let now := oracle E Z (history w1) TimeTime in
           if (now - tstart >? timeout)%Z then
             ds9_turn E title tstart timeout init_retry_time w
               = Done (Raises (ds9_not_found timeout)) w2 /\
             history w2 = history w1 ++ [Ev TimeTime now]
           else
             match oracle E _ (history w1 ++ [Ev TimeTime now])
                     (Sleep init_retry_time) with
             | Returns _ =>
                 ds9_turn E title tstart timeout init_retry_time w
                   = Done (Returns false) w2 /\
                 history w2 = history w1 ++
                   [Ev TimeTime now; Ev (Sleep init_retry_time) (Returns tt)]
             | Raises e =>
                 ds9_turn E title tstart timeout init_retry_time w
                   = Done (Raises e) w2 /\
                 history w2 = history w1 ++
                   [Ev TimeTime now; Ev (Sleep init_retry_time) (Raises e)]
             end).
Proof.
  destruct (debug_print_eq (py "looking for ds9") w) as (w0 & R0 & S0 & H0).
  exists w0. repeat split; auto.
  - intros Hp. unfold ds9_turn, bind. rewrite R0, Hp. reflexivity.
  - intros e w1 Hp. unfold ds9_turn, bind. rewrite R0, Hp. reflexivity.
  - intros r w1 Hp.
    assert (Hturn : ds9_turn E title tstart timeout init_retry_time w =
      (if truthy r then debug_print (py "found ds9") ;; ret true
       else
         now <- ask E TimeTime ;;
         (if (now - tstart >? timeout)%Z then raise (ds9_not_found timeout)
          else ret tt) ;;
         invoke E (Sleep init_retry_time) ;;
         ret false) (with_self (set_samp_clientId r) w1)).
    { unfold ds9_turn. unfold bind at 1. rewrite R0.
      unfold bind at 1. rewrite Hp. reflexivity. }
    rewrite Hturn. clear Hturn.
    unfold debug_print, print, modify_self, invoke, bind, ask, read_self, ret,
      raise, ds9_not_found.
    destruct (truthy r); run.
    + destruct (debug (self w1)); finish_turn.
    + destruct (oracle E Z (history w1) TimeTime - tstart >? timeout)%Z; run.
      * finish_turn.
      * match goal with
        | |- context [oracle E (outcome unit) ?h (Sleep init_retry_time)] =>
            destruct (oracle E (outcome unit) h (Sleep init_retry_time))
              as [[]|e']
        end; finish_turn.
Qed.

Lemma wait_for_ds9_step fuel w :
  wait_for_ds9 E (S fuel) title tstart timeout init_retry_time w =
  match ds9_turn E title tstart timeout init_retry_time w with
  | Done (Returns true) w1 => Done (Returns tt) w1
  | Done (Returns false) w1 =>
      wait_for_ds9 E fuel title tstart timeout init_retry_time w1
  | Done (Raises e) w1 => Done (Raises e) w1
  | OutOfFuel => OutOfFuel
  end.
Proof.
  cbn [wait_for_ds9]. unfold bind.
  destruct (ds9_turn E title tstart timeout init_retry_time w)
    as [[[|]|e] w1|]; reflexivity.
Qed.


(** A turn that ends the loop has stored a client id which is not empty. *)
Lemma ds9_turn_found w w2 :
  ds9_turn E title tstart timeout init_retry_time w = Done (Returns true) w2 ->
  exists c_id w0 w1,
    self w0 = self w /\ history w0 = history w /\
    get_samp_clientId E title w0 = Done (Returns (Some c_id)) w1 /\
    c_id <> [] /\
    self w2 = set_samp_clientId (Some c_id) (self w1) /\
    history w2 = history w1.
Proof.
  intros Ht.
  destruct (ds9_turn_cases w) as (w0 & _ & S0 & H0 & Hf & He & Hr).
  destruct (get_samp_clientId E title w0) as [[r|e] w1|] eqn:Hp.
  - destruct (Hr r w1 eq_refl) as (w2' & S2 & Hc).
    destruct r as [[|c cs]|]; cbn [truthy] in Hc; cbv zeta in Hc.
    + destruct (_ >? _)%Z in Hc; [destruct Hc; congruence|].
      match type of Hc with
      | match ?o with _ => _ end => destruct o as [[]|e']
      end; destruct Hc; congruence.
    + destruct Hc as [Hc Hh]. rewrite Ht in Hc. injection Hc as <-.
      exists (c :: cs), w0, w1. repeat split; auto. discriminate.
    + destruct (_ >? _)%Z in Hc; [destruct Hc; congruence|].
      match type of Hc with
      | match ?o with _ => _ end => destruct o as [[]|e']
      end; destruct Hc; congruence.
  - rewrite (He e w1 eq_refl) in Ht. discriminate.
  - rewrite (Hf eq_refl) in Ht. discriminate.
Qed.

(** A turn asks for another one only when the pass found no usable id,
    within the deadline, and after the sleep. *)
Lemma ds9_turn_retry_only w w2 :
  ds9_turn E title tstart timeout init_retry_time w = Done (Returns false) w2 ->
  exists r w0 w1 now,
    self w0 = self w /\ history w0 = history w /\
    get_samp_clientId E title w0 = Done (Returns r) w1 /\
    truthy r = false /\
    (now - tstart <= timeout)%Z /\
    history w2 = history w1 ++
      [Ev TimeTime now; Ev (Sleep init_retry_time) (Returns tt)].
Proof.
  intros Ht.
  destruct (ds9_turn_cases w) as (w0 & _ & S0 & H0 & Hf & He & Hr).
  destruct (get_samp_clientId E title w0) as [[r|e] w1|] eqn:Hp.
  - destruct (Hr r w1 eq_refl) as (w2' & S2 & Hc).
    destruct (truthy r) eqn:Htr; [destruct Hc; congruence|].
    cbv zeta in Hc.
    destruct (_ >? _)%Z eqn:Hd in Hc; [destruct Hc; congruence|].
    match type of Hc with
    | match ?o with _ => _ end => destruct o as [[]|e']
    end; destruct Hc as [Hc Hh]; [|congruence].
    rewrite Ht in Hc. injection Hc as <-.
    exists r, w0, w1. eexists. repeat split; eauto.
    rewrite Z.gtb_ltb in Hd. apply Z.ltb_ge in Hd. exact Hd.
  - rewrite (He e w1 eq_refl) in Ht. discriminate.
  - rewrite (Hf eq_refl) in Ht. discriminate.
Qed.

End Handshake.

(* ===================================================================== *)
(** ** Construction *)
(* ===================================================================== *)

Section Construction.

Variable E : setting.
Variables (fuel : nat) (title : list N) (timeout : Z).
Variables (cb : option N) (kill : bool) (ds9args : list N).
Variables (poll_alive_time init_retry_time : Z) (dbg : bool).

Lemma init_attrs_eq w :
  exists wa,
    init_attrs E cb kill dbg w = Done (Returns tt) wa /\
    self wa = mk_DS9 dbg cb kill false (oracle E N (history w) Getpid)
                None None None None None /\
    history wa = history w ++
      [Ev Getpid (oracle E N (history w) Getpid);
       Ev (AtexitRegister false true) tt].
Proof.
  unfold init_attrs, modify_self, bind, ask. cbn [history self log with_self].
  rewrite unit_answer. eexists. split; [reflexivity|].
  cbn [history self log with_self]. rewrite <- app_assoc. auto.
Qed.

(** An [Exception] out of the [try] block: teardown, then the same
    exception. *)
Lemma init_raises w wa e w1 :
  init_attrs E cb kill dbg w = Done (Returns tt) wa ->
  init_try E fuel title timeout ds9args poll_alive_time init_retry_time wa
    = Done (Raises e) w1 ->
  is_Exception e = true ->
  exists w2,
    exit E true true w1 = Done (Returns tt) w2 /\
    init E fuel title timeout cb kill ds9args poll_alive_time init_retry_time
      dbg w = Done (Raises e) w2 /\
    self w2 = set_evtexit (self w1) /\
    calls (history w2) = calls (history w1) ++ exit_calls true (self w1).
Proof.
  intros Ha Ht He.
  destruct (exit_runs E true true w1 (self w1) eq_refl) as (w2 & R & S2 & H2).
  exists w2. repeat split; auto.
  unfold init, bind at 1. rewrite Ha. unfold try_except. rewrite Ht, He.
  unfold bind. rewrite R. reflexivity.
Qed.

(** An exception which is not an [Exception] leaves the constructor as it
    is, without the teardown. *)
Lemma init_raises_uncaught w wa e w1 :
  init_attrs E cb kill dbg w = Done (Returns tt) wa ->
  init_try E fuel title timeout ds9args poll_alive_time init_retry_time wa
    = Done (Raises e) w1 ->
  is_Exception e = false ->
  init E fuel title timeout cb kill ds9args poll_alive_time init_retry_time
    dbg w = Done (Raises e) w1.
Proof.
  intros Ha Ht He.
  unfold init, bind at 1. rewrite Ha. unfold try_except. rewrite Ht, He.
  reflexivity.
Qed.

Lemma init_returns w wa w1 :
  init_attrs E cb kill dbg w = Done (Returns tt) wa ->
  init E fuel title timeout cb kill ds9args poll_alive_time init_retry_time
    dbg w = Done (Returns tt) w1 ->
  init_try E fuel title timeout ds9args poll_alive_time init_retry_time wa
    = Done (Returns tt) w1.
Proof.
  intros Ha Hi. unfold init, bind at 1 in Hi. rewrite Ha in Hi.
  unfold try_except in Hi.
  destruct (init_try E fuel title timeout ds9args poll_alive_time
              init_retry_time wa) as [[[]|e] w'|] eqn:Ht; try discriminate.
  - exact Hi.
  - destruct (is_Exception e); [|discriminate].
    destruct (exit_runs E true true w' (self w') eq_refl) as (w2 & R & _).
    unfold bind in Hi. rewrite R in Hi. discriminate.
Qed.



(** *** What a constructor that returns has built *)

Lemma init_spawn_post w :
  match init_spawn E title ds9args w with
  | Done (Returns _) w1 =>
      hub_file (self w1) <> None /\ process (self w1) <> None /\
      samp (self w1) <> None
  | _ => True
  end.
Proof.
  unfold init_spawn, debug_print, print, putenv, read_environ, modify_self,
    getitem, invoke, bind, ask, read_self, ret, raise.
  repeat (cbn -[py dec_Z samp_hub_file ds9_command dict_set dict_get];
          match goal with
          | |- context [oracle E (outcome ?A) ?h ?c] =>
              destruct (oracle E (outcome A) h c)
          | |- context [debug (self w)] => destruct (debug (self w))
          | |- context [dict_get ?d ?k] => destruct (dict_get d k)
          end);
    cbn -[py dec_Z samp_hub_file ds9_command dict_set dict_get];
    try exact I; repeat split; discriminate.
Qed.

Lemma init_spawn_attrs w tstart w1 :
  init_spawn E title ds9args w = Done (Returns tstart) w1 ->
  hub_file (self w1) <> None /\ process (self w1) <> None /\
  samp (self w1) <> None.
Proof. intros H. pose proof (init_spawn_post w) as P. now rewrite H in P. Qed.

Lemma wait_for_ds9_found n tstart : forall w w1,
  wait_for_ds9 E n title tstart timeout init_retry_time w = Done (Returns tt) w1 ->
  same_but_clientId (self w) (self w1) /\
  exists c_id, samp_clientId (self w1) = Some (Some c_id) /\ c_id <> [].
Proof.
  intros w w1 H. split.
  - eapply (preserves_wait_for_ds9 E same_but_clientId); eauto.
    + apply same_but_clientId_refl.
    + apply same_but_clientId_trans.
    + apply same_but_clientId_set.
  - revert w H. induction n as [|n IH]; intros w H; [discriminate|].
    rewrite wait_for_ds9_step in H.
    destruct (ds9_turn E title tstart timeout init_retry_time w)
      as [[[|]|e] w2|] eqn:Ht; try discriminate.
    + injection H as <-.
      destruct (ds9_turn_found E tstart timeout init_retry_time title w w2 Ht)
        as (c_id & w0 & w1' & _ & _ & _ & Hne & S2 & _).
      exists c_id. rewrite S2. auto.
    + eapply IH; eauto.
Qed.

Lemma start_watcher_post w :
  match start_watcher E poll_alive_time w with
  | Done (Returns _) w1 =>
      hub_file (self w1) = hub_file (self w) /\
      process (self w1) = process (self w) /\
      samp (self w1) = samp (self w) /\
      samp_clientId (self w1) = samp_clientId (self w) /\
      ((0 < poll_alive_time)%Z -> watcher (self w1) <> None)
  | _ => True
  end.
Proof.
  unfold start_watcher, modify_self, invoke, bind, ask, ret, raise.
  destruct (0 <? poll_alive_time)%Z eqn:Hp; cbn.
  - match goal with
    | |- context [oracle E (outcome unit) ?h ?c] =>
        destruct (oracle E (outcome unit) h c)
    end; cbn; [|exact I]. repeat split. discriminate.
  - repeat split. intros H. apply Z.ltb_ge in Hp. lia.
Qed.

(** A [try] block that runs to its end leaves every attribute assigned. *)
Lemma init_try_constructed wa w1 :
  init_try E fuel title timeout ds9args poll_alive_time init_retry_time wa
    = Done (Returns tt) w1 ->
  constructed poll_alive_time (self w1).
Proof.
  intros H. unfold init_try, bind in H.
  destruct (init_spawn E title ds9args wa) as [[tstart|e] ws|] eqn:Hs;
    try discriminate.
  destruct (wait_for_hub E fuel tstart timeout init_retry_time ws)
    as [[[]|e] wh|] eqn:Hh; try discriminate.
  destruct (wait_for_ds9 E fuel title tstart timeout init_retry_time wh)
    as [[[]|e] wd|] eqn:Hd; try discriminate.
  destruct (init_spawn_attrs wa tstart ws Hs) as (A1 & A2 & A3).
  assert (Sh : self ws = self wh).
  { eapply (preserves_wait_for_hub E eq); eauto.
    intros a b c -> ->. reflexivity. }
  destruct (wait_for_ds9_found fuel tstart wh wd Hd)
    as ((_ & _ & _ & _ & _ & B1 & B2 & B3 & _) & c_id & C1 & C2).
  pose proof (start_watcher_post wd) as P. rewrite H in P.
  destruct P as (P1 & P2 & P3 & P4 & P5).
  unfold constructed. rewrite P1, P2, P3, P4, B1, B2, B3, <- Sh.
  repeat split; auto. exists c_id. auto.
Qed.

End Construction.

(* ===================================================================== *)
(** ** Discovery of ds9 on the hub *)
(* ===================================================================== *)

Section Scan.

Variable E : setting.
Variable title : list N.
Variable client : N.
Variable name_of : list N -> value.

Let matches : list N -> bool := named_title title name_of.

Let named (c_id : list N) : Prop :=
  metadata_name E client c_id (Some (name_of c_id)).

(** The scan asks for the metadata of the listed clients one by one and
    stops at the first whose name is [title]. *)
Lemma scan_clients_calls ids : forall w,
  samp (self w) = Some client ->
  (forall c_id, In c_id ids -> named c_id) ->
  exists w1,
    scan_clients E title ids w = Done (Returns (find matches ids)) w1 /\
    self w1 = self w /\
    calls (history w1) = calls (history w) ++
      map (fun c_id => Call (GetMetadata client c_id)) (scanned matches ids).
Proof.
  induction ids as [|c_id ids IH]; intros w Hs Hm.
  - exists w. cbn. rewrite app_nil_r. auto.
  - destruct (Hm c_id (or_introl eq_refl) (history w)) as (meta & Ho & Hd).
    assert (Hrest : forall c, In c ids -> named c)
      by (intros c Hc; apply Hm; right; exact Hc).
    cbn [scan_clients find scanned].
    unfold getattr, invoke, getitem, bind, ask, read_self, ret, raise, print.
    destruct (debug (self w)) eqn:Hdb; run;
      (destruct (matches c_id) eqn:Hv; unfold matches, named_title in Hv; run;
       [ eexists; split; [reflexivity|]; split; [reflexivity|];
         cbn [history log]; rewrite calls_app; reflexivity
       | match goal with
         | |- context [scan_clients E title ids ?W] =>
             destruct (IH W Hs Hrest) as (w1 & R & S1 & H1);
             exists w1; split; [exact R|]; split; [exact S1|];
             rewrite H1; cbn [history log]; rewrite calls_app, <- app_assoc;
             reflexivity
         end ]).
Qed.

(** A listed client without a [samp.name], met before any client named
    [title], ends the scan with a [KeyError]. *)
Lemma scan_clients_nameless pre c_id rest : forall w,
  samp (self w) = Some client ->
  (forall c, In c pre -> named c /\ matches c = false) ->
  metadata_name E client c_id None ->
  exists w1,
    scan_clients E title (pre ++ c_id :: rest) w
      = Done (Raises (KeyError (py "samp.name"))) w1 /\
    self w1 = self w.
Proof.
  induction pre as [|c pre IH]; intros w Hs Hp Hn.
  - destruct (Hn (history w)) as (meta & Ho & Hd).
    cbn [app scan_clients].
    unfold getattr, invoke, getitem, bind, ask, read_self, ret, raise, print.
    destruct (debug (self w)) eqn:Hdb; run; eexists; split; reflexivity.
  - destruct (Hp c (or_introl eq_refl)) as (Hc & Hv).
    destruct (Hc (history w)) as (meta & Ho & Hd).
    unfold matches, named_title in Hv.
    assert (Hrest : forall c', In c' pre -> named c' /\ matches c' = false)
      by (intros c' Hc'; apply Hp; right; exact Hc').
    cbn [app scan_clients].
    unfold getattr, invoke, getitem, bind, ask, read_self, ret, raise, print.
    destruct (debug (self w)) eqn:Hdb; run;
      match goal with
      | |- context [scan_clients E title _ ?W] =>
          destruct (IH W Hs Hrest Hn) as (w1 & R & S1);
          exists w1; split; [exact R | exact S1]
      end.
Qed.

End Scan.

Lemma find_scanned {A} (p : A -> bool) (l : list A) x :
  find p l = Some x ->
  exists pre post,
    l = pre ++ x :: post /\ p x = true /\
    (forall y, In y pre -> p y = false).
Proof.
  induction l as [|a l IH]; cbn [find]; [discriminate|].
  destruct (p a) eqn:Ea.
  - intros H. injection H as <-. exists [], l. repeat split; auto.
    intros y [].
  - intros H. destruct (IH H) as (pre & post & -> & Hx & Hp).
    exists (a :: pre), post. repeat split; auto.
    intros y [<-|Hy]; auto.
Qed.

Lemma scanned_split p pre x post :
  p x = true -> (forall y, In y pre -> p y = false) ->
  scanned p (pre ++ x :: post) = pre ++ [x].
Proof.
  intros Hx. induction pre as [|a pre IH]; intros Hp; cbn [app scanned].
  - now rewrite Hx.
  - rewrite (Hp a (or_introl eq_refl)), IH; auto.
    intros y Hy. apply Hp. now right.
Qed.

Lemma named_title_true title name_of c_id :
  named_title title name_of c_id = true <-> name_of c_id = VStr title.
Proof. apply value_eq_str_spec. Qed.

Lemma named_title_false title name_of c_id :
  named_title title name_of c_id = false <-> name_of c_id <> VStr title.
Proof.
  rewrite <- named_title_true.
  destruct (named_title title name_of c_id); split; congruence.
Qed.

(** Lines 132-138: with a hub that lists [clients] and tells the name of
    each, a discovery pass returns the first listed client whose
    [samp.name] is exactly [title], having asked for the metadata of the
    clients up to that one and of no later one; it returns [None] when no
    listed client has that name.  The object is left as it is. *)
Theorem discovery_first_match (E : setting) (title : list N) (w : world)
    (client : N) (clients : list (list N * value))
    (name_of : list N -> value) :
  samp (self w) = Some client ->
  oracle E _ (history w) (GetSubscribedClients client (py "ds9.set"))
    = Returns clients ->
  (forall c_id, In c_id (map fst clients) ->
     metadata_name E client c_id (Some (name_of c_id))) ->
  exists w1,
    get_samp_clientId E title w
      = Done (Returns (find (named_title title name_of) (map fst clients))) w1 /\
    self w1 = self w /\
    calls (history w1) = calls (history w) ++
      Call (GetSubscribedClients client (py "ds9.set")) ::
      map (fun c_id => Call (GetMetadata client c_id))
          (scanned (named_title title name_of) (map fst clients)) /\
    (forall c_id,
       find (named_title title name_of) (map fst clients) = Some c_id ->
       exists pre post,
         map fst clients = pre ++ c_id :: post /\
         name_of c_id = VStr title /\
         (forall c, In c pre -> name_of c <> VStr title) /\
         scanned (named_title title name_of) (map fst clients) = pre ++ [c_id]) /\
    (find (named_title title name_of) (map fst clients) = None ->
     forall c, In c (map fst clients) -> name_of c <> VStr title).
Proof.
  intros Hs Ho Hm.
  destruct (scan_clients_calls E title client name_of (map fst clients)
              (log (Ev (GetSubscribedClients client (py "ds9.set"))
                       (Returns clients)) w) Hs Hm)
    as (w1 & R & S1 & H1).
  exists w1. split; [|split; [exact S1|split; [|split]]].
  - unfold get_samp_clientId, getattr, invoke, bind at 1, bind at 1,
      bind at 1, bind at 1, ask, read_self, ret.
    rewrite Hs. cbv beta iota. rewrite Ho. cbv beta iota. exact R.
  - rewrite H1. cbn [history log]. rewrite calls_app, <- app_assoc.
    reflexivity.
  - intros c_id Hf.
    destruct (find_scanned _ _ _ Hf) as (pre & post & El & Hx & Hp).
    exists pre, post. split; [exact El|].
    split; [now apply named_title_true|]. split.
    + intros c Hc. apply named_title_false. now apply Hp.
    + rewrite El. now apply scanned_split.
  - intros Hf c Hc. apply named_title_false.
    exact (find_none _ _ Hf c Hc).
Qed.

Lemma discovery_first_match_witness :
  exists w1,
    get_samp_clientId smooth_setting (py "ds9SAMP") (ready_world None false)
      = Done (Returns (Some (py "c1"))) w1 /\
    calls (history w1) =
      [Call (GetSubscribedClients 8 (py "ds9.set"));
       Call (GetMetadata 8 (py "c0")); Call (GetMetadata 8 (py "c1"))].
Proof.
  destruct (discovery_first_match smooth_setting (py "ds9SAMP")
              (ready_world None false) 8
              [(py "c0", VMap []); (py "c1", VMap [])]
              (fun c_id => if str_eqb c_id (py "c1")
                           then VStr (py "ds9SAMP") else VStr (py "hub")))
    as (w1 & R & _ & H & _).
  - reflexivity.
  - reflexivity.
  - intros c_id Hc h. cbn [smooth_setting setting_of oracle smooth].
    destruct (str_eqb c_id (py "c1")); eexists; split; reflexivity.
  - exists w1. split; [exact R | exact H].
Defined.

(** Lines 85-92, one turn of the discovery loop.  The loop is left with
    success only when the pass returned a client id which is true in
    Python's sense, that is a non-empty string: the id is then the value of
    [__samp_clientId] and neither the clock nor [sleep] is called.  Another
    turn follows only when the pass returned [None] or the empty string,
    the clock showed no more than [timeout] after [tstart], and
    [sleep(init_retry_time)] returned. *)
Theorem discovery_turn_outcomes (E : setting) (title : list N)
    (tstart timeout init_retry_time : Z) (w w2 : world) (found : bool) :
  ds9_turn E title tstart timeout init_retry_time w = Done (Returns found) w2 ->
  exists r w0 w1,
    self w0 = self w /\ history w0 = history w /\
    get_samp_clientId E title w0 = Done (Returns r) w1 /\
    samp_clientId (self w2) = Some r /\
    if found then
      (exists c_id, r = Some c_id /\ c_id <> []) /\
      history w2 = history w1
    else
      (r = None \/ r = Some []) /\
      exists now,
        (now - tstart <= timeout)%Z /\
        history w2 = history w1 ++
          [Ev TimeTime now; Ev (Sleep init_retry_time) (Returns tt)].
Proof.
  intros Ht. destruct found.
  - destruct (ds9_turn_found E tstart timeout init_retry_time title w w2 Ht)
      as (c_id & w0 & w1 & S0 & H0 & R & Hc & S2 & H2).
    exists (Some c_id), w0, w1. rewrite S2. repeat split; eauto.
  - destruct (ds9_turn_cases E tstart timeout init_retry_time title w)
      as (w0 & _ & S0 & H0 & Hf & Hr & Hp).
    destruct (get_samp_clientId E title w0) as [[r|e] w1|] eqn:Eg.
    + destruct (Hp r w1 eq_refl) as (w2' & S2 & Hc).
      destruct (truthy r) eqn:Tr.
      * destruct Hc as [Hc _]. rewrite Hc in Ht. discriminate.
      * cbv zeta in Hc.
        destruct (oracle E Z (history w1) TimeTime - tstart >? timeout)%Z
          eqn:Hd.
        { destruct Hc as [Hc _]. rewrite Hc in Ht. discriminate. }
        destruct (oracle E (outcome unit)
                    (history w1 ++ [Ev TimeTime (oracle E Z (history w1) TimeTime)])
                    (Sleep init_retry_time)) as [[]|e] eqn:Hsl;
          destruct Hc as [Hc Hh]; rewrite Hc in Ht; inversion Ht; subst w2'.
        exists r, w0, w1. rewrite S2. repeat split; auto.
        { destruct r as [[|c r]|]; auto. discriminate. }
        exists (oracle E Z (history w1) TimeTime). split; [|exact Hh].
        rewrite Z.gtb_ltb in Hd. apply Z.ltb_ge in Hd. exact Hd.
    + rewrite (Hr e w1 eq_refl) in Ht. discriminate.
    + rewrite (Hf eq_refl) in Ht. discriminate.
Qed.

Lemma discovery_turn_outcomes_witness :
  exists r w0 w1,
    get_samp_clientId smooth_setting (py "ds9SAMP") w0 = Done (Returns r) w1 /\
    exists c_id, r = Some c_id /\ c_id <> [].
Proof.
  eassert (Ht : ds9_turn smooth_setting (py "ds9SAMP") 100 15 1
                  (ready_world None false) = Done (Returns true) _)
    by (vm_compute; reflexivity).
  destruct (discovery_turn_outcomes _ _ _ _ _ _ _ _ Ht)
    as (r & w0 & w1 & _ & _ & R & _ & Hc & _).
  exists r, w0, w1. split; [exact R | exact Hc].
Defined.



(** Lines 134-136: the name of every listed client is looked up before it
    is compared, with or without [debug].  A listed client whose metadata
    has no [samp.name], coming before any client named [title], makes the
    pass raise [KeyError], also when ds9 is listed after it; the turn and
    the loop raise it in turn, and [__samp_clientId] is not assigned. *)
Theorem discovery_nameless_client (E : setting) (title : list N)
    (tstart timeout init_retry_time : Z) (fuel : nat) (w : world) (client : N)
    (clients : list (list N * value)) (name_of : list N -> value)
    (pre rest : list (list N)) (c_id : list N) :
  samp (self w) = Some client ->
  oracle E _ (history w) (GetSubscribedClients client (py "ds9.set"))
    = Returns clients ->
  map fst clients = pre ++ c_id :: rest ->
  (forall c, In c pre ->
     metadata_name E client c (Some (name_of c)) /\ name_of c <> VStr title) ->
  metadata_name E client c_id None ->
  (exists w1,
     get_samp_clientId E title w = Done (Raises (KeyError (py "samp.name"))) w1 /\
     self w1 = self w) /\
  (exists w1,
     ds9_turn E title tstart timeout init_retry_time w
       = Done (Raises (KeyError (py "samp.name"))) w1 /\
     self w1 = self w) /\
  (exists w1,
     wait_for_ds9 E (S fuel) title tstart timeout init_retry_time w
       = Done (Raises (KeyError (py "samp.name"))) w1 /\
     self w1 = self w).
Proof.
  intros Hs Ho El Hp Hn.
  assert (Hpass : forall w0, self w0 = self w -> history w0 = history w ->
    exists w1,
      get_samp_clientId E title w0 = Done (Raises (KeyError (py "samp.name"))) w1 /\
      self w1 = self w).
  { intros w0 S0 H0.
    assert (Hs0 : samp (self w0) = Some client) by (rewrite S0; exact Hs).
    destruct (scan_clients_nameless E title client name_of pre c_id rest
                (log (Ev (GetSubscribedClients client (py "ds9.set"))
                         (Returns clients)) w0) Hs0)
      as (w1 & R & S1).
    { intros c Hc. destruct (Hp c Hc) as [Hm Hv]. split; [exact Hm|].
      now apply named_title_false. }
    { exact Hn. }
    exists w1. split; [|rewrite S1; exact S0].
    unfold get_samp_clientId, getattr, invoke, bind at 1, bind at 1,
      bind at 1, bind at 1, ask, read_self, ret.
    rewrite Hs0. cbv beta iota. rewrite H0, Ho. cbv beta iota.
    rewrite El. exact R. }
  assert (Hturn : exists w1,
    ds9_turn E title tstart timeout init_retry_time w
      = Done (Raises (KeyError (py "samp.name"))) w1 /\ self w1 = self w).
  { destruct (ds9_turn_cases E tstart timeout init_retry_time title w)
      as (w0 & _ & S0 & H0 & _ & Hr & _).
    destruct (Hpass w0 S0 H0) as (w1 & R & S1).
    exists w1. split; [exact (Hr _ _ R) | exact S1]. }
  split; [exact (Hpass w eq_refl eq_refl)|]. split; [exact Hturn|].
  destruct Hturn as (w1 & R & S1). exists w1. split; [|exact S1].
  rewrite wait_for_ds9_step, R. reflexivity.
Qed.

Lemma discovery_nameless_client_witness :
  exists w1,
    get_samp_clientId (setting_of nameless_client) (py "ds9SAMP")
      (ready_world None false)
    = Done (Raises (KeyError (py "samp.name"))) w1.
Proof.
  destruct (discovery_nameless_client (setting_of nameless_client)
              (py "ds9SAMP") 100 15 1 0 (ready_world None false) 8
              [(py "c0", VMap []); (py "c1", VMap [])] (fun _ => VNone)
              [] [py "c1"] (py "c0"))
    as ((w1 & R & _) & _).
  - reflexivity.
  - reflexivity.
  - reflexivity.
  - intros c [].
  - intros h. eexists. split; reflexivity.
  - exists w1. exact R.
Defined.

(* ===================================================================== *)
(** ** Commands and the liveness probe *)
(* ===================================================================== *)

(** Lines 164-166: with the handshake done, [get] takes the lock, makes one
    call to ['ds9.get'] with the timeout as a decimal string and the
    command, releases the lock whether the call returned or raised, and
    hands the answer or the exception of the call to its caller; the object
    is left as it is. *)
Theorem get_under_lock (E : setting) (cmd : list N) (timeout : Z) (w : world)
    (client : N) (c_id : option (list N)) :
  samp (self w) = Some client ->
  samp_clientId (self w) = Some c_id ->
  exists r w',
    oracle E _ (history w ++ [Ev LockAcquire tt])
      (get_call client c_id timeout cmd) = r /\
    get E cmd timeout w = Done r w' /\
    self w' = self w /\
    history w' = history w ++
      [Ev LockAcquire tt; Ev (get_call client c_id timeout cmd) r;
       Ev LockRelease tt].
Proof.
  intros Hs Hc. unfold get. rewrite with_lock_eq.
  unfold getattr, invoke, bind, ask, read_self, ret, raise, get_call.
  run.
  match goal with
  | |- context [oracle E (outcome value) ?h ?c] =>
      exists (oracle E (outcome value) h c);
      destruct (oracle E (outcome value) h c) as [v|e]
  end;
    eexists; (split; [reflexivity|]); (split; [reflexivity|]);
    cbn [self log history]; rewrite <- !app_assoc; auto.
Qed.

Lemma get_under_lock_witness :
  exists r w',
    get smooth_setting (py "version") 10 (ready_world None false) = Done r w' /\
    history w' =
      [Ev LockAcquire tt;
       Ev (get_call 8 (Some (py "c1")) 10 (py "version")) r;
       Ev LockRelease tt].
Proof.
  destruct (get_under_lock smooth_setting (py "version") 10
              (ready_world None false) 8 (Some (py "c1")) eq_refl eq_refl)
    as (r & w' & _ & R & _ & H).
  exists r, w'. split; [exact R | exact H].
Defined.

(** Lines 140-144 and 159-166 on an object whose SAMP client has not been
    created (the constructor failed before line 71): [get] and a [set]
    with at least one command raise [AttributeError] for the mangled name
    [_DS9__samp], [set] without
    commands returns, and [alive] returns [False]; each of them has taken
    and released the lock and made no other call. *)
Theorem commands_without_client (E : setting) (cmd : list N)
    (cmds : list (list N)) (timeout : Z) (w : world) :
  samp (self w) = None ->
  (exists w',
     get E cmd timeout w = Done (Raises (AttributeError (py "_DS9__samp"))) w' /\
     self w' = self w /\ history w' = history w ++ lock_only) /\
  (exists w',
     set E (cmd :: cmds) timeout w
       = Done (Raises (AttributeError (py "_DS9__samp"))) w' /\
     self w' = self w /\ history w' = history w ++ lock_only) /\
  (exists w',
     set E [] timeout w = Done (Returns tt) w' /\
     self w' = self w /\ history w' = history w ++ lock_only) /\
  (exists w',
     alive E w = Done (Returns false) w' /\
     self w' = self w /\ history w' = history w ++ lock_only).
Proof.
  intros Hs. unfold lock_only. repeat apply conj.
  - unfold get. rewrite with_lock_eq.
    unfold getattr, invoke, bind, ask, read_self, ret, raise. run.
    eexists. split; [reflexivity|]. split; [reflexivity|].
    cbn [history log]. rewrite <- app_assoc. reflexivity.
  - unfold set. rewrite with_lock_eq. cbn [for_each].
    unfold getattr, invoke, bind, ask, read_self, ret, raise. run.
    eexists. split; [reflexivity|]. split; [reflexivity|].
    cbn [history log]. rewrite <- app_assoc. reflexivity.
  - unfold set. rewrite with_lock_eq. cbn [for_each]. unfold ret.
    eexists. split; [reflexivity|]. split; [reflexivity|].
    cbn [history log]. rewrite <- app_assoc. reflexivity.
  - unfold alive, try_except. rewrite with_lock_eq.
    unfold getattr, invoke, bind, ask, read_self, ret, raise. run.
    eexists. split; [reflexivity|]. split; [reflexivity|].
    cbn [history log]. rewrite <- app_assoc. reflexivity.
Qed.

Lemma commands_without_client_witness :
  exists w',
    get smooth_setting (py "version") 10 bare_world
      = Done (Raises (AttributeError (py "_DS9__samp"))) w' /\
    history w' = lock_only.
Proof.
  destruct (commands_without_client smooth_setting (py "version") [] 10
              bare_world eq_refl) as ((w' & R & _ & H) & _).
  exists w'. split; [exact R | exact H].
Defined.

(** Lines 140-144: [alive] never raises and leaves the object as it is;
    it returns [True] exactly when the SAMP client and the client id are
    there and the ping is answered by the string ['OK']. *)
Theorem alive_answers (E : setting) (w : world) :
  exists b w',
    alive E w = Done (Returns b) w' /\
    self w' = self w /\
    (b = true <->
     exists client c_id,
       samp (self w) = Some client /\
       samp_clientId (self w) = Some c_id /\
       oracle E _ (history w ++ [Ev LockAcquire tt]) (ping client c_id)
         = Returns (VStr (py "OK"))).
Proof.
  unfold alive, try_except. rewrite with_lock_eq.
  unfold getattr, invoke, bind, ask, read_self, ret, raise, ping.
  destruct (samp (self w)) as [client|] eqn:Hs;
    [destruct (samp_clientId (self w)) as [c_id|] eqn:Hc|]; run.
  - destruct (oracle E (outcome value) (history w ++ [Ev LockAcquire tt])
                (Enotify client c_id (py "samp.app.ping"))) as [v|e] eqn:Ho.
    + exists (value_eq_str v (py "OK")). eexists.
      split; [reflexivity|]. split; [reflexivity|].
      rewrite value_eq_str_spec. split.
      * intros ->. exists client, c_id. auto.
      * intros (client' & c_id' & Ec & Ei & Hr).
        injection Ec as <-. injection Ei as <-.
        rewrite Ho in Hr. now injection Hr.
    + exists false. eexists. split; [reflexivity|]. split; [reflexivity|].
      split; [discriminate|].
      intros (client' & c_id' & Ec & Ei & Hr).
      injection Ec as <-. injection Ei as <-.
      rewrite Ho in Hr. discriminate.
  - exists false. eexists. split; [reflexivity|]. split; [reflexivity|].
    split; [discriminate|]. intros (? & ? & _ & ? & _). discriminate.
  - exists false. eexists. split; [reflexivity|]. split; [reflexivity|].
    split; [discriminate|]. intros (? & ? & ? & _). discriminate.
Qed.

Lemma eq_DS9_trans (a b c : DS9) : b = a -> c = b -> c = a.
Proof. congruence. Qed.

(** No method other than the constructor assigns an attribute: [set],
    [get] and [alive] leave the object as it is, whether they return or
    raise, and [exit], the destructor and the watchdog thread change the
    exit flag only.  The client id found by the constructor stays for the
    life of the object. *)
Theorem methods_keep_attributes (E : setting) :
  (forall cmds timeout w o w',
     set E cmds timeout w = Done o w' -> self w' = self w) /\
  (forall cmd timeout w o w',
     get E cmd timeout w = Done o w' -> self w' = self w) /\
  (forall w o w', alive E w = Done o w' -> self w' = self w) /\
  (forall use_callback main_thread w o w',
     exit E use_callback main_thread w = Done o w' ->
     same_attrs (self w) (self w')) /\
  (forall w o w', del E w = Done o w' -> same_attrs (self w) (self w')) /\
  (forall fuel period w o w',
     watch_thread E fuel period w = Done o w' ->
     same_attrs (self w) (self w')).
Proof.
  repeat apply conj.
  - intros cmds timeout w o w' H.
    exact (preserves_set E (fun s s' => s' = s) (fun s => eq_refl) eq_DS9_trans
             cmds timeout w o w' H).
  - intros cmd timeout w o w' H.
    exact (preserves_get E (fun s s' => s' = s) (fun s => eq_refl) eq_DS9_trans
             cmd timeout w o w' H).
  - intros w o w' H.
    exact (preserves_alive E (fun s s' => s' = s) (fun s => eq_refl)
             eq_DS9_trans w o w' H).
  - intros use_callback main_thread w o w' H.
    exact (preserves_exit E same_attrs same_attrs_refl same_attrs_trans
             same_attrs_evtexit use_callback main_thread w o w' H).
  - intros w o w' H.
    exact (preserves_del E same_attrs same_attrs_refl same_attrs_trans
             same_attrs_evtexit w o w' H).
  - intros fuel period w o w' H.
    exact (preserves_watch_thread E same_attrs same_attrs_refl same_attrs_trans
             same_attrs_evtexit fuel period w o w' H).
Qed.

(* ===================================================================== *)
(** ** More on the endpoint name *)
(* ===================================================================== *)

Lemma hub_class_alnum c :
  in_class hub_name_class c = alnum_dot c || (c =? 92).
Proof.
  unfold alnum_dot, in_class, hub_name_class. cbn [existsb in_item].
  destruct ((65 <=? c) && (c <=? 90)), ((97 <=? c) && (c <=? 122)),
    ((48 <=? c) && (c <=? 57)), (c =? 92), (c =? 46); reflexivity.
Qed.

(** A run of digits in front of a character which is not a digit is
    determined by the whole. *)
Lemma digits_prefix_inj d : ~ is_digit d -> forall s1 s2 t1 t2,
  Forall is_digit s1 -> Forall is_digit s2 ->
  s1 ++ d :: t1 = s2 ++ d :: t2 -> s1 = s2.
Proof.
  intros Hd. induction s1 as [|a s1 IH]; intros [|b s2] t1 t2 F1 F2 E;
    cbn [app] in E.
  - reflexivity.
  - injection E as -> _. inversion F2; subst. contradiction.
  - injection E as -> _. inversion F1; subst. contradiction.
  - injection E as -> E. inversion F1; inversion F2; subst.
    f_equal. eapply IH; eassumption.
Qed.

Lemma digits_suffix_inj d : ~ is_digit d -> forall s1 s2 t1 t2,
  Forall is_digit s1 -> Forall is_digit s2 ->
  t1 ++ d :: s1 = t2 ++ d :: s2 -> s1 = s2.
Proof.
  intros Hd s1 s2 t1 t2 F1 F2 E.
  apply (f_equal (@rev N)) in E.
  rewrite !rev_app_distr in E. cbn [rev] in E. rewrite <- !app_assoc in E.
  cbn [app] in E.
  apply (digits_prefix_inj d Hd) in E; try (apply Forall_rev; assumption).
  rewrite <- (rev_involutive s1), <- (rev_involutive s2). now rewrite E.
Qed.

Lemma dec_inj a b : dec a = dec b -> a = b.
Proof.
  intros E. rewrite <- (parse_dec_dec a), <- (parse_dec_dec b). now rewrite E.
Qed.

Lemma samp_hub_name_pid title1 title2 t1 t2 pid1 pid2 :
  samp_hub_name title1 t1 pid1 = samp_hub_name title2 t2 pid2 -> pid1 = pid2.
Proof.
  rewrite !samp_hub_name_split. unfold name_suffix. intros E.
  change (py "_pid") with ([95; 112; 105] ++ [100]) in E.
  rewrite <- !app_assoc in E. cbn [app] in E.
  rewrite !(app_assoc (sanitize _)), !(app_assoc _ (strftime_compact _)),
    !(app_assoc _ (py ".")), !(app_assoc _ (format_0d 6 _)) in E.
  change (?x ++ 95 :: 112 :: 105 :: 100 :: ?s)
    with (x ++ [95; 112; 105] ++ 100 :: s) in E.
  rewrite !(app_assoc _ [95; 112; 105]) in E.
  apply (digits_suffix_inj 100) in E.
  - now apply dec_inj.
  - unfold is_digit. lia.
  - apply dec_fuel_digits.
  - apply dec_fuel_digits.
Qed.

(** Lines 59-60: the name of the hub endpoint is made of letters, digits,
    dots, backslashes and underscores only, whatever the title; it holds no
    slash, so the hub file of line 61 lies in [SAMP_HUB_PATH] itself. *)
Theorem hub_name_charset (title : list N) (tnow : datetime) (pid : N) :
  Forall (fun c => alnum_dot c = true \/ c = 92 \/ c = 95)
         (samp_hub_name title tnow pid) /\
  ~ In 47 (samp_hub_name title tnow pid).
Proof.
  assert (F : Forall (fun c => alnum_dot c = true \/ c = 92 \/ c = 95)
                (samp_hub_name title tnow pid)).
  { unfold samp_hub_name. eapply Forall_impl; [|apply sanitize_image].
    intros c [Hc|Hc]; [|auto].
    rewrite hub_class_alnum in Hc. apply orb_true_iff in Hc.
    destruct Hc as [Hc|Hc]; [auto|]. apply N.eqb_eq in Hc. auto. }
  split; [exact F|]. intros Hin.
  rewrite Forall_forall in F. destruct (F 47 Hin) as [H|[H|H]];
    discriminate.
Qed.

(** Lines 59-60: sanitizing changes the title only; the time stamp, the
    microseconds and the process id come out as they were formatted. *)
Theorem hub_name_layout (title : list N) (tnow : datetime) (pid : N) :
  samp_hub_name title tnow pid =
    sanitize title ++ py "_utc" ++ strftime_compact tnow ++ py "." ++
    format_0d 6 (microsecond tnow) ++ py "_pid" ++ dec pid /\
  length (sanitize title) = length title /\
  parse_dec (format_0d 6 (microsecond tnow)) = microsecond tnow /\
  parse_dec (dec pid) = pid.
Proof.
  split; [apply samp_hub_name_split|].
  split; [apply sanitize_length|].
  split; [apply parse_format_0d | apply parse_dec_dec].
Qed.

Lemma samp_hub_file_pid hub_path title1 title2 t1 t2 pid1 pid2 :
  samp_hub_file hub_path title1 t1 pid1 = samp_hub_file hub_path title2 t2 pid2 ->
  pid1 = pid2.
Proof.
  unfold samp_hub_file. intros E.
  apply app_inv_head in E. apply app_inv_head in E. apply app_inv_tail in E.
  eapply samp_hub_name_pid; eassumption.
Qed.

(** Lines 59-61: the hub file tells the process id, so constructions in
    processes with different ids never get the same hub file, whatever
    their titles and construction times; and two constructions get the same
    hub file exactly when their titles are the same after sanitizing and
    they read the same clock value in processes with the same id. *)
Theorem hub_file_collision (hub_path title1 title2 : list N)
    (t1 t2 : datetime) (pid1 pid2 : N) :
  (pid1 <> pid2 ->
   samp_hub_file hub_path title1 t1 pid1
   <> samp_hub_file hub_path title2 t2 pid2) /\
  (valid_datetime t1 -> valid_datetime t2 ->
   (samp_hub_file hub_path title1 t1 pid1 = samp_hub_file hub_path title2 t2 pid2
    <-> sanitize title1 = sanitize title2 /\ t1 = t2 /\ pid1 = pid2)).
Proof.
  split.
  - intros Hp E. apply Hp. eapply samp_hub_file_pid; eassumption.
  - intros V1 V2. split.
    + intros E. pose proof (samp_hub_file_pid _ _ _ _ _ _ _ E) as ->.
      apply samp_hub_file_inj in E; auto. destruct E as [Et ->]. auto.
    + intros (Et & -> & ->). unfold samp_hub_file.
      rewrite !samp_hub_name_split, Et. reflexivity.
Qed.

Lemma hub_file_collision_witness :
  samp_hub_file (py "/home/u/.samp-ds9") (py "ds9 A")
    (mk_datetime 2024 3 7 9 5 0 42) 1234
  = samp_hub_file (py "/home/u/.samp-ds9") (py "ds9-A")
    (mk_datetime 2024 3 7 9 5 0 42) 1234.
Proof.
  apply (hub_file_collision (py "/home/u/.samp-ds9") (py "ds9 A") (py "ds9-A")
           (mk_datetime 2024 3 7 9 5 0 42) (mk_datetime 2024 3 7 9 5 0 42)
           1234 1234);
    unfold valid_datetime; cbn;
    repeat split; try reflexivity; intro; discriminate.
Defined.

(** Line 60, character by character: the sanitized string has the length
    of the input; at each position a letter, a digit, a dot or a backslash
    stays, and any other character becomes an underscore. *)
Theorem sanitize_pointwise (s : list N) :
  length (sanitize s) = length s /\
  forall i, (i < length s)%nat ->
    nth i (sanitize s) 0 =
    (if alnum_dot (nth i s 0) || (nth i s 0 =? 92) then nth i s 0 else 95).
Proof.
  split; [apply sanitize_length|]. intros i Hi. now apply sanitize_nth.
Qed.

(* ===================================================================== *)
(** ** The module constants *)
(* ===================================================================== *)

Lemma str_eqb_refl a : str_eqb a a = true.
Proof. now apply str_eqb_eq. Qed.

Lemma str_eqb_neq a b : a <> b -> str_eqb a b = false.
Proof.
  intros H. destruct (str_eqb a b) eqn:E; [|reflexivity].
  apply str_eqb_eq in E. contradiction.
Qed.

(** [d[k] = v] and then [d[k]], [d[k']]. *)
Lemma dict_get_set_same {V} (d : list (list N * V)) k v :
  dict_get (dict_set d k v) k = Some v.
Proof.
  induction d as [|[k' v'] d IH]; cbn [dict_set dict_get].
  - now rewrite str_eqb_refl.
  - destruct (str_eqb k' k) eqn:E; cbn [dict_get].
    + now rewrite str_eqb_refl.
    + now rewrite E.
Qed.

Lemma dict_get_set_other {V} (d : list (list N * V)) k v k' :
  k <> k' -> dict_get (dict_set d k v) k' = dict_get d k'.
Proof.
  intros Hk. induction d as [|[k0 v0] d IH]; cbn [dict_set dict_get].
  - now rewrite (str_eqb_neq k k' Hk).
  - destruct (str_eqb k0 k) eqn:E; cbn [dict_get].
    + apply str_eqb_eq in E. subst k0. now rewrite (str_eqb_neq k k' Hk).
    + now rewrite IH.
Qed.

(** Lines 17-18: importing the module fails with [KeyError: 'HOME'] exactly
    when [HOME] is not in the environment, also when [SAMP_HUB_PATH] is set
    and the default path would not be used; otherwise [SAMP_HUB_PATH] is
    the variable of that name, or [$HOME/.samp-ds9] without it, and
    [DS9_EXE] is the variable of that name, or ['ds9v8.7'] without it. *)
Theorem module_constants_need_HOME (env : list (list N * list N)) :
  (dict_get env (py "HOME") = None <->
   module_constants env = Raises (KeyError (py "HOME"))) /\
  (forall home, dict_get env (py "HOME") = Some home ->
   exists exe path,
     module_constants env = Returns (exe, path) /\
     (forall v, dict_get env (py "DS9_EXE") = Some v -> exe = v) /\
     (dict_get env (py "DS9_EXE") = None -> exe = py "ds9v8.7") /\
     (forall v, dict_get env (py "SAMP_HUB_PATH") = Some v -> path = v) /\
     (dict_get env (py "SAMP_HUB_PATH") = None ->
      path = home ++ py "/.samp-ds9")).
Proof.
  unfold module_constants, environ_get. split.
  - destruct (dict_get env (py "HOME")); split; congruence.
  - intros home ->. eexists. eexists. split; [reflexivity|].
    destruct (dict_get env (py "DS9_EXE")),
      (dict_get env (py "SAMP_HUB_PATH"));
      repeat split; congruence.
Qed.

Lemma module_constants_need_HOME_witness :
  module_constants [(py "SAMP_HUB_PATH", py "/tmp/hubs")]
  = Raises (KeyError (py "HOME")).
Proof.
  apply (module_constants_need_HOME [(py "SAMP_HUB_PATH", py "/tmp/hubs")]).
  reflexivity.
Defined.

(* ===================================================================== *)
(** ** Spawning ds9 *)
(* ===================================================================== *)

Section Spawn.

Variable E : setting.
Variables (title ds9args : list N).

Lemma init_spawn_log w :
  match init_spawn E title ds9args w with
  | Done (Returns tstart) w1 =>
      exists tnow argv p client,
        self w1 =
          set_samp_clientId None
            (set_samp client
               (set_process p
                  (set_hub_file
                     (samp_hub_file (SAMP_HUB_PATH E) title tnow (pid (self w)))
                     (self w)))) /\
        environ w1 =
          dict_set
            (dict_set (environ w) (py "SAMP_HUB")
               (py "std-lockurl:file://" ++
                samp_hub_file (SAMP_HUB_PATH E) title tnow (pid (self w))))
            (py "XMODIFIERS") (py "@im=none") /\
        history w1 = history w ++
          [Ev (Mkdir (SAMP_HUB_PATH E)) (Returns tt);
           Ev DatetimeNow tnow;
           Ev (ShlexSplit (ds9_command E title ds9args)) (Returns argv);
           Ev (Popen argv (environ w1)) (Returns p);
           Ev (SAMPIntegratedClient (title ++ py " controller")) (Returns client);
           Ev TimeTime tstart]
  | _ => True
  end.
Proof.
  unfold init_spawn, debug_print, print, putenv, read_environ, modify_self,
    getitem, invoke, bind, ask, read_self, ret, raise.
  repeat (cbn -[py dec_Z samp_hub_file ds9_command dict_set dict_get];
          match goal with
          | |- context [oracle E (outcome unit) ?h ?c] =>
              destruct (oracle E (outcome unit) h c) as [[]|]
          | |- context [oracle E (outcome ?A) ?h ?c] =>
              destruct (oracle E (outcome A) h c)
          | |- context [debug (self w)] => destruct (debug (self w))
          | |- context [dict_get ?d ?k] => destruct (dict_get d k)
          end);
    cbn -[py dec_Z samp_hub_file ds9_command dict_set dict_get];
    try exact I;
    do 4 eexists; (split; [reflexivity|]); (split; [reflexivity|]);
    rewrite <- !app_assoc; reflexivity.
Qed.

End Spawn.

(** Lines 57-73: when the first part of the [try] block comes to its end,
    it has made six calls, in this order: [mkdir], the clock, [shlex.split]
    on the command line of line 68, [Popen], the SAMP client and the
    clock.  The environment given to [Popen] is the environment of the
    process then, in which [SAMP_HUB] is the lock URL of the hub file of
    this object (the one [exit] removes) and [XMODIFIERS] is ['@im=none'],
    the other variables being as they were; and the client id is
    [None]. *)
Theorem spawn_environment (E : setting) (title ds9args : list N)
    (w w1 : world) (tstart : Z) :
  init_spawn E title ds9args w = Done (Returns tstart) w1 ->
  exists tnow argv p client file,
    file = samp_hub_file (SAMP_HUB_PATH E) title tnow (pid (self w)) /\
    hub_file (self w1) = Some file /\
    process (self w1) = Some p /\
    samp (self w1) = Some client /\
    samp_clientId (self w1) = Some None /\
    dict_get (environ w1) (py "SAMP_HUB")
      = Some (py "std-lockurl:file://" ++ file) /\
    dict_get (environ w1) (py "XMODIFIERS") = Some (py "@im=none") /\
    (forall k, k <> py "SAMP_HUB" -> k <> py "XMODIFIERS" ->
       dict_get (environ w1) k = dict_get (environ w) k) /\
    history w1 = history w ++
      [Ev (Mkdir (SAMP_HUB_PATH E)) (Returns tt);
       Ev DatetimeNow tnow;
       Ev (ShlexSplit (ds9_command E title ds9args)) (Returns argv);
       Ev (Popen argv (environ w1)) (Returns p);
       Ev (SAMPIntegratedClient (title ++ py " controller")) (Returns client);
       Ev TimeTime tstart].
Proof.
  intros H. pose proof (init_spawn_log E title ds9args w) as P.
  rewrite H in P. destruct P as (tnow & argv & p & client & S1 & V1 & H1).
  exists tnow, argv, p, client. eexists. split; [reflexivity|].
  rewrite S1, V1. repeat split.
  - rewrite dict_get_set_other by discriminate. apply dict_get_set_same.
  - apply dict_get_set_same.
  - intros k K1 K2. rewrite !dict_get_set_other; auto.
  - rewrite H1, V1. reflexivity.
Qed.

Lemma spawn_environment_witness :
  exists w1 file,
    init_spawn smooth_setting (py "ds9SAMP") (py "") bare_world
      = Done (Returns 100%Z) w1 /\
    hub_file (self w1) = Some file /\
    dict_get (environ w1) (py "SAMP_HUB")
      = Some (py "std-lockurl:file://" ++ file).
Proof.
  eassert (Hs : init_spawn smooth_setting (py "ds9SAMP") (py "") bare_world
                = Done (Returns 100%Z) _) by (vm_compute; reflexivity).
  destruct (spawn_environment _ _ _ _ _ _ Hs)
    as (tnow & argv & p & client & file & _ & Hf & _ & _ & _ & He & _).
  eexists. exists file. split; [exact Hs|]. split; [exact Hf | exact He].
Defined.

(* ===================================================================== *)
(** ** What the constructor leaves alone *)
(* ===================================================================== *)

Section PreservesInit.

Variable E : setting.
Variable R : DS9 -> DS9 -> Prop.
Hypothesis R_refl : forall s, R s s.
Hypothesis R_trans : forall a b c, R a b -> R b c -> R a c.
Hypothesis R_hub_file : forall f s, R s (set_hub_file f s).
Hypothesis R_process : forall p s, R s (set_process p s).
Hypothesis R_samp : forall c s, R s (set_samp c s).
Hypothesis R_clientId : forall i s, R s (set_samp_clientId i s).

Lemma preserves_init_spawn title ds9args :
  preserves R (init_spawn E title ds9args).
Proof.
  unfold init_spawn.
  apply (preserves_bind R R_trans); [exact (preserves_invoke E R R_refl R_trans _) | intros _].
  apply (preserves_bind R R_trans); [exact (preserves_ask E R R_refl _) | intros tnow].
  apply (preserves_bind R R_trans); [exact (preserves_read_self R R_refl) | intros me].
  apply (preserves_bind R R_trans); [apply (preserves_modify_self R); auto | intros _].
  apply (preserves_bind R R_trans); [exact (preserves_putenv R R_refl _ _) | intros _].
  apply (preserves_bind R R_trans); [exact (preserves_putenv R R_refl _ _) | intros _].
  apply (preserves_bind R R_trans); [exact (preserves_read_environ R R_refl) | intros env].
  apply (preserves_bind R R_trans); [exact (preserves_read_self R R_refl) | intros me'].
  apply (preserves_bind R R_trans).
  { destruct (debug me'); [|exact (preserves_ret R R_refl _)].
    apply (preserves_bind R R_trans); [exact (preserves_getitem R R_refl _ _) | intros v].
    exact (preserves_print R R_refl _). }
  intros _.
  apply (preserves_bind R R_trans); [exact (preserves_debug_print R R_refl R_trans _) | intros _].
  apply (preserves_bind R R_trans); [exact (preserves_invoke E R R_refl R_trans _) | intros argv].
  apply (preserves_bind R R_trans); [exact (preserves_read_environ R R_refl) | intros env'].
  apply (preserves_bind R R_trans); [exact (preserves_invoke E R R_refl R_trans _) | intros p].
  apply (preserves_bind R R_trans); [apply (preserves_modify_self R); auto | intros _].
  apply (preserves_bind R R_trans); [exact (preserves_invoke E R R_refl R_trans _) | intros client].
  apply (preserves_bind R R_trans); [apply (preserves_modify_self R); auto | intros _].
  apply (preserves_bind R R_trans); [apply (preserves_modify_self R); auto | intros _].
  exact (preserves_ask E R R_refl _).
Qed.

(** The [try] block up to the start of the watchdog. *)
Lemma preserves_handshake fuel title timeout ds9args init_retry_time
    (k : M unit) :
  preserves R k ->
  preserves R
    (tstart <- init_spawn E title ds9args ;;
     wait_for_hub E fuel tstart timeout init_retry_time ;;
     wait_for_ds9 E fuel title tstart timeout init_retry_time ;;
     k).
Proof.
  intros Hk.
  apply (preserves_bind R R_trans); [apply preserves_init_spawn | intros tstart].
  apply (preserves_bind R R_trans); [exact (preserves_wait_for_hub E R R_refl R_trans _ _ _ _) | intros _].
  apply (preserves_bind R R_trans); [exact (preserves_wait_for_ds9 E R R_refl R_trans R_clientId _ _ _ _ _) | intros _].
  exact Hk.
Qed.

Hypothesis R_watcher : forall t s, R s (set_watcher t s).

Lemma preserves_start_watcher poll_alive_time :
  preserves R (start_watcher E poll_alive_time).
Proof.
  unfold start_watcher. destruct (0 <? poll_alive_time)%Z.
  - apply (preserves_bind R R_trans); [exact (preserves_ask E R R_refl _) | intros t].
    apply (preserves_bind R R_trans); [apply (preserves_modify_self R); auto | intros _].
    exact (preserves_invoke E R R_refl R_trans _).
  - exact (preserves_ret R R_refl _).
Qed.

Lemma preserves_init_try fuel title timeout ds9args poll_alive_time
    init_retry_time :
  preserves R
    (init_try E fuel title timeout ds9args poll_alive_time init_retry_time).
Proof. apply preserves_handshake, preserves_start_watcher. Qed.

End PreservesInit.

Lemma same_flag_refl s : same_flag s s.
Proof. reflexivity. Qed.

Lemma same_flag_trans a b c : same_flag a b -> same_flag b c -> same_flag a c.
Proof. unfold same_flag. congruence. Qed.

Lemma same_watcher_refl s : same_watcher s s.
Proof. reflexivity. Qed.

Lemma same_watcher_trans a b c :
  same_watcher a b -> same_watcher b c -> same_watcher a c.
Proof. unfold same_watcher. congruence. Qed.

(** Lines 55-100 for an exception which is not an [Exception]
    ([KeyboardInterrupt], [SystemExit]): line 98 does not catch it, and the
    constructor raises it in the state in which the [try] block was left:
    [exit] has not run and the exit flag is down, whatever had been
    launched by then. *)
Theorem init_interrupt_skips_teardown (E : setting) (fuel : nat)
    (title : list N) (timeout : Z) (cb : option N) (kill : bool)
    (ds9args : list N) (poll_alive_time init_retry_time : Z) (dbg : bool)
    (w wa w1 : world) (e : exn) :
  init_attrs E cb kill dbg w = Done (Returns tt) wa ->
  init_try E fuel title timeout ds9args poll_alive_time init_retry_time wa
    = Done (Raises e) w1 ->
  is_Exception e = false ->
  init E fuel title timeout cb kill ds9args poll_alive_time init_retry_time
    dbg w = Done (Raises e) w1 /\
  evtexit (self w1) = false.
Proof.
  intros Ha Ht He. split.
  - eapply init_raises_uncaught; eassumption.
  - destruct (init_attrs_eq E cb kill dbg w) as (wa' & Ha' & Sa & _).
    rewrite Ha in Ha'. inversion Ha'; subst wa'.
    pose proof (preserves_init_try E same_flag same_flag_refl same_flag_trans
                  (fun _ _ => eq_refl) (fun _ _ => eq_refl)
                  (fun _ _ => eq_refl) (fun _ _ => eq_refl)
                  (fun _ _ => eq_refl) fuel title timeout ds9args
                  poll_alive_time init_retry_time wa _ w1 Ht) as Hf.
    unfold same_flag in Hf. rewrite Hf, Sa. reflexivity.
Qed.

Lemma init_interrupt_skips_teardown_witness :
  exists w1,
    init (setting_of interrupted) 5 (py "ds9SAMP") 15 None false (py "")
         5 1 false fresh_world
    = Done (Raises (BaseExceptionOnly 2)) w1 /\
    evtexit (self w1) = false /\
    process (self w1) = Some 7.
Proof.
  assert (Ha : init_attrs (setting_of interrupted) None false false fresh_world
               = Done (Returns tt) entered_world) by reflexivity.
  eassert (Ht : init_try (setting_of interrupted) 5 (py "ds9SAMP") 15 (py "")
                  5 1 entered_world = Done (Raises (BaseExceptionOnly 2)) _)
    by (vm_compute; reflexivity).
  destruct (init_interrupt_skips_teardown _ _ _ _ _ _ _ _ _ _ _ _ _ _
              Ha Ht eq_refl) as [I F].
  eexists. split; [exact I|]. split; [exact F | reflexivity].
Defined.

(** Lines 94-97: with [poll_alive_time <= 0] a constructor that returns has
    started no watchdog: the object has no [__watcher], and a later [exit]
    from the main thread, which finds no thread to join, goes on with the
    other steps. *)
Theorem no_watchdog_without_poll_time (E : setting) (fuel : nat)
    (title : list N) (timeout : Z) (cb : option N) (kill : bool)
    (ds9args : list N) (poll_alive_time init_retry_time : Z) (dbg : bool)
    (w w1 : world) :
  (poll_alive_time <= 0)%Z ->
  init E fuel title timeout cb kill ds9args poll_alive_time init_retry_time
    dbg w = Done (Returns tt) w1 ->
  watcher (self w1) = None /\
  exists w2,
    exit E true true w1 = Done (Returns tt) w2 /\
    calls (history w2) = calls (history w1) ++ exit_calls true (self w1) /\
    existsb is_join (exit_calls true (self w1)) = false.
Proof.
  intros Hp Hi.
  destruct (init_attrs_eq E cb kill dbg w) as (wa & Ha & Sa & _).
  pose proof (init_returns E fuel title timeout cb kill ds9args
                poll_alive_time init_retry_time dbg w wa w1 Ha Hi) as Ht.
  assert (Hw : watcher (self w1) = None).
  { unfold init_try, start_watcher in Ht.
    assert (Hz : (0 <? poll_alive_time)%Z = false) by (apply Z.ltb_ge; lia).
    rewrite Hz in Ht.
    pose proof (preserves_handshake E same_watcher same_watcher_refl
                  same_watcher_trans (fun _ _ => eq_refl) (fun _ _ => eq_refl)
                  (fun _ _ => eq_refl) (fun _ _ => eq_refl)
                  fuel title timeout ds9args init_retry_time (ret tt)
                  (preserves_ret same_watcher same_watcher_refl tt)
                  wa _ w1 Ht) as Hf.
    unfold same_watcher in Hf. rewrite Hf, Sa. reflexivity. }
  split; [exact Hw|].
  destruct (exit_runs E true true w1 (self w1) eq_refl) as (w2 & R & _ & H2).
  exists w2. split; [exact R|]. split; [exact H2|].
  unfold exit_calls, join_calls. rewrite Hw. cbn [app].
  unfold exit_cmd_calls, kill_calls, unlink_calls, callback_calls,
    host_kill_calls.
  destruct (samp (self w1)), (samp_clientId (self w1)), (process (self w1)),
    (hub_file (self w1)), (exit_callback (self w1)), (kill_on_exit (self w1));
    reflexivity.
Qed.

Lemma no_watchdog_without_poll_time_witness :
  exists w1,
    init smooth_setting 5 (py "ds9SAMP") 15 None false (py "") 0 1 false
         fresh_world = Done (Returns tt) w1 /\
    watcher (self w1) = None.
Proof.
  eassert (Hi : init smooth_setting 5 (py "ds9SAMP") 15 None false (py "")
                  0 1 false fresh_world = Done (Returns tt) _)
    by (vm_compute; reflexivity).
  destruct (no_watchdog_without_poll_time _ _ _ _ _ _ _ _ _ _ _ _
              (Z.le_refl 0) Hi) as [Hw _].
  eexists. split; [exact Hi | exact Hw].
Defined.

Example init_smooth :
  exists w',
    init smooth_setting 5 (py "ds9SAMP") 15 None false
         (py "-geometry 1024x768 -colorbar no") 5 1 false fresh_world
    = Done (Returns tt) w' /\
    self w' = ready None false.
Proof. eexists. split; vm_compute; reflexivity. Qed.

Example init_hub_never_up :
  exists w',
    init (setting_of (hub_late 30)) 50 (py "ds9SAMP") 15 None false (py "")
         5 1 false fresh_world
    = Done (Raises (hub_not_found 15)) w' /\
    evtexit (self w') = true /\
    count is_connect (history w') = 17%nat /\
    count is_kill (history w') = 1%nat /\
    count is_unlink (history w') = 1%nat.
Proof. eexists. split; [|repeat split]; vm_compute; reflexivity. Qed.

Example init_ds9_never_registers :
  exists w',
    init (setting_of ds9_missing) 50 (py "ds9SAMP") 15 None false (py "")
         5 1 false fresh_world
    = Done (Raises (ds9_not_found 15)) w' /\
    evtexit (self w') = true /\
    count is_get_subscribed (history w') = 17%nat.
Proof. eexists. split; [|repeat split]; vm_compute; reflexivity. Qed.

(** The user interrupts the first [sleep] of the hub loop: the constructor
    raises [KeyboardInterrupt] with the child process spawned and the hub
    file named, the exit flag down, and neither [kill] nor [unlink]
    called. *)
Example init_interrupted :
  exists w',
    init (setting_of interrupted) 5 (py "ds9SAMP") 15 None false (py "")
         5 1 false fresh_world
    = Done (Raises (BaseExceptionOnly 2)) w' /\
    process (self w') = Some 7 /\
    hub_file (self w') <> None /\
    evtexit (self w') = false /\
    existsb is_kill (calls (history w')) = false /\
    existsb is_unlink (calls (history w')) = false.
Proof.
  eexists. split; [vm_compute; reflexivity|].
  repeat split; try (vm_compute; reflexivity). vm_compute; discriminate.
Qed.

Lemma same_kill_on_exit_refl s : same_kill_on_exit s s.
Proof. reflexivity. Qed.

Lemma same_kill_on_exit_trans a b c :
  same_kill_on_exit a b -> same_kill_on_exit b c -> same_kill_on_exit a c.
Proof. unfold same_kill_on_exit. congruence. Qed.

(** A constructor called with [kill_on_exit=False] leaves the [try] block
    with an object whose teardown does not signal the host. *)
Lemma init_try_no_host_kill E fuel title timeout cb ds9args poll_alive_time
    init_retry_time dbg w wa o w1 :
  init_attrs E cb false dbg w = Done (Returns tt) wa ->
  init_try E fuel title timeout ds9args poll_alive_time init_retry_time wa
    = Done o w1 ->
  host_kill_calls (self w1) = [].
Proof.
  intros Ha Ht.
  destruct (init_attrs_eq E cb false dbg w) as (wa' & Ha' & Sa & _).
  rewrite Ha in Ha'. inversion Ha'; subst wa'.
  pose proof (preserves_init_try E same_kill_on_exit same_kill_on_exit_refl
                same_kill_on_exit_trans
                (fun _ _ => eq_refl) (fun _ _ => eq_refl)
                (fun _ _ => eq_refl) (fun _ _ => eq_refl)
                (fun _ _ => eq_refl) fuel title timeout ds9args
                poll_alive_time init_retry_time wa _ w1 Ht) as Hk.
  unfold same_kill_on_exit in Hk. unfold host_kill_calls.
  rewrite Hk, Sa. reflexivity.
Qed.

(** Lines 55-100.  With [kill_on_exit=False]: for every exception of class
    [Exception] that the [try] block of the constructor raises, the
    constructor runs [exit] with its default arguments, which returns
    after raising the exit flag and issuing the call of every teardown
    step, none of them a signal to the host, and then raises that same
    exception.  With either value of [kill_on_exit], a constructor that
    returns has run the [try] block to its end, with every attribute
    assigned. *)
Theorem init_teardown_before_reraise (E : setting) (fuel : nat) (title : list N)
    (timeout : Z) (cb : option N) (kill : bool) (ds9args : list N)
    (poll_alive_time init_retry_time : Z) (dbg : bool) (w wa : world) :
  init_attrs E cb kill dbg w = Done (Returns tt) wa ->
  (kill = false ->
   forall e w1,
     init_try E fuel title timeout ds9args poll_alive_time init_retry_time wa
       = Done (Raises e) w1 ->
     is_Exception e = true ->
     exists w2,
       exit E true true w1 = Done (Returns tt) w2 /\
       init E fuel title timeout cb false ds9args poll_alive_time
         init_retry_time dbg w = Done (Raises e) w2 /\
       evtexit (self w2) = true /\
       calls (history w2) = calls (history w1) ++ exit_calls true (self w1) /\
       host_kill_calls (self w1) = []) /\
  (forall w1,
     init E fuel title timeout cb kill ds9args poll_alive_time
       init_retry_time dbg w = Done (Returns tt) w1 ->
     init_try E fuel title timeout ds9args poll_alive_time init_retry_time wa
       = Done (Returns tt) w1 /\
     constructed poll_alive_time (self w1)).
Proof.
  intros Ha. split.
  - intros -> e w1 Ht He.
    destruct (init_raises E fuel title timeout cb false ds9args poll_alive_time
                init_retry_time dbg w wa e w1 Ha Ht He)
      as (w2 & R & I & S2 & H2).
    exists w2. rewrite S2. repeat split; auto.
    eapply init_try_no_host_kill; eassumption.
  - intros w1 Hi.
    pose proof (init_returns E fuel title timeout cb kill ds9args
                  poll_alive_time init_retry_time dbg w wa w1 Ha Hi) as Ht.
    split; [exact Ht|]. eapply init_try_constructed; eassumption.
Qed.

Lemma init_teardown_before_reraise_witness :
  exists w2,
    init (setting_of hub_broken) 5 (py "ds9SAMP") 15 None false (py "")
         5 1 false fresh_world
    = Done (Raises (OtherException 111)) w2 /\
    evtexit (self w2) = true.
Proof.
  assert (Ha : init_attrs (setting_of hub_broken) None false false fresh_world
               = Done (Returns tt) entered_world) by reflexivity.
  destruct (init_teardown_before_reraise (setting_of hub_broken) 5
              (py "ds9SAMP") 15 None false (py "") 5 1 false fresh_world
              entered_world Ha) as [H _].
  eassert (Ht : init_try (setting_of hub_broken) 5 (py "ds9SAMP") 15 (py "")
                  5 1 entered_world = Done (Raises (OtherException 111)) _)
    by (vm_compute; reflexivity).
  destruct (H eq_refl (OtherException 111) _ Ht eq_refl)
    as (w2 & _ & I & F & _).
  exists w2. split; [exact I | exact F].
Defined.



(* ===================================================================== *)
(** ** The loops *)
(* ===================================================================== *)

(** Lines 75-83: nothing but the clock ends the wait for the hub.  With a
    hub which refuses every connection, a clock which never shows more
    than [timeout] after [tstart] (it may show exactly [timeout]) and a
    [sleep] which returns, the loop goes on for ever: no number of turns
    is enough for it to come to an end. *)
Theorem hub_loop_bounded_by_clock_only (E : setting)
    (tstart timeout init_retry_time : Z) (client : N) :
  (forall h, exists msg,
     oracle E _ h (Connect client) = Raises (SAMPHubError msg)) ->
  (forall h, (oracle E Z h TimeTime - tstart <= timeout)%Z) ->
  (forall h, oracle E _ h (Sleep init_retry_time) = Returns tt) ->
  forall fuel w,
    samp (self w) = Some client ->
    wait_for_hub E fuel tstart timeout init_retry_time w = OutOfFuel.
Proof.
  intros Hc Ht Hsl. induction fuel as [|fuel IH]; intros w Hs;
    [reflexivity|].
  rewrite wait_for_hub_step.
  destruct (hub_turn_cases E tstart timeout init_retry_time w client Hs)
    as (w1 & S1 & Hcase).
  destruct (Hc (history w)) as (msg & Ho). rewrite Ho in Hcase.
  cbv zeta in Hcase. cbn [is_SAMPHubError] in Hcase.
  assert (Hle : (oracle E Z
                   (history w ++ [Ev (Connect client) (Raises (SAMPHubError msg))])
                   TimeTime - tstart >? timeout)%Z = false).
  { rewrite Z.gtb_ltb. apply Z.ltb_ge. apply Ht. }
  rewrite Hle, Hsl in Hcase. destruct Hcase as [Hturn _].
  rewrite Hturn. apply IH. rewrite S1. exact Hs.
Qed.

Lemma hub_loop_bounded_by_clock_only_witness :
  wait_for_hub (setting_of hub_down) 1000 100 0 1 (ready_world None false)
  = OutOfFuel.
Proof.
  apply (hub_loop_bounded_by_clock_only (setting_of hub_down) 100 0 1 8).
  - intros h. eexists. reflexivity.
  - intros h. cbn. lia.
  - intros h. reflexivity.
  - reflexivity.
Defined.

Lemma watch_loop_returns E fuel period : forall w o w',
  watch_loop E fuel period w = Done o w' -> o = Returns tt.
Proof.
  induction fuel as [|fuel IH]; intros w o w' H; [discriminate|].
  cbn [watch_loop] in H. unfold bind in H.
  destruct (watch_turn_total E period w) as (b & w1 & Ht).
  rewrite Ht in H. destruct b.
  - now inversion H.
  - eapply IH; eassumption.
Qed.

(** Lines 146-157: the watchdog thread never ends with an exception:
    when it ends, it has returned, with the exit flag raised by its
    [exit]. *)
Theorem watch_thread_never_raises (E : setting) (fuel : nat) (period : Z)
    (w w' : world) (o : outcome unit) :
  watch_thread E fuel period w = Done o w' ->
  o = Returns tt /\ evtexit (self w') = true.
Proof.
  intros H. unfold watch_thread in H.
  destruct (debug_print_eq (py "watch_thread started - period " ++ dec_Z period) w)
    as (w0 & R0 & _).
  unfold bind at 1 in H. rewrite R0 in H.
  unfold bind at 1 in H.
  destruct (watch_loop E fuel period w0) as [o1 w1|] eqn:Hl; [|discriminate].
  rewrite (watch_loop_returns E fuel period w0 o1 w1 Hl) in H.
  destruct (exit_runs E true false w1 (self w1) eq_refl) as (w2 & R2 & S2 & _).
  unfold bind at 1 in H. rewrite R2 in H.
  destruct (debug_print_eq (py "watch_thread exit") w2) as (w3 & R3 & S3 & _).
  rewrite R3 in H. inversion H; subst. split; [reflexivity|].
  rewrite S3, S2. reflexivity.
Qed.

Lemma watch_thread_never_raises_witness :
  exists w',
    watch_thread (setting_of ping_unanswered) 3 5 (ready_world None false)
      = Done (Returns tt) w' /\
    evtexit (self w') = true.
Proof.
  eassert (H : watch_thread (setting_of ping_unanswered) 3 5
                 (ready_world None false) = Done (Returns tt) _)
    by (vm_compute; reflexivity).
  destruct (watch_thread_never_raises _ _ _ _ _ _ H) as [_ F].
  eexists. split; [exact H | exact F].
Defined.

(* ===================================================================== *)
(** ** What every run of a method keeps *)
(* ===================================================================== *)

Section Keeps.

Variable E : setting.

(** The relation may depend on whether the lock is held. *)
Variable K : bool -> world -> world -> Prop.
Variable ok : bool -> issued -> bool.

Hypothesis K_refl : forall b w, K b w w.
Hypothesis K_trans : forall b w1 w2 w3, K b w1 w2 -> K b w2 w3 -> K b w1 w3.
Hypothesis K_call : forall b R (c : call R) (r : R) w,
  ok b (Call c) = true -> K b w (log (Ev c r) w).
Hypothesis K_self : forall b f w,
  debug (f (self w)) = debug (self w) -> K b w (with_self f w).
Hypothesis K_print : forall b s w,
  debug (self w) = true ->
  K b w (mk_world (self w) (environ w) (stdout w ++ [s]) (history w)).
Hypothesis K_lock : forall w w1,
  K true (log (Ev LockAcquire tt) w) w1 ->
  K false w (log (Ev LockRelease tt) w1).

Lemma keeps_ret b {A} (a : A) : keeps (K b) (ret a).
Proof. intros w o w' H. inversion H; subst. apply K_refl. Qed.

Lemma keeps_raise b {A} e : keeps (K b) (@raise A e).
Proof. intros w o w' H. inversion H; subst. apply K_refl. Qed.

Lemma keeps_out_of_fuel b {A} : keeps (K b) (@out_of_fuel A).
Proof. intros w o w' H. discriminate. Qed.

(** A bind whose first part is known to keep [K] in the world at hand. *)
Lemma keeps_bind_at b {A B} (m : M A) (k : A -> M B) w :
  (forall o1 w1, m w = Done o1 w1 -> K b w w1) ->
  (forall a, keeps (K b) (k a)) ->
  forall o w', bind m k w = Done o w' -> K b w w'.
Proof.
  intros Hm Hk o w' H. unfold bind in H.
  destruct (m w) as [[a|e] w1|] eqn:Em; try discriminate.
  - eapply K_trans; [eapply Hm; reflexivity | eapply Hk; eassumption].
  - inversion H; subst. eapply Hm; reflexivity.
Qed.

Lemma keeps_bind b {A B} (m : M A) (k : A -> M B) :
  keeps (K b) m -> (forall a, keeps (K b) (k a)) -> keeps (K b) (bind m k).
Proof.
  intros Hm Hk w o w' H. eapply keeps_bind_at; eauto.
Qed.

Lemma keeps_try_except b {A} (body : M A) catches handler :
  keeps (K b) body -> (forall e, keeps (K b) (handler e)) ->
  keeps (K b) (try_except body catches handler).
Proof.
  intros Hb Hh w o w' H. unfold try_except in H.
  destruct (body w) as [[a|e] w1|] eqn:Eb; try discriminate.
  - inversion H; subst. eapply Hb; eassumption.
  - destruct (catches e).
    + eapply K_trans; [eapply Hb; eassumption | eapply Hh; eassumption].
    + inversion H; subst. eapply Hb; eassumption.
Qed.

Lemma keeps_try_pass b body : keeps (K b) body -> keeps (K b) (try_pass body).
Proof.
  intros Hb. apply keeps_try_except; [exact Hb|].
  intros e. apply keeps_ret.
Qed.

Lemma keeps_for_each b {A} (l : list A) body :
  (forall x, keeps (K b) (body x)) -> keeps (K b) (for_each l body).
Proof.
  intros Hb. induction l as [|x l IH]; cbn [for_each].
  - apply keeps_ret.
  - apply keeps_bind; [apply Hb | intros _; exact IH].
Qed.

Lemma keeps_read_self b : keeps (K b) read_self.
Proof. intros w o w' H. inversion H; subst. apply K_refl. Qed.

(** What follows [me = self] may rely on [me] being the object. *)
Lemma keeps_read_self_bind b {A} (k : DS9 -> M A) :
  (forall w o w', k (self w) w = Done o w' -> K b w w') ->
  keeps (K b) (bind read_self k).
Proof. intros Hk w o w' H. apply (Hk w o w'). exact H. Qed.

Lemma keeps_read_environ b : keeps (K b) read_environ.
Proof. intros w o w' H. inversion H; subst. apply K_refl. Qed.

Lemma keeps_getattr b {A} (field : DS9 -> option A) name :
  keeps (K b) (getattr field name).
Proof.
  apply keeps_bind; [apply keeps_read_self|].
  intros me. destruct (field me); [apply keeps_ret | apply keeps_raise].
Qed.

Lemma keeps_getitem b {V} (d : list (list N * V)) k : keeps (K b) (getitem d k).
Proof.
  unfold getitem. destruct (dict_get d k);
    [apply keeps_ret | apply keeps_raise].
Qed.

Lemma keeps_modify_self b f :
  (forall s, debug (f s) = debug s) -> keeps (K b) (modify_self f).
Proof. intros Hf w o w' H. inversion H; subst. apply K_self, Hf. Qed.

Lemma keeps_ask b {A} (c : call A) :
  ok b (Call c) = true -> keeps (K b) (ask E c).
Proof. intros Hc w o w' H. inversion H; subst. now apply K_call. Qed.

Lemma keeps_invoke b {A} (c : call (outcome A)) :
  ok b (Call c) = true -> keeps (K b) (invoke E c).
Proof.
  intros Hc. apply keeps_bind; [now apply keeps_ask|].
  intros [a|e]; [apply keeps_ret | apply keeps_raise].
Qed.

(** Every [print] of the source is under [if self.debug:]. *)
Lemma keeps_debug_print b s : keeps (K b) (debug_print s).
Proof.
  apply keeps_read_self_bind. intros w o w' H.
  destruct (debug (self w)) eqn:D.
  - inversion H; subst. now apply K_print.
  - inversion H; subst. apply K_refl.
Qed.

(** Lines 64 and 135: a value is looked up and printed, under
    [if self.debug:]. *)
Lemma keeps_lookup_print_at b {V} (d : list (list N * V)) key
    (f : V -> list N) w o1 w1 :
  debug (self w) = true ->
  bind (getitem d key) (fun v => print (f v)) w = Done o1 w1 ->
  K b w w1.
Proof.
  intros D H. unfold bind, getitem, ret, raise, print in H.
  destruct (dict_get d key); inversion H; subst.
  - now apply K_print.
  - apply K_refl.
Qed.

(* --------------------------------------------------------------------- *)
(** *** The calls each part of the launcher may make *)

Hypothesis ok_ecall : forall client c_id mtype timeout cmd,
  ok true (Call (EcallAndWait client c_id mtype timeout cmd)) = true.
Hypothesis ok_enotify : forall client c_id mtype,
  ok true (Call (Enotify client c_id mtype)) = true.

Hypothesis ok_join : forall t timeout, ok false (Call (ThreadJoin t timeout)) = true.
Hypothesis ok_kill : forall p, ok false (Call (ProcessKill p)) = true.
Hypothesis ok_unlink : forall f, ok false (Call (Unlink f)) = true.
Hypothesis ok_callback : forall cb, ok false (Call (ExitCallback cb)) = true.
Hypothesis ok_oskill : forall p sig, ok false (Call (OsKill p sig)) = true.
Hypothesis ok_wait : forall period, ok false (Call (EventWait period)) = true.

Hypothesis ok_connect : forall client, ok false (Call (Connect client)) = true.
Hypothesis ok_time : ok false (Call TimeTime) = true.
Hypothesis ok_sleep : forall secs, ok false (Call (Sleep secs)) = true.
Hypothesis ok_subscribed : forall client mtype,
  ok false (Call (GetSubscribedClients client mtype)) = true.
Hypothesis ok_metadata : forall client c_id,
  ok false (Call (GetMetadata client c_id)) = true.

Hypothesis ok_mkdir : forall path, ok false (Call (Mkdir path)) = true.
Hypothesis ok_now : ok false (Call DatetimeNow) = true.
Hypothesis ok_shlex : forall cmd, ok false (Call (ShlexSplit cmd)) = true.
Hypothesis ok_popen : forall argv env, ok false (Call (Popen argv env)) = true.
Hypothesis ok_client : forall name,
  ok false (Call (SAMPIntegratedClient name)) = true.
Hypothesis ok_thread : forall period, ok false (Call (ThreadNew period)) = true.
Hypothesis ok_start : forall t, ok false (Call (ThreadStart t)) = true.
Hypothesis K_putenv : forall k v w,
  k = py "SAMP_HUB" \/ k = py "XMODIFIERS" ->
  K false w (mk_world (self w) (dict_set (environ w) k v) (stdout w) (history w)).

Lemma keeps_with_lock {A} (body : M A) :
  keeps (K true) body -> keeps (K false) (with_lock E body).
Proof.
  intros Hb w o w' H. rewrite with_lock_eq in H.
  destruct (body (log (Ev LockAcquire tt) w)) as [o1 w1|] eqn:Eb;
    [|discriminate].
  inversion H; subst. apply K_lock. eapply Hb; eassumption.
Qed.

Lemma keeps_set cmds timeout : keeps (K false) (set E cmds timeout).
Proof.
  apply keeps_with_lock, keeps_for_each. intros cmd.
  apply keeps_bind; [apply keeps_getattr | intros client].
  apply keeps_bind; [apply keeps_getattr | intros c_id].
  apply keeps_bind; [apply keeps_invoke, ok_ecall | intros _].
  apply keeps_ret.
Qed.

Lemma keeps_get cmd timeout : keeps (K false) (get E cmd timeout).
Proof.
  apply keeps_with_lock.
  apply keeps_bind; [apply keeps_getattr | intros client].
  apply keeps_bind; [apply keeps_getattr | intros c_id].
  apply keeps_invoke, ok_ecall.
Qed.

Lemma keeps_alive : keeps (K false) (alive E).
Proof.
  apply keeps_try_except; [|intros e; apply keeps_ret].
  apply keeps_with_lock.
  apply keeps_bind; [apply keeps_getattr | intros client].
  apply keeps_bind; [apply keeps_getattr | intros c_id].
  apply keeps_bind; [apply keeps_invoke, ok_enotify | intros r].
  apply keeps_ret.
Qed.

Lemma keeps_evtexit_wait period : keeps (K false) (evtexit_wait E period).
Proof.
  apply keeps_bind; [apply keeps_read_self | intros me].
  destruct (evtexit me); [apply keeps_ret|].
  apply keeps_bind; [apply keeps_ask, ok_wait | intros stop].
  apply keeps_bind; [|intros _; apply keeps_ret].
  destruct stop; [apply keeps_modify_self; reflexivity | apply keeps_ret].
Qed.

Lemma keeps_exit use_callback main_thread :
  keeps (K false) (exit E use_callback main_thread).
Proof.
  unfold exit.
  apply keeps_bind; [apply keeps_debug_print | intros _].
  apply keeps_bind;
    [apply keeps_try_pass, keeps_modify_self; reflexivity | intros _].
  apply keeps_bind.
  { destruct main_thread; [|apply keeps_ret].
    apply keeps_bind; [apply keeps_debug_print | intros _].
    apply keeps_try_pass.
    apply keeps_bind; [apply keeps_getattr | intros t].
    apply keeps_invoke, ok_join. }
  intros _.
  apply keeps_bind; [apply keeps_debug_print | intros _].
  apply keeps_bind; [apply keeps_try_pass, keeps_set | intros _].
  apply keeps_bind; [apply keeps_debug_print | intros _].
  apply keeps_bind.
  { apply keeps_try_pass.
    apply keeps_bind; [apply keeps_getattr | intros p].
    apply keeps_invoke, ok_kill. }
  intros _.
  apply keeps_bind; [apply keeps_debug_print | intros _].
  apply keeps_bind.
  { apply keeps_try_pass.
    apply keeps_bind; [apply keeps_getattr | intros f].
    apply keeps_invoke, ok_unlink. }
  intros _.
  apply keeps_bind; [apply keeps_read_self | intros me].
  apply keeps_bind.
  { destruct (exit_callback me); [|apply keeps_ret].
    apply keeps_bind; [apply keeps_debug_print | intros _].
    apply keeps_try_pass, keeps_invoke, ok_callback. }
  intros _.
  apply keeps_bind; [apply keeps_read_self | intros me'].
  destruct (kill_on_exit me'); [|apply keeps_ret].
  apply keeps_bind; [apply keeps_debug_print | intros _].
  apply keeps_try_pass, keeps_invoke, ok_oskill.
Qed.

Lemma keeps_del : keeps (K false) (del E).
Proof.
  apply keeps_bind; [apply keeps_debug_print | intros _].
  apply keeps_exit.
Qed.

Lemma keeps_watch_turn period : keeps (K false) (watch_turn E period).
Proof.
  apply keeps_bind; [apply keeps_debug_print | intros _].
  apply keeps_bind; [apply keeps_evtexit_wait | intros stop].
  destruct stop.
  - apply keeps_bind; [apply keeps_debug_print | intros _].
    apply keeps_ret.
  - apply keeps_bind; [apply keeps_alive | intros alive_now].
    destruct (negb alive_now); [|apply keeps_ret].
    apply keeps_bind; [apply keeps_debug_print | intros _].
    apply keeps_ret.
Qed.

Lemma keeps_watch_loop fuel period : keeps (K false) (watch_loop E fuel period).
Proof.
  induction fuel as [|fuel IH]; cbn [watch_loop].
  - apply keeps_out_of_fuel.
  - apply keeps_bind; [apply keeps_watch_turn | intros stop].
    destruct stop; [apply keeps_ret | exact IH].
Qed.

Lemma keeps_watch_thread fuel period :
  keeps (K false) (watch_thread E fuel period).
Proof.
  apply keeps_bind; [apply keeps_debug_print | intros _].
  apply keeps_bind; [apply keeps_watch_loop | intros _].
  apply keeps_bind; [apply keeps_exit | intros _].
  apply keeps_debug_print.
Qed.

Lemma keeps_scan_clients title ids :
  keeps (K false) (scan_clients E title ids).
Proof.
  induction ids as [|c_id rest IH]; cbn [scan_clients].
  - apply keeps_ret.
  - apply keeps_bind; [apply keeps_getattr | intros client].
    apply keeps_bind; [apply keeps_invoke, ok_metadata | intros c_meta].
    apply keeps_read_self_bind. intros w o w'.
    apply keeps_bind_at.
    + intros o1 w1 H1. destruct (debug (self w)) eqn:D.
      * exact (keeps_lookup_print_at false _ _ _ w o1 w1 D H1).
      * inversion H1; subst. apply K_refl.
    + intros _.
      apply keeps_bind; [apply keeps_getitem | intros name].
      destruct (value_eq_str name title); [apply keeps_ret | exact IH].
Qed.

Lemma keeps_get_samp_clientId title :
  keeps (K false) (get_samp_clientId E title).
Proof.
  apply keeps_bind; [apply keeps_getattr | intros client].
  apply keeps_bind; [apply keeps_invoke, ok_subscribed | intros clients].
  apply keeps_scan_clients.
Qed.

Lemma keeps_deadline (now tstart timeout : Z) e :
  keeps (K false)
    (if (now - tstart >? timeout)%Z then raise e else ret tt).
Proof.
  destruct (now - tstart >? timeout)%Z; [apply keeps_raise | apply keeps_ret].
Qed.

Lemma keeps_hub_turn tstart timeout retry :
  keeps (K false) (hub_turn E tstart timeout retry).
Proof.
  apply keeps_bind; [apply keeps_debug_print | intros _].
  apply keeps_try_except.
  - apply keeps_bind; [apply keeps_getattr | intros client].
    apply keeps_bind; [apply keeps_invoke, ok_connect | intros _].
    apply keeps_bind; [apply keeps_debug_print | intros _].
    apply keeps_ret.
  - intros e.
    apply keeps_bind; [apply keeps_ask, ok_time | intros now].
    apply keeps_bind; [apply keeps_deadline | intros _].
    apply keeps_bind; [apply keeps_invoke, ok_sleep | intros _].
    apply keeps_ret.
Qed.

Lemma keeps_wait_for_hub fuel tstart timeout retry :
  keeps (K false) (wait_for_hub E fuel tstart timeout retry).
Proof.
  induction fuel as [|fuel IH]; cbn [wait_for_hub].
  - apply keeps_out_of_fuel.
  - apply keeps_bind; [apply keeps_hub_turn | intros found].
    destruct found; [apply keeps_ret | exact IH].
Qed.

Lemma keeps_ds9_turn title tstart timeout retry :
  keeps (K false) (ds9_turn E title tstart timeout retry).
Proof.
  apply keeps_bind; [apply keeps_debug_print | intros _].
  apply keeps_bind; [apply keeps_get_samp_clientId | intros c_id].
  apply keeps_bind; [apply keeps_modify_self; reflexivity | intros _].
  destruct (truthy c_id).
  - apply keeps_bind; [apply keeps_debug_print | intros _].
    apply keeps_ret.
  - apply keeps_bind; [apply keeps_ask, ok_time | intros now].
    apply keeps_bind; [apply keeps_deadline | intros _].
    apply keeps_bind; [apply keeps_invoke, ok_sleep | intros _].
    apply keeps_ret.
Qed.

Lemma keeps_wait_for_ds9 fuel title tstart timeout retry :
  keeps (K false) (wait_for_ds9 E fuel title tstart timeout retry).
Proof.
  induction fuel as [|fuel IH]; cbn [wait_for_ds9].
  - apply keeps_out_of_fuel.
  - apply keeps_bind; [apply keeps_ds9_turn | intros found].
    destruct found; [apply keeps_ret | exact IH].
Qed.

Lemma keeps_putenv k v :
  k = py "SAMP_HUB" \/ k = py "XMODIFIERS" -> keeps (K false) (putenv k v).
Proof. intros Hk w o w' H. inversion H; subst. now apply K_putenv. Qed.

Lemma keeps_init_spawn title ds9args :
  keeps (K false) (init_spawn E title ds9args).
Proof.
  unfold init_spawn.
  apply keeps_bind; [apply keeps_invoke, ok_mkdir | intros _].
  apply keeps_bind; [apply keeps_ask, ok_now | intros tnow].
  apply keeps_bind; [apply keeps_read_self | intros me].
  apply keeps_bind; [apply keeps_modify_self; reflexivity | intros _].
  apply keeps_bind; [apply keeps_putenv; auto | intros _].
  apply keeps_bind; [apply keeps_putenv; auto | intros _].
  apply keeps_bind; [apply keeps_read_environ | intros env].
  apply keeps_read_self_bind. intros w o w'.
  apply keeps_bind_at.
  { intros o1 w1 H1. destruct (debug (self w)) eqn:D.
    - exact (keeps_lookup_print_at false _ _ _ w o1 w1 D H1).
    - inversion H1; subst. apply K_refl. }
  intros _.
  apply keeps_bind; [apply keeps_debug_print | intros _].
  apply keeps_bind; [apply keeps_invoke, ok_shlex | intros argv].
  apply keeps_bind; [apply keeps_read_environ | intros env'].
  apply keeps_bind; [apply keeps_invoke, ok_popen | intros p].
  apply keeps_bind; [apply keeps_modify_self; reflexivity | intros _].
  apply keeps_bind; [apply keeps_invoke, ok_client | intros client].
  apply keeps_bind; [apply keeps_modify_self; reflexivity | intros _].
  apply keeps_bind; [apply keeps_modify_self; reflexivity | intros _].
  apply keeps_ask, ok_time.
Qed.

Lemma keeps_start_watcher poll_alive_time :
  keeps (K false) (start_watcher E poll_alive_time).
Proof.
  unfold start_watcher. destruct (0 <? poll_alive_time)%Z.
  - apply keeps_bind; [apply keeps_ask, ok_thread | intros t].
    apply keeps_bind; [apply keeps_modify_self; reflexivity | intros _].
    apply keeps_invoke, ok_start.
  - apply keeps_ret.
Qed.

Lemma keeps_init_try fuel title timeout ds9args poll_alive_time retry :
  keeps (K false)
    (init_try E fuel title timeout ds9args poll_alive_time retry).
Proof.
  apply keeps_bind; [apply keeps_init_spawn | intros tstart].
  apply keeps_bind; [apply keeps_wait_for_hub | intros _].
  apply keeps_bind; [apply keeps_wait_for_ds9 | intros _].
  apply keeps_start_watcher.
Qed.

(** Lines 55-100, the [try] statement as a whole. *)
Lemma keeps_init_guarded fuel title timeout ds9args poll_alive_time retry :
  keeps (K false)
    (try_except
       (init_try E fuel title timeout ds9args poll_alive_time retry)
       is_Exception
       (fun e => exit E true true ;; raise e)).
Proof.
  apply keeps_try_except; [apply keeps_init_try | intros e].
  apply keeps_bind; [apply keeps_exit | intros _; apply keeps_raise].
Qed.

End Keeps.

(* ===================================================================== *)
(** ** Output, lock, calls and environment *)
(* ===================================================================== *)

(** *** Nothing is printed with [debug] off *)

Lemma quiet_refl (b : bool) w : quiet w w.
Proof. split; auto. Qed.

Lemma quiet_trans (b : bool) w1 w2 w3 : quiet w1 w2 -> quiet w2 w3 -> quiet w1 w3.
Proof.
  intros [D1 S1] [D2 S2]. split; [congruence|].
  intros D. rewrite S2, S1; auto. congruence.
Qed.

Lemma quiet_call (b : bool) R (c : call R) (r : R) w :
  true = true -> quiet w (log (Ev c r) w).
Proof. split; auto. Qed.

Lemma quiet_self (b : bool) f w :
  debug (f (self w)) = debug (self w) -> quiet w (with_self f w).
Proof. split; auto. Qed.

Lemma quiet_print (b : bool) s w :
  debug (self w) = true ->
  quiet w (mk_world (self w) (environ w) (stdout w ++ [s]) (history w)).
Proof. intros D. split; [reflexivity|]. cbn [self]. congruence. Qed.

Lemma quiet_lock w w1 :
  quiet (log (Ev LockAcquire tt) w) w1 -> quiet w (log (Ev LockRelease tt) w1).
Proof. intros H. exact H. Qed.

Lemma quiet_putenv k v w :
  k = py "SAMP_HUB" \/ k = py "XMODIFIERS" ->
  quiet w (mk_world (self w) (dict_set (environ w) k v) (stdout w) (history w)).
Proof. split; auto. Qed.

Ltac quiet_side :=
  first [ exact quiet_refl | exact quiet_trans | exact quiet_call
        | exact quiet_self | exact quiet_print | exact quiet_lock
        | exact quiet_putenv | (intros; reflexivity) ].

(** *** The lock *)

Lemma lock_scan_app held l1 l2 :
  lock_scan held (l1 ++ l2) =
  match lock_scan held l1 with
  | Some h => lock_scan h l2
  | None => None
  end.
Proof.
  revert held. induction l1 as [|c l1 IH]; intros held; [reflexivity|].
  cbn [app lock_scan]. destruct (lock_step held c); [apply IH | reflexivity].
Qed.

Lemma disciplined_refl b w : disciplined b w w.
Proof. exists []. rewrite app_nil_r. auto. Qed.

Lemma disciplined_trans b w1 w2 w3 :
  disciplined b w1 w2 -> disciplined b w2 w3 -> disciplined b w1 w3.
Proof.
  intros (l1 & H1 & L1) (l2 & H2 & L2). exists (l1 ++ l2). split.
  - rewrite H2, H1, app_assoc. reflexivity.
  - rewrite calls_app, lock_scan_app, L1. exact L2.
Qed.

Lemma disciplined_call b R (c : call R) (r : R) w :
  lock_neutral b (Call c) = true -> disciplined b w (log (Ev c r) w).
Proof.
  intros H. exists [Ev c r]. split; [reflexivity|].
  unfold lock_neutral in H. change (calls [Ev c r]) with [Call c].
  cbn [lock_scan]. destruct (lock_step b (Call c)) as [h|]; [|discriminate].
  apply Bool.eqb_prop in H. now subst.
Qed.

Lemma disciplined_self b f w :
  debug (f (self w)) = debug (self w) -> disciplined b w (with_self f w).
Proof. intros _. exists []. cbn. rewrite app_nil_r. auto. Qed.

Lemma disciplined_print b s w :
  debug (self w) = true ->
  disciplined b w
    (mk_world (self w) (environ w) (stdout w ++ [s]) (history w)).
Proof. intros _. exists []. cbn. rewrite app_nil_r. auto. Qed.

Lemma disciplined_lock w w1 :
  disciplined true (log (Ev LockAcquire tt) w) w1 ->
  disciplined false w (log (Ev LockRelease tt) w1).
Proof.
  intros (l & H & L). exists (Ev LockAcquire tt :: l ++ [Ev LockRelease tt]).
  split.
  - cbn [history log] in *. rewrite H, <- !app_assoc. reflexivity.
  - change (calls (Ev LockAcquire tt :: l ++ [Ev LockRelease tt]))
      with (Call LockAcquire :: calls (l ++ [Ev LockRelease tt])).
    rewrite calls_app. cbn [lock_scan lock_step].
    rewrite lock_scan_app, L. reflexivity.
Qed.

Lemma disciplined_putenv k v w :
  k = py "SAMP_HUB" \/ k = py "XMODIFIERS" ->
  disciplined false w
    (mk_world (self w) (dict_set (environ w) k v) (stdout w) (history w)).
Proof. intros _. exists []. cbn. rewrite app_nil_r. auto. Qed.

Ltac disciplined_side :=
  first [ exact disciplined_refl | exact disciplined_trans
        | exact disciplined_call | exact disciplined_self
        | exact disciplined_print | exact disciplined_lock
        | exact disciplined_putenv | (intros; reflexivity) ].

(** *** The calls of a method *)

Section OnlyCalls.

Variable okp : issued -> bool.

Lemma only_calls_refl (b : bool) w : only_calls okp w w.
Proof. exists []. rewrite app_nil_r. auto. Qed.

Lemma only_calls_trans (b : bool) w1 w2 w3 :
  only_calls okp w1 w2 -> only_calls okp w2 w3 -> only_calls okp w1 w3.
Proof.
  intros (l1 & H1 & L1) (l2 & H2 & L2). exists (l1 ++ l2). split.
  - rewrite H2, H1, app_assoc. reflexivity.
  - rewrite calls_app, forallb_app, L1, L2. reflexivity.
Qed.

Lemma only_calls_call (b : bool) R (c : call R) (r : R) w :
  okp (Call c) = true -> only_calls okp w (log (Ev c r) w).
Proof.
  intros H. exists [Ev c r]. split; [reflexivity|].
  change (calls [Ev c r]) with [Call c]. cbn [forallb]. now rewrite H.
Qed.

Lemma only_calls_self (b : bool) f w :
  debug (f (self w)) = debug (self w) -> only_calls okp w (with_self f w).
Proof. intros _. exists []. cbn. rewrite app_nil_r. auto. Qed.

Lemma only_calls_print (b : bool) s w :
  debug (self w) = true ->
  only_calls okp w
    (mk_world (self w) (environ w) (stdout w ++ [s]) (history w)).
Proof. intros _. exists []. cbn. rewrite app_nil_r. auto. Qed.

Lemma only_calls_putenv k v w :
  k = py "SAMP_HUB" \/ k = py "XMODIFIERS" ->
  only_calls okp w
    (mk_world (self w) (dict_set (environ w) k v) (stdout w) (history w)).
Proof. intros _. exists []. cbn. rewrite app_nil_r. auto. Qed.

Lemma only_calls_lock :
  okp (Call LockAcquire) = true -> okp (Call LockRelease) = true ->
  forall w w1,
    only_calls okp (log (Ev LockAcquire tt) w) w1 ->
    only_calls okp w (log (Ev LockRelease tt) w1).
Proof.
  intros Ha Hr w w1 H.
  eapply (only_calls_trans false);
    [apply (only_calls_call false); exact Ha|].
  eapply (only_calls_trans false);
    [exact H | apply (only_calls_call false); exact Hr].
Qed.

End OnlyCalls.

Ltac only_calls_side :=
  first [ exact (only_calls_refl _) | exact (only_calls_trans _)
        | exact (only_calls_call _) | exact (only_calls_self _)
        | exact (only_calls_print _) | exact (only_calls_putenv _)
        | (apply only_calls_lock; reflexivity)
        | (intros; reflexivity) ].

(** *** The process environment *)

Lemma same_environ_refl (b : bool) w : same_environ w w.
Proof. reflexivity. Qed.

Lemma same_environ_trans (b : bool) w1 w2 w3 :
  same_environ w1 w2 -> same_environ w2 w3 -> same_environ w1 w3.
Proof. unfold same_environ. congruence. Qed.

Lemma same_environ_call (b : bool) R (c : call R) (r : R) w :
  true = true -> same_environ w (log (Ev c r) w).
Proof. reflexivity. Qed.

Lemma same_environ_self (b : bool) f w :
  debug (f (self w)) = debug (self w) -> same_environ w (with_self f w).
Proof. reflexivity. Qed.

Lemma same_environ_print (b : bool) s w :
  debug (self w) = true ->
  same_environ w (mk_world (self w) (environ w) (stdout w ++ [s]) (history w)).
Proof. reflexivity. Qed.

Lemma same_environ_lock w w1 :
  same_environ (log (Ev LockAcquire tt) w) w1 ->
  same_environ w (log (Ev LockRelease tt) w1).
Proof. intros H. exact H. Qed.

Ltac same_environ_side :=
  first [ exact same_environ_refl | exact same_environ_trans
        | exact same_environ_call | exact same_environ_self
        | exact same_environ_print | exact same_environ_lock
        | (intros; reflexivity) ].

Section EnvironBut.

Variable keys : list (list N).

Lemma same_environ_but_refl (b : bool) w : same_environ_but keys w w.
Proof. intros k _. reflexivity. Qed.

Lemma same_environ_but_trans (b : bool) w1 w2 w3 :
  same_environ_but keys w1 w2 -> same_environ_but keys w2 w3 ->
  same_environ_but keys w1 w3.
Proof. intros H1 H2 k Hk. rewrite H2, H1; auto. Qed.

Lemma same_environ_but_call (b : bool) R (c : call R) (r : R) w :
  true = true -> same_environ_but keys w (log (Ev c r) w).
Proof. intros _ k _. reflexivity. Qed.

Lemma same_environ_but_self (b : bool) f w :
  debug (f (self w)) = debug (self w) ->
  same_environ_but keys w (with_self f w).
Proof. intros _ k _. reflexivity. Qed.

Lemma same_environ_but_print (b : bool) s w :
  debug (self w) = true ->
  same_environ_but keys w
    (mk_world (self w) (environ w) (stdout w ++ [s]) (history w)).
Proof. intros _ k _. reflexivity. Qed.

Lemma same_environ_but_lock w w1 :
  same_environ_but keys (log (Ev LockAcquire tt) w) w1 ->
  same_environ_but keys w (log (Ev LockRelease tt) w1).
Proof. intros H. exact H. Qed.

End EnvironBut.

Lemma launcher_variables_putenv k v w :
  k = py "SAMP_HUB" \/ k = py "XMODIFIERS" ->
  same_environ_but launcher_variables w
    (mk_world (self w) (dict_set (environ w) k v) (stdout w) (history w)).
Proof.
  intros Hk k' Hk'. cbn [environ]. apply dict_get_set_other.
  intros ->. apply Hk'. unfold launcher_variables.
  destruct Hk as [-> | ->]; cbn [In]; auto.
Qed.

Ltac environ_but_side :=
  first [ exact (same_environ_but_refl _) | exact (same_environ_but_trans _)
        | exact (same_environ_but_call _) | exact (same_environ_but_self _)
        | exact (same_environ_but_print _) | exact (same_environ_but_lock _)
        | exact launcher_variables_putenv
        | (intros; reflexivity) ].

(* --------------------------------------------------------------------- *)
(** *** The constructor, after lines 47-54 *)

Lemma init_attrs_world E cb kill dbg w :
  init_attrs E cb kill dbg w =
  Done (Returns tt)
    (mk_world
       (mk_DS9 dbg cb kill false (oracle E N (history w) Getpid)
               None None None None None)
       (environ w) (stdout w)
       (history w ++ [Ev Getpid (oracle E N (history w) Getpid);
                      Ev (AtexitRegister false true) tt])).
Proof.
  unfold init_attrs, modify_self, bind, ask, with_self, log.
  cbn [history self environ stdout]. rewrite unit_answer, <- app_assoc.
  reflexivity.
Qed.

Lemma init_eq E fuel title timeout cb kill ds9args poll_alive_time retry dbg w wa :
  init_attrs E cb kill dbg w = Done (Returns tt) wa ->
  init E fuel title timeout cb kill ds9args poll_alive_time retry dbg w =
  try_except (init_try E fuel title timeout ds9args poll_alive_time retry)
    is_Exception (fun e => exit E true true ;; raise e) wa.
Proof. intros Ha. unfold init, bind at 1. rewrite Ha. reflexivity. Qed.

Lemma keeps_quiet_silent {A} (m : M A) : keeps quiet m -> prints_nothing m.
Proof. intros H w o w' D R. exact (proj2 (H w o w' R) D). Qed.

(** Every [print] of the launcher is under [if self.debug:]: with [debug]
    off no method prints anything, whether it returns or raises, and a
    constructor called with [debug=False] prints nothing either. *)
Theorem silent_without_debug (E : setting) :
  (forall cmds timeout, prints_nothing (set E cmds timeout)) /\
  (forall cmd timeout, prints_nothing (get E cmd timeout)) /\
  prints_nothing (alive E) /\
  (forall use_callback main_thread,
     prints_nothing (exit E use_callback main_thread)) /\
  prints_nothing (del E) /\
  (forall fuel period, prints_nothing (watch_thread E fuel period)) /\
  (forall title, prints_nothing (get_samp_clientId E title)) /\
  (forall fuel title timeout cb kill ds9args poll_alive_time retry w o w',
     init E fuel title timeout cb kill ds9args poll_alive_time retry false w
       = Done o w' ->
     stdout w' = stdout w).
Proof.
  repeat apply conj.
  - intros cmds timeout. apply keeps_quiet_silent.
    apply (keeps_set E (fun _ => quiet) (fun _ _ => true)); quiet_side.
  - intros cmd timeout. apply keeps_quiet_silent.
    apply (keeps_get E (fun _ => quiet) (fun _ _ => true)); quiet_side.
  - apply keeps_quiet_silent.
    apply (keeps_alive E (fun _ => quiet) (fun _ _ => true)); quiet_side.
  - intros use_callback main_thread. apply keeps_quiet_silent.
    apply (keeps_exit E (fun _ => quiet) (fun _ _ => true)); quiet_side.
  - apply keeps_quiet_silent.
    apply (keeps_del E (fun _ => quiet) (fun _ _ => true)); quiet_side.
  - intros fuel period. apply keeps_quiet_silent.
    apply (keeps_watch_thread E (fun _ => quiet) (fun _ _ => true));
      quiet_side.
  - intros title. apply keeps_quiet_silent.
    apply (keeps_get_samp_clientId E (fun _ => quiet) (fun _ _ => true));
      quiet_side.
  - intros fuel title timeout cb kill ds9args poll_alive_time retry w o w' H.
    rewrite (init_eq _ _ _ _ _ _ _ _ _ _ _ _ (init_attrs_world E cb kill false w))
      in H.
    assert (Hk : keeps quiet
      (try_except (init_try E fuel title timeout ds9args poll_alive_time retry)
         is_Exception (fun e => exit E true true ;; raise e))).
    { apply (keeps_init_guarded E (fun _ => quiet) (fun _ _ => true));
        quiet_side. }
    destruct (Hk _ _ _ H) as [_ Hs]. now apply Hs.
Qed.

(** The lock of line 50 in every method and in the constructor: in the
    calls of a run, whether it returns or raises, the lock is never
    acquired while it is held (it is not reentrant), it is released only
    when held, every [ecall_and_wait] and [enotify] is made with the lock
    held, and the lock is free at the end. *)
Theorem lock_discipline (E : setting) :
  (forall cmds timeout, keeps (disciplined false) (set E cmds timeout)) /\
  (forall cmd timeout, keeps (disciplined false) (get E cmd timeout)) /\
  keeps (disciplined false) (alive E) /\
  (forall use_callback main_thread,
     keeps (disciplined false) (exit E use_callback main_thread)) /\
  keeps (disciplined false) (del E) /\
  (forall fuel period, keeps (disciplined false) (watch_thread E fuel period)) /\
  (forall fuel title timeout cb kill ds9args poll_alive_time retry dbg,
     keeps (disciplined false)
       (init E fuel title timeout cb kill ds9args poll_alive_time retry dbg)).
Proof.
  repeat apply conj.
  - intros cmds timeout.
    apply (keeps_set E disciplined lock_neutral); disciplined_side.
  - intros cmd timeout.
    apply (keeps_get E disciplined lock_neutral); disciplined_side.
  - apply (keeps_alive E disciplined lock_neutral); disciplined_side.
  - intros use_callback main_thread.
    apply (keeps_exit E disciplined lock_neutral); disciplined_side.
  - apply (keeps_del E disciplined lock_neutral); disciplined_side.
  - intros fuel period.
    apply (keeps_watch_thread E disciplined lock_neutral); disciplined_side.
  - intros fuel title timeout cb kill ds9args poll_alive_time retry dbg w o w' H.
    rewrite (init_eq _ _ _ _ _ _ _ _ _ _ _ _ (init_attrs_world E cb kill dbg w))
      in H.
    assert (Hk : keeps (disciplined false)
      (try_except (init_try E fuel title timeout ds9args poll_alive_time retry)
         is_Exception (fun e => exit E true true ;; raise e))).
    { apply (keeps_init_guarded E disciplined lock_neutral); disciplined_side. }
    eapply disciplined_trans; [|exact (Hk _ _ _ H)].
    eexists. split; [reflexivity|]. reflexivity.
Qed.

(** [set] and [get] make no call but on the lock and [ecall_and_wait], and
    [alive] makes no call but on the lock and [enotify], whether they
    return or raise: none of them touches the child process, the hub file
    or the threads. *)
Theorem commands_footprint (E : setting) :
  (forall cmds timeout,
     keeps (only_calls is_lock_or_ecall) (set E cmds timeout)) /\
  (forall cmd timeout,
     keeps (only_calls is_lock_or_ecall) (get E cmd timeout)) /\
  keeps (only_calls is_lock_or_ping) (alive E).
Proof.
  repeat apply conj.
  - intros cmds timeout.
    apply (keeps_set E (fun _ => only_calls is_lock_or_ecall)
             (fun _ => is_lock_or_ecall)); only_calls_side.
  - intros cmd timeout.
    apply (keeps_get E (fun _ => only_calls is_lock_or_ecall)
             (fun _ => is_lock_or_ecall)); only_calls_side.
  - apply (keeps_alive E (fun _ => only_calls is_lock_or_ping)
             (fun _ => is_lock_or_ping)); only_calls_side.
Qed.

(** Lines 47-100: every run of the constructor, whether it returns or
    raises, starts by reading the process id and registering [exit] with
    [atexit] (with [use_callback=False], [main_thread=True]); nothing
    unregisters it.  When the constructor returns, or raises an exception
    which is not an [Exception], it has made no teardown call: no [join],
    [kill], [unlink], exit callback or [os.kill]. *)
Theorem constructor_calls (E : setting) (fuel : nat) (title : list N)
    (timeout : Z) (cb : option N) (kill : bool) (ds9args : list N)
    (poll_alive_time retry : Z) (dbg : bool) (w w' : world)
    (o : outcome unit) :
  init E fuel title timeout cb kill ds9args poll_alive_time retry dbg w
    = Done o w' ->
  exists p l,
    history w' = history w ++
      Ev Getpid p :: Ev (AtexitRegister false true) tt :: l /\
    (o = Returns tt \/ (exists e, o = Raises e /\ is_Exception e = false) ->
     existsb is_teardown_call (calls l) = false).
Proof.
  intros H.
  rewrite (init_eq _ _ _ _ _ _ _ _ _ _ _ _ (init_attrs_world E cb kill dbg w))
    in H.
  exists (oracle E N (history w) Getpid).
  assert (Hall : keeps (only_calls (fun _ => true))
    (try_except (init_try E fuel title timeout ds9args poll_alive_time retry)
       is_Exception (fun e => exit E true true ;; raise e))).
  { apply (keeps_init_guarded E (fun _ => only_calls (fun _ => true))
             (fun _ _ => true)); only_calls_side. }
  destruct (Hall _ _ _ H) as (l & Hl & _). cbn [history] in Hl.
  exists l. split; [rewrite Hl, <- app_assoc; reflexivity|].
  intros Ho.
  assert (Htry : keeps (only_calls (fun i => negb (is_teardown_call i)))
    (init_try E fuel title timeout ds9args poll_alive_time retry)).
  { apply (keeps_init_try E
             (fun _ => only_calls (fun i => negb (is_teardown_call i)))
             (fun _ i => negb (is_teardown_call i))); only_calls_side. }
  unfold try_except in H.
  match type of H with
  | context [init_try E fuel title timeout ds9args poll_alive_time retry ?W] =>
      destruct (init_try E fuel title timeout ds9args poll_alive_time retry W)
        as [[[]|e] w1|] eqn:Ht; try discriminate;
      [ | destruct (is_Exception e) eqn:He ]
  end.
  - inversion H; subst.
    destruct (Htry _ _ _ Ht) as (l' & Hl' & Hok). cbn [history] in Hl'.
    rewrite Hl' in Hl. apply app_inv_head in Hl. subst l'.
    clear - Hok. induction (calls l) as [|c cs IH]; [reflexivity|].
    cbn [forallb existsb] in *. apply andb_true_iff in Hok.
    destruct Hok as [Hc Hcs]. rewrite (IH Hcs).
    destruct (is_teardown_call c); [discriminate | reflexivity].
  - exfalso. unfold bind in H.
    destruct (exit_runs E true true w1 (self w1) eq_refl) as (w2 & R & _).
    rewrite R in H. inversion H; subst.
    destruct Ho as [Ho | (e' & Ho & He')]; [discriminate|].
    injection Ho as <-. congruence.
  - inversion H; subst.
    destruct (Htry _ _ _ Ht) as (l' & Hl' & Hok). cbn [history] in Hl'.
    rewrite Hl' in Hl. apply app_inv_head in Hl. subst l'.
    clear - Hok. induction (calls l) as [|c cs IH]; [reflexivity|].
    cbn [forallb existsb] in *. apply andb_true_iff in Hok.
    destruct Hok as [Hc Hcs]. rewrite (IH Hcs).
    destruct (is_teardown_call c); [discriminate | reflexivity].
Qed.

Lemma constructor_calls_witness :
  exists w' p l,
    init smooth_setting 5 (py "ds9SAMP") 15 None false (py "") 5 1 false
         fresh_world = Done (Returns tt) w' /\
    history w' = history fresh_world ++
      Ev Getpid p :: Ev (AtexitRegister false true) tt :: l /\
    existsb is_teardown_call (calls l) = false.
Proof.
  eassert (Hi : init smooth_setting 5 (py "ds9SAMP") 15 None false (py "")
                  5 1 false fresh_world = Done (Returns tt) _)
    by (vm_compute; reflexivity).
  destruct (constructor_calls _ _ _ _ _ _ _ _ _ _ _ _ _ Hi)
    as (p & l & Hl & Hn).
  eexists. exists p, l. split; [exact Hi|]. split; [exact Hl|].
  apply Hn. left. reflexivity.
Defined.

(** The process environment ([os.environ]): a run of the constructor,
    whether it returns or raises, changes no variable other than
    [SAMP_HUB] and [XMODIFIERS], and no other method changes the
    environment at all. *)
Theorem environment_footprint (E : setting) :
  (forall fuel title timeout cb kill ds9args poll_alive_time retry dbg,
     keeps (same_environ_but launcher_variables)
       (init E fuel title timeout cb kill ds9args poll_alive_time retry dbg)) /\
  (forall cmds timeout, keeps same_environ (set E cmds timeout)) /\
  (forall cmd timeout, keeps same_environ (get E cmd timeout)) /\
  keeps same_environ (alive E) /\
  (forall use_callback main_thread,
     keeps same_environ (exit E use_callback main_thread)) /\
  keeps same_environ (del E) /\
  (forall fuel period, keeps same_environ (watch_thread E fuel period)).
Proof.
  repeat apply conj.
  - intros fuel title timeout cb kill ds9args poll_alive_time retry dbg w o w' H.
    rewrite (init_eq _ _ _ _ _ _ _ _ _ _ _ _ (init_attrs_world E cb kill dbg w))
      in H.
    assert (Hk : keeps (same_environ_but launcher_variables)
      (try_except (init_try E fuel title timeout ds9args poll_alive_time retry)
         is_Exception (fun e => exit E true true ;; raise e))).
    { apply (keeps_init_guarded E
               (fun _ => same_environ_but launcher_variables)
               (fun _ _ => true)); environ_but_side. }
    exact (Hk _ _ _ H).
  - intros cmds timeout.
    apply (keeps_set E (fun _ => same_environ) (fun _ _ => true));
      same_environ_side.
  - intros cmd timeout.
    apply (keeps_get E (fun _ => same_environ) (fun _ _ => true));
      same_environ_side.
  - apply (keeps_alive E (fun _ => same_environ) (fun _ _ => true));
      same_environ_side.
  - intros use_callback main_thread.
    apply (keeps_exit E (fun _ => same_environ) (fun _ _ => true));
      same_environ_side.
  - apply (keeps_del E (fun _ => same_environ) (fun _ _ => true));
      same_environ_side.
  - intros fuel period.
    apply (keeps_watch_thread E (fun _ => same_environ) (fun _ _ => true));
      same_environ_side.
Qed.
